(** * Tracking protocol of the automated data-store discovery lambdas

    A shallow embedding of the Python handlers under [src/lambda]: the
    tracker table in DynamoDB, the hand-off queue, and the handlers that
    insert tracker records and advance them from stage to stage.

    Python values are an inductive type, handlers are functions in a
    reader/state/exception monad over a [world] that holds the DynamoDB
    tables and the log of AWS requests issued so far.  Everything outside
    the repository (the answers of the AWS services, the identifiers drawn
    by [uuid.uuid4], the process environment) is read from a [ctx]. *)

From stdpp Require Import gmap strings list fin_maps pretty.
From Stdlib Require Import ZArith Ascii String.

Set Warnings "-register-all".
Open Scope string_scope.
Open Scope Z_scope.

(** ** Python values *)

(** The values that reach the handlers: JSON documents (events, message
    bodies, boto3 responses) and deserialised DynamoDB items.  A [dict] is
    its list of bindings in insertion order; numbers are integers.

    [VJson v] is the [str] that [json.dumps(v)] returns, the only text that
    [json.loads] is applied to in the handlers; [json.loads] gives [v] back
    on it.  [VStr s] is any other [str]: used as a message body it is a text
    that [json.loads] rejects. *)
Inductive value : Type :=
  | VNone
  | VBool (b : bool)
  | VNum (n : Z)
  | VStr (s : string)
  | VJson (v : value)
  | VList (l : list value)
  | VDict (d : list (string * value)).

Abbreviation dict := (list (string * value)).

Definition join (sep : string) (l : list string) : string :=
  match l with
  | [] => ""
  | x :: xs => fold_left (fun acc y => acc ++ sep ++ y) xs x
  end.

Definition dquote : string := String (ascii_of_nat 34) EmptyString.

(** Escaping of a JSON string body: the quote and the backslash. *)
Fixpoint json_escape (s : string) : string :=
  match s with
  | EmptyString => EmptyString
  | String a r =>
      if decide (a = ascii_of_nat 34 ∨ a = ascii_of_nat 92)
      then String (ascii_of_nat 92) (String a (json_escape r))
      else String a (json_escape r)
  end.

(** [json.dumps] with the default separators. *)
Fixpoint json_dumps (v : value) : string :=
  match v with
  | VNone => "null"
  | VBool true => "true"
  | VBool false => "false"
  | VNum n => pretty n
  | VStr s => dquote ++ json_escape s ++ dquote
  | VJson v' => dquote ++ json_escape (json_dumps v') ++ dquote
  | VList l => "[" ++ join ", " (map json_dumps l) ++ "]"
  | VDict d =>
      "{" ++ join ", "
        (map (fun kv => dquote ++ json_escape (fst kv) ++ dquote ++ ": "
                        ++ json_dumps (snd kv)) d) ++ "}"
  end.

(** The text of a [str] value; [None] for a value that is not a [str]. *)
Definition str_of (v : value) : option string :=
  match v with
  | VStr s => Some s
  | VJson v' => Some (json_dumps v')
  | _ => None
  end.

(** [repr(v)]; a [str] is shown between single quotes, without escapes. *)
Fixpoint py_repr (v : value) : string :=
  match v with
  | VNone => "None"
  | VBool true => "True"
  | VBool false => "False"
  | VNum n => pretty n
  | VStr s => "'" ++ s ++ "'"
  | VJson v' => "'" ++ json_dumps v' ++ "'"
  | VList l => "[" ++ join ", " (map py_repr l) ++ "]"
  | VDict d =>
      "{" ++ join ", "
        (map (fun kv => "'" ++ fst kv ++ "': " ++ py_repr (snd kv)) d) ++ "}"
  end.

(** [str(v)], the conversion an f-string applies to [{v}]. *)
Definition py_str (v : value) : string :=
  match str_of v with
  | Some s => s
  | None => py_repr v
  end.

(** Truth value: what [if v] and [not v] test. *)
Definition truthy (v : value) : bool :=
  match v with
  | VNone => false
  | VBool b => b
  | VNum n => negb (n =? 0)
  | VStr s => negb (String.eqb s "")
  | VJson _ => true
  | VList l => match l with [] => false | _ => true end
  | VDict d => match d with [] => false | _ => true end
  end.

(** [v == "lit"] for a string literal. *)
Definition eq_str (v : value) (lit : string) : bool :=
  match str_of v with
  | Some s => String.eqb s lit
  | None => false
  end.

(** [v == n] for an integer literal ([True == 1] and [False == 0] hold in
    Python). *)
Definition eq_num (v : value) (n : Z) : bool :=
  match v with
  | VNum m => m =? n
  | VBool b => Z.b2z b =? n
  | _ => false
  end.

Fixpoint dict_lookup (k : string) (d : dict) : option value :=
  match d with
  | [] => None
  | (k', v) :: r => if String.eqb k k' then Some v else dict_lookup k r
  end.

(** [d[k] = v]: the binding is replaced in place, or appended. *)
Fixpoint dict_set (k : string) (v : value) (d : dict) : dict :=
  match d with
  | [] => [(k, v)]
  | (k', v') :: r =>
      if String.eqb k k' then (k, v) :: r else (k', v') :: dict_set k v r
  end.

(** [s.replace(a, b)] for one-character [a] and [b]. *)
Fixpoint replace (a b : ascii) (s : string) : string :=
  match s with
  | EmptyString => EmptyString
  | String c r => String (if Ascii.eqb c a then b else c) (replace a b r)
  end.

Definition lower_ascii (c : ascii) : ascii :=
  let n := nat_of_ascii c in
  if (Nat.leb 65 n && Nat.leb n 90)%bool then ascii_of_nat (n + 32) else c.

(** [s.lower()] on ASCII letters. *)
Fixpoint lower (s : string) : string :=
  match s with
  | EmptyString => EmptyString
  | String c r => String (lower_ascii c) (lower r)
  end.

(** ** Exceptions and results *)

Inductive exn : Type :=
  | MalformedEvent
  | MissingEnvironmentVariable
  | ValueError
  | KeyError
  | IndexError
  | AttributeError
  | TypeError
  | ParamValidationError
  | ClientError (code : string)
  | Exception_.

Inductive result (A : Type) : Type :=
  | Ok (a : A)
  | Raise (e : exn).
Arguments Ok {A} a.
Arguments Raise {A} e.

(** ** The world outside the handler *)

(** A boto3 request: operation [operation] of the client of [service],
    called with the keyword arguments [kwargs]. *)
Record call : Type := Call {
  service : string;
  operation : string;
  kwargs : dict;
}.

(** What an invocation reads but cannot change: the process environment,
    the identifiers [uuid.uuid4()] returns (the n-th draw since the world
    began), the answer of AWS to a request given the requests before it (a
    response dict, or the exception boto3 raises), and the formatted time
    of day. *)
Record ctx : Type := Ctx {
  environ : gmap string string;
  uuid_at : nat -> string;
  aws : list call -> call -> result dict;
  clock : list call -> string;
}.

(** A DynamoDB table with hash key [id]: its items by key. *)
Abbreviation table := (gmap string dict).

Record world : Type := World {
  ddb : string -> table;      (* the tables, by table name *)
  calls : list call;          (* requests issued so far, oldest first *)
  drawn : nat;                (* number of uuid4() draws so far *)
}.

Definition log_call (rq : call) (w : world) : world :=
  World (ddb w) (calls w ++ [rq]) (drawn w).

Definition set_table (t : string) (tb : table) (w : world) : world :=
  World (fun t' => if decide (t' = t) then tb else ddb w t') (calls w) (drawn w).

(** ** The handler monad *)

Definition M (A : Type) : Type := ctx -> world -> result A * world.

Definition ret {A} (a : A) : M A := fun _ w => (Ok a, w).
Definition raise {A} (e : exn) : M A := fun _ w => (Raise e, w).
Definition bind {A B} (m : M A) (k : A -> M B) : M B :=
  fun c w =>
    match m c w with
    | (Ok a, w') => k a c w'
    | (Raise e, w') => (Raise e, w')
    end.

(** [try: m except: h e]; [h] returns [None] for an exception it does not
    catch. *)
Definition try_except {A} (m : M A) (h : exn -> option (M A)) : M A :=
  fun c w =>
    match m c w with
    | (Ok a, w') => (Ok a, w')
    | (Raise e, w') =>
        match h e with
        | Some k => k c w'
        | None => (Raise e, w')
        end
    end.

Declare Scope py_scope.
Delimit Scope py_scope with py.
Notation "x <- m ;; k" := (bind m (fun x => k))
  (at level 100, m at next level, right associativity) : py_scope.
Notation "m ;;; k" := (bind m (fun _ => k))
  (at level 100, right associativity) : py_scope.
Open Scope py_scope.

Definition lift {A} (r : result A) : M A := fun _ w => (r, w).

(** [for x in l: body x]. *)
Fixpoint for_ {A} (l : list A) (body : A -> M unit) : M unit :=
  match l with
  | [] => ret tt
  | x :: r => body x ;;; for_ r body
  end.

(** A loop that carries a local variable. *)
Fixpoint for_acc {A S} (l : list A) (s : S) (body : S -> A -> M S) : M S :=
  match l with
  | [] => ret s
  | x :: r => s' <- body s x ;; for_acc r s' body
  end.

(** [os.environ.get(k)]. *)
Definition os_environ_get (k : string) : M (option string) :=
  fun c w => (Ok (environ c !! k), w).

(** [str(uuid.uuid4())]. *)
Definition uuid4 : M string :=
  fun c w => (Ok (uuid_at c (drawn w)), World (ddb w) (calls w) (S (drawn w))).

(** A request to a service that keeps no state of interest here. *)
Definition boto (svc op : string) (kw : dict) : M value :=
  fun c w =>
    let rq := Call svc op kw in
    match aws c (calls w) rq with
    | Ok r => (Ok (VDict r), log_call rq w)
    | Raise e => (Raise e, log_call rq w)
    end.

(** ** Operations on values that can raise *)

(** [v[k]] for a string key. *)
Definition subscript (v : value) (k : string) : result value :=
  match v with
  | VDict d =>
      match dict_lookup k d with
      | Some x => Ok x
      | None => Raise KeyError
      end
  | _ => Raise TypeError
  end.

(** [v.get(k, dflt)]. *)
Definition get_default (v : value) (k : string) (dflt : value) : result value :=
  match v with
  | VDict d => Ok (default dflt (dict_lookup k d))
  | _ => Raise AttributeError
  end.

(** [v.get(k)]. *)
Definition get (v : value) (k : string) : result value :=
  get_default v k VNone.

(** [v[0]]. *)
Definition first_item (v : value) : result value :=
  match v with
  | VList (x :: _) => Ok x
  | VList [] => Raise IndexError
  | VDict _ => Raise KeyError
  | VStr _ | VJson _ =>
      match str_of v with
      | Some (String a _) => Ok (VStr (String a EmptyString))
      | _ => Raise IndexError
      end
  | _ => Raise TypeError
  end.

(** [v.lower()]. *)
Definition str_lower (v : value) : result string :=
  match str_of v with
  | Some s => Ok (lower s)
  | None => Raise AttributeError
  end.

(** [json.loads(v)]: [None] stands for [JSONDecodeError]. *)
Definition json_loads (v : value) : result (option value) :=
  match v with
  | VJson v' => Ok (Some v')
  | VStr _ => Ok None
  | _ => Raise TypeError
  end.

(** The elements a [for] loop visits.  A [str] or a [dict] yields [str]
    elements. *)
Definition iterate (v : value) : result (list value) :=
  match v with
  | VList l => Ok l
  | VDict d => Ok (map (fun kv => VStr (fst kv)) d)
  | VStr _ | VJson _ =>
      match str_of v with
      | Some s => Ok (map (fun a => VStr (String a EmptyString)) (list_ascii_of_string s))
      | None => Raise TypeError
      end
  | _ => Raise TypeError
  end.

(** [v.split(sep)] for a non-empty separator. *)
Fixpoint split_go (sep : string) (skip : nat) (cur : string) (s : string)
  : list string :=
  match s with
  | EmptyString => [cur]
  | String a r =>
      match skip with
      | S k => split_go sep k cur r
      | O =>
          if String.prefix sep s
          then cur :: split_go sep (String.length sep - 1) "" r
          else split_go sep 0 (cur ++ String a EmptyString) r
      end
  end.

Definition split (sep s : string) : list string := split_go sep 0 "" s.

(** [x in l] for a list of string literals. *)
Definition in_strs (v : value) (l : list string) : bool :=
  existsb (eq_str v) l.

(** [v == lit] for a literal [lit] that is a [str], an [int], a [bool] or
    [None], the only comparisons the handlers make. *)
Definition py_eq (v lit : value) : bool :=
  match lit with
  | VNone => match v with VNone => true | _ => false end
  | VBool b => eq_num v (Z.b2z b)
  | VNum n => eq_num v n
  | VStr s => eq_str v s
  | VJson j => eq_str v (json_dumps j)
  | _ => false
  end.

(** ** DynamoDB *)

(** The items of a table are kept as the Python dicts they are written
    from and read back as: [TypeSerializer] and [TypeDeserializer] are
    inverse to each other on the values above.  For a request to DynamoDB
    the answer of [aws] only says whether the service fails ([Raise]);
    when it does not, the table decides the outcome and the response is
    [ok_response]. *)
Definition ok_response : dict :=
  [("ResponseMetadata", VDict [("HTTPStatusCode", VNum 200)])].

Definition put_item_request (t : string) (item : dict) (if_absent : bool) : call :=
  Call "dynamodb" "put_item"
    ([("TableName", VStr t); ("Item", VDict item)] ++
     if if_absent
     then [("ConditionExpression", VStr "attribute_not_exists(id)")]
     else []).

(** [client.put_item(TableName=t, Item=item)], with
    [ConditionExpression="attribute_not_exists(id)"] when [if_absent]. *)
Definition put_item (t : string) (item : dict) (if_absent : bool) : M value :=
  fun c w =>
    let rq := put_item_request t item if_absent in
    let w1 := log_call rq w in
    match aws c (calls w) rq with
    | Raise e => (Raise e, w1)
    | Ok _ =>
        match dict_lookup "id" item ≫= str_of with
        | None => (Raise (ClientError "ValidationException"), w1)
        | Some k =>
            if (if_absent && bool_decide (is_Some (ddb w t !! k)))%bool
            then (Raise (ClientError "ConditionalCheckFailedException"), w1)
            else (Ok (VDict ok_response), set_table t (<[k := item]> (ddb w t)) w1)
        end
    end.

Definition update_item_request (t : string) (key : value) (sets : dict) : call :=
  Call "dynamodb" "update_item"
    [("TableName", VStr t); ("Key", VDict [("id", key)]); ("SET", VDict sets)].

Definition apply_sets (sets : dict) (item : dict) : dict :=
  fold_left (fun it kv => dict_set (fst kv) (snd kv) it) sets item.

(** [client.update_item(TableName=t, Key={"id": {"S": key}},
    UpdateExpression="SET a1 = v1, ...")].  The key must be a [str] for the
    request to be sent at all; an item that does not exist is created. *)
Definition update_item (t : string) (key : value) (sets : dict) : M value :=
  fun c w =>
    match str_of key with
    | None => (Raise ParamValidationError, w)
    | Some k =>
        let rq := update_item_request t key sets in
        let w1 := log_call rq w in
        match aws c (calls w) rq with
        | Raise e => (Raise e, w1)
        | Ok _ =>
            let old := default [("id", key)] (ddb w t !! k) in
            (Ok (VDict ok_response),
             set_table t (<[k := apply_sets sets old]> (ddb w t)) w1)
        end
    end.

(** A PartiQL statement [SELECT * FROM from_ WHERE a1 = l1 AND a2 = l2 ...]. *)
Record statement : Type := Select {
  from_ : string;
  where_ : dict;
}.

(** An attribute satisfies [a = lit] when it is present with the type and
    the value of the literal. *)
Definition attr_is (lit v : value) : bool :=
  match lit, v with
  | VBool b, VBool b' => Bool.eqb b b'
  | VNum n, VNum n' => n =? n'
  | VStr s, _ => eq_str v s
  | _, _ => false
  end.

Definition satisfies (conds : dict) (item : dict) : bool :=
  forallb (fun kv =>
             match dict_lookup (fst kv) item with
             | Some v => attr_is (snd kv) v
             | None => false
             end) conds.

Definition select (q : statement) (tb : table) : list dict :=
  filter (fun item => satisfies (where_ q) item = true) (map snd (map_to_list tb)).

Definition execute_statement_request (q : statement) : call :=
  Call "dynamodb" "execute_statement"
    [("Statement", VDict [("FROM", VStr (from_ q)); ("WHERE", VDict (where_ q))])].

(** [client.execute_statement(Statement=q)]. *)
Definition execute_statement (q : statement) : M value :=
  fun c w =>
    let rq := execute_statement_request q in
    let w1 := log_call rq w in
    match aws c (calls w) rq with
    | Raise e => (Raise e, w1)
    | Ok _ =>
        (Ok (VDict (("Items", VList (map VDict (select q (ddb w (from_ q)))))
                    :: ok_response)), w1)
    end.

(** ** Helpers that every [app.py] repeats *)

Definition _check_missing_field (validation_dict : value) (extraction_key : string)
  : M unit :=
  extracted_value <- lift (get validation_dict extraction_key) ;;
  if truthy extracted_value then ret tt else raise MalformedEvent.

Definition _validate_field (validation_dict : value) (extraction_key : string)
    (expected_value : value) : M unit :=
  extracted_value <- lift (get validation_dict extraction_key) ;;
  _check_missing_field validation_dict extraction_key ;;;
  if py_eq extracted_value expected_value then ret tt else raise ValueError.

Definition _fetch_ddb_results (query : statement) : M value :=
  resp <- execute_statement query ;;
  _check_missing_field resp "ResponseMetadata" ;;;
  md <- lift (subscript resp "ResponseMetadata") ;;
  _validate_field md "HTTPStatusCode" (VNum 200) ;;;
  ret resp.

(** [{k: deserializer.deserialize(v) for k, v in ddb_item.items()}] for
    each item: the items come back as the dicts they are. *)
Definition unmarshall_ddb_items (ddb_items : value) : M (list value) :=
  l <- lift (iterate ddb_items) ;;
  for_acc l [] (fun unmarshalled ddb_item =>
    match ddb_item with
    | VDict _ => ret (unmarshalled ++ [ddb_item])%list
    | _ => raise AttributeError
    end).

Definition _send_message_to_sqs (queue_url : value) (message_dict : value) : M unit :=
  resp <- boto "sqs" "send_message"
            [("QueueUrl", queue_url); ("MessageBody", VJson message_dict)] ;;
  _check_missing_field resp "ResponseMetadata" ;;;
  resp_metadata <- lift (subscript resp "ResponseMetadata") ;;
  _check_missing_field resp_metadata "HTTPStatusCode" ;;;
  status_code <- lift (subscript resp_metadata "HTTPStatusCode") ;;
  if eq_num status_code 200 then ret tt else raise Exception_.

(** Returns the tag set, or [None] when the bucket has no tags. *)
Definition _get_bucket_tags (bucket_name : value) : M value :=
  r <- try_except
         (resp <- boto "s3" "get_bucket_tagging" [("Bucket", bucket_name)] ;;
          ret (Some resp))
         (fun e =>
            match e with
            | ClientError code =>
                Some (if String.eqb code "NoSuchTagSet"
                      then ret None else raise Exception_)
            | _ => None
            end) ;;
  match r with
  | None => ret VNone
  | Some resp =>
      _check_missing_field resp "ResponseMetadata" ;;;
      resp_metadata <- lift (subscript resp "ResponseMetadata") ;;
      _check_missing_field resp_metadata "HTTPStatusCode" ;;;
      status_code <- lift (subscript resp_metadata "HTTPStatusCode") ;;
      (if eq_num status_code 200 then ret tt else raise Exception_) ;;;
      tag_set <- lift (get resp "TagSet") ;;
      if truthy tag_set then ret tag_set else ret VNone
  end.

(** [client.delete_message(QueueUrl=queue_url, ReceiptHandle=receipt_handle)].
    botocore checks the parameters against the service model before it
    sends anything: both are of type [String], and a value that is not a
    [str] makes the call raise [ParamValidationError] without a request. *)
Definition delete_message (queue_url receipt_handle : value) : M value :=
  match str_of queue_url, str_of receipt_handle with
  | Some _, Some _ =>
      boto "sqs" "delete_message"
        [("QueueUrl", queue_url); ("ReceiptHandle", receipt_handle)]
  | _, _ => raise ParamValidationError
  end.

Definition _get_sqs_message_attributes (event : value) : M value :=
  records <- lift (get event "Records") ;;
  if negb (truthy records) then ret VNone else
  first_record <- try_except (lift (first_item records))
                    (fun e => match e with
                              | IndexError => Some (raise MalformedEvent)
                              | _ => None
                              end) ;;
  receipt_handle <- lift (get first_record "receiptHandle") ;;
  message_id <- lift (get first_record "messageId") ;;
  if negb (truthy receipt_handle) then raise MalformedEvent else
  if negb (truthy message_id) then raise MalformedEvent else
  ret (VDict [("message_id", message_id); ("receipt_handle", receipt_handle)]).

Definition _get_message_body (event : value) : M value :=
  test_event <- lift (get_default event "test_event" (VStr "")) ;;
  t <- lift (str_lower test_event) ;;
  if String.eqb t "true" then ret event else
  records <- lift (get event "Records") ;;
  if negb (truthy records) then raise MalformedEvent else
  first_record <- lift (first_item records) ;;
  body <- try_except (lift (get first_record "body"))
            (fun e => match e with
                      | AttributeError => Some (raise MalformedEvent)
                      | _ => None
                      end) ;;
  if negb (truthy body) then raise MalformedEvent else
  parsed <- lift (json_loads body) ;;
  match parsed with
  | Some v => ret v
  | None => raise MalformedEvent
  end.

(** [os.environ.get(k)] as a value: [None] when the variable is unset. *)
Definition os_environ (k : string) : M value :=
  o <- os_environ_get k ;;
  ret (match o with Some s => VStr s | None => VNone end).

(** [datetime.strftime(datetime.now(), ...)]. *)
Definition strftime_now : M string :=
  fun c w => (Ok (clock c (calls w)), w).

(** [v.replace(a, b)]. *)
Definition str_replace (v : value) (a b : ascii) : result string :=
  match str_of v with
  | Some s => Ok (replace a b s)
  | None => Raise AttributeError
  end.

(** [v.split(sep)]. *)
Definition str_split (v : value) (sep : string) : result (list string) :=
  match str_of v with
  | Some s => Ok (split sep s)
  | None => Raise AttributeError
  end.

(** The [except ClientError] clause of the conditional insert, the same in
    both lambdas that insert: a failed condition is logged, any other
    [ClientError] becomes a bare [Exception]. *)
Definition on_put_error (e : exn) : option (M unit) :=
  match e with
  | ClientError code =>
      Some (if String.eqb code "ConditionalCheckFailedException"
            then ret tt else raise Exception_)
  | _ => None
  end.

(** The [try: put_item(..., ConditionExpression="attribute_not_exists(id)")
    except ClientError: ...] statement that ends both lambdas. *)
Definition insert_record (table_name : string) (python_obj : dict) : M unit :=
  try_except (put_item table_name python_obj true ;;; ret tt) on_put_error.

(** ** glue-tracking-initial/app.py *)
Module glue_tracking_initial.

Definition DDB_TABLE_NAME_ENV_VAR : string := "GLUE_TRACKER_TABLE_NAME".
Definition SQS_QUEUE_URL_ENV_VAR : string := "SQS_QUEUE_URL".

Definition _delete_sqs_message (msg_attr : value) : M unit :=
  _ <- lift (subscript msg_attr "message_id") ;;
  queue_url <- os_environ SQS_QUEUE_URL_ENV_VAR ;;
  if negb (truthy queue_url) then raise MissingEnvironmentVariable else
  receipt_handle <- lift (subscript msg_attr "receipt_handle") ;;
  deletion_resp <- delete_message queue_url receipt_handle ;;
  resp_metadata <- lift (get deletion_resp "ResponseMetadata") ;;
  if negb (truthy resp_metadata) then raise Exception_ else
  status_code <- lift (get resp_metadata "HTTPStatusCode") ;;
  if eq_num status_code 200 then ret tt else raise Exception_.

Definition python_obj (unique_id : string) (data_source_type data_source_attrs : value)
  : dict :=
  [("id", VStr unique_id);
   ("data_source_type", data_source_type);
   ("glue_job_created", VBool false);
   ("data_catalog_entry", VBool false);
   ("data_source_attrs", data_source_attrs)].

(** The handler up to its [try] statement: the table name and the
    record to insert. *)
Definition tracker_item (event : value) : M (string * dict) :=
  msg_attr <- _get_sqs_message_attributes event ;;
  (if truthy msg_attr then _delete_sqs_message msg_attr else ret tt) ;;;
  body <- _get_message_body event ;;
  ddb_table_name <- os_environ DDB_TABLE_NAME_ENV_VAR ;;
  if negb (truthy ddb_table_name) then raise MissingEnvironmentVariable else
  unique_id <- uuid4 ;;
  data_source_type <- lift (subscript body "data_source_type") ;;
  data_source_attrs <- lift (subscript body "data_source_attrs") ;;
  ret (py_str ddb_table_name,
       python_obj unique_id data_source_type data_source_attrs).

Definition lambda_handler (event : value) : M unit :=
  p <- tracker_item event ;;
  insert_record (fst p) (snd p).

End glue_tracking_initial.

(** ** rds-glue-tracking-initial/app.py *)
Module rds_glue_tracking_initial.

Definition DDB_TABLE_NAME_ENV_VAR : string := "DDB_TABLE_NAME".
Definition CATALOG_DB_NAME_ENV_VAR : string := "CATALOG_DB_NAME".

Definition _extract_valid_event (event : value) : M value :=
  _validate_field event "source" (VStr "aws.glue") ;;;
  _check_missing_field event "detail" ;;;
  event_detail <- lift (subscript event "detail") ;;
  _validate_field event_detail "eventName" (VStr "CreateTable") ;;;
  _check_missing_field event_detail "requestParameters" ;;;
  lift (subscript event_detail "requestParameters").

Definition python_obj (unique_id : string)
    (name databaseName data_source_attrs : value) : dict :=
  [("id", VStr unique_id);
   ("data_source_type", VStr "rds");
   ("data_catalog_table_name", name);
   ("data_catalog_db_name", databaseName);
   ("glue_job_created", VBool false);
   ("data_catalog_entry", VBool true);
   ("data_source_attrs", data_source_attrs)].

(** The handler up to its [try] statement: the table name and the
    record to insert, or [None] when the handler returns early because
    the table was created in another catalog database. *)
Definition tracker_item (event : value) : M (option (string * dict)) :=
  catalog_db_name <- os_environ CATALOG_DB_NAME_ENV_VAR ;;
  if negb (truthy catalog_db_name) then raise MissingEnvironmentVariable else
  valid_event <- _extract_valid_event event ;;
  _check_missing_field valid_event "databaseName" ;;;
  databaseName <- lift (subscript valid_event "databaseName") ;;
  if negb (py_eq databaseName catalog_db_name) then ret None else
  ddb_table_name <- os_environ DDB_TABLE_NAME_ENV_VAR ;;
  if negb (truthy ddb_table_name) then raise MissingEnvironmentVariable else
  _check_missing_field valid_event "tableInput" ;;;
  table_input <- lift (subscript valid_event "tableInput") ;;
  unique_id <- uuid4 ;;
  parameters <- lift (get table_input "parameters") ;;
  let data_source_attrs := if truthy parameters then parameters else VDict [] in
  name <- lift (subscript table_input "name") ;;
  ret (Some (py_str ddb_table_name,
             python_obj unique_id name databaseName data_source_attrs)).

Definition lambda_handler (event : value) : M unit :=
  o <- tracker_item event ;;
  match o with
  | None => ret tt
  | Some p => insert_record (fst p) (snd p)
  end.

End rds_glue_tracking_initial.

(** ** s3-trigger/app.py *)
Module s3_trigger.

Definition GLUE_TRACK_QUEUE_URL_ENV_VAR : string := "GLUE_TRACKING_QUEUE_URL".
Definition GLUE_CUSTOM_ENTITY_QUEUE_URL_ENV_VAR : string := "GLUE_CUSTOM_ENTITY_QUEUE_URL".
Definition VALID_BUCKET_TAG_KEY : string := "gdpr-scan".
Definition VALID_BUCKET_TAG_VALUE : string := "true".
Definition VALID_CUSTOM_ENTITY_TAG_KEY : string := "glue-custom-entity".
Definition VALID_CUSTOM_ENTITY_TAG_VALUE : string := "true".

Definition _extract_valid_event (event : value) : M value :=
  _validate_field event "source" (VStr "aws.s3") ;;;
  _check_missing_field event "detail" ;;;
  event_detail <- lift (subscript event "detail") ;;
  _validate_field event_detail "eventName" (VStr "CreateBucket") ;;;
  _check_missing_field event_detail "requestParameters" ;;;
  request_params <- lift (subscript event_detail "requestParameters") ;;
  _check_missing_field request_params "bucketName" ;;;
  ret request_params.

Definition message_dict (valid_event : value) : value :=
  VDict [("data_source_type", VStr "s3"); ("data_source_attrs", valid_event)].

(** One round of the loop over the bucket tags. *)
Definition visit_tag (glue_custom_entity_queue_url valid_event : value)
    (tag_match_flag : bool) (tag : value) : M bool :=
  k <- lift (subscript tag "Key") ;;
  flag <- (if eq_str k VALID_BUCKET_TAG_KEY
           then v <- lift (subscript tag "Value") ;;
                ret (if eq_str v VALID_BUCKET_TAG_VALUE then true else tag_match_flag)
           else ret tag_match_flag) ;;
  k' <- lift (subscript tag "Key") ;;
  (if eq_str k' VALID_CUSTOM_ENTITY_TAG_KEY
   then v <- lift (subscript tag "Value") ;;
        if eq_str v VALID_CUSTOM_ENTITY_TAG_VALUE
        then _send_message_to_sqs glue_custom_entity_queue_url (message_dict valid_event)
        else ret tt
   else ret tt) ;;;
  ret flag.

(** The handler from line 206 on, once it has the tags of the bucket. *)
Definition after_tags (glue_queue_url glue_custom_entity_queue_url valid_event
    bucket_tags : value) : M unit :=
  if negb (truthy bucket_tags) then ret tt else
  tags <- lift (iterate bucket_tags) ;;
  tag_match_flag <- for_acc tags false
                      (visit_tag glue_custom_entity_queue_url valid_event) ;;
  if negb tag_match_flag then ret tt else
  _send_message_to_sqs glue_queue_url (message_dict valid_event).

Definition lambda_handler (event : value) : M unit :=
  valid_event <- _extract_valid_event event ;;
  glue_queue_url <- os_environ GLUE_TRACK_QUEUE_URL_ENV_VAR ;;
  if negb (truthy glue_queue_url) then raise MissingEnvironmentVariable else
  glue_custom_entity_queue_url <- os_environ GLUE_CUSTOM_ENTITY_QUEUE_URL_ENV_VAR ;;
  if negb (truthy glue_custom_entity_queue_url) then raise MissingEnvironmentVariable else
  bucket_name <- lift (subscript valid_event "bucketName") ;;
  bucket_tags <- _get_bucket_tags bucket_name ;;
  after_tags glue_queue_url glue_custom_entity_queue_url valid_event bucket_tags.

End s3_trigger.

(** ** dynamodb-trigger/app.py *)
Module dynamodb_trigger.

Definition GLUE_TRACK_QUEUE_URL_ENV_VAR : string := "GLUE_TRACKING_QUEUE_URL".
Definition DDB_EXCEPTION_NAMES_ENV_VAR : string := "EXCEPTION_TABLE_NAMES".

Definition _extract_valid_event (event : value) : M value :=
  _validate_field event "source" (VStr "aws.dynamodb") ;;;
  _check_missing_field event "detail" ;;;
  event_detail <- lift (subscript event "detail") ;;
  _validate_field event_detail "eventName" (VStr "CreateTable") ;;;
  _check_missing_field event_detail "responseElements" ;;;
  lift (subscript event_detail "responseElements").

Definition message_dict (valid_event : value) : value :=
  VDict [("data_source_type", VStr "dynamodb"); ("data_source_attrs", valid_event)].

Definition lambda_handler (event : value) : M unit :=
  valid_event <- _extract_valid_event event ;;
  glue_queue_url <- os_environ GLUE_TRACK_QUEUE_URL_ENV_VAR ;;
  if negb (truthy glue_queue_url) then raise MissingEnvironmentVariable else
  exception_tables <- os_environ DDB_EXCEPTION_NAMES_ENV_VAR ;;
  list_exception_tables <-
    (if truthy exception_tables
     then lift (str_split exception_tables ",") else ret []) ;;
  _check_missing_field valid_event "tableDescription" ;;;
  tableDescription <- lift (subscript valid_event "tableDescription") ;;
  _check_missing_field tableDescription "tableName" ;;;
  ddb_table_name <- lift (subscript tableDescription "tableName") ;;
  if in_strs ddb_table_name list_exception_tables then ret tt else
  _send_message_to_sqs glue_queue_url (message_dict valid_event).

End dynamodb_trigger.

(** A boto3 response is usable when it carries metadata with status 200. *)
Definition check_response (resp : value) : M unit :=
  _check_missing_field resp "ResponseMetadata" ;;;
  md <- lift (subscript resp "ResponseMetadata") ;;
  _validate_field md "HTTPStatusCode" (VNum 200).

(** ** catalog-creator-s3/app.py *)
Module catalog_creator_s3.

(** [SELECT * FROM {} WHERE glue_job_created = False AND
    data_catalog_entry = False AND data_source_type = 's3'] *)
Definition DDB_PARTIQL (t : string) : statement :=
  Select t [("glue_job_created", VBool false);
            ("data_catalog_entry", VBool false);
            ("data_source_type", VStr "s3")].

Definition GLUE_TRACKER_DDB_TABLE_NAME_ENV_VAR : string := "DDB_GLUE_TRACKER_TABLE_NAME".
Definition DATA_CATALOG_DB_NAME_ENV_VAR : string := "DATA_CATALOG_DB_NAME".
Definition GLUE_ROLE_ARN_ENV_VAR : string := "GLUE_ROLE_ARN".

Definition update_sets (dc_table_name dc_db_name : value) : dict :=
  [("data_catalog_entry", VBool true);
   ("data_catalog_table_name", dc_table_name);
   ("data_catalog_db_name", dc_db_name)].

Definition update_ddb (table_name : string) (obj : value)
    (dc_table_name dc_db_name : value) : M unit :=
  key <- lift (subscript obj "id") ;;
  resp <- update_item table_name key (update_sets dc_table_name dc_db_name) ;;
  check_response resp.

Definition create_data_catalog_table (bucket_name data_catalog_db_name account_id : value)
    (table_name : string) : M unit :=
  resp <- boto "glue" "create_table"
            [("CatalogId", account_id);
             ("DatabaseName", data_catalog_db_name);
             ("TableInput",
              VDict [("Name", VStr table_name);
                     ("StorageDescriptor",
                      VDict [("Location",
                              VStr ("s3://" ++ py_str bucket_name ++ "/"))])])] ;;
  check_response resp.

Definition create_crawler (data_catalog_db_name : value) (table_name : string)
    (role_arn : value) : M unit :=
  let crawler_name := table_name ++ "_crawler" in
  resp <- boto "glue" "create_crawler"
            [("Name", VStr crawler_name);
             ("Role", role_arn);
             ("DatabaseName", data_catalog_db_name);
             ("Targets",
              VDict [("CatalogTargets",
                      VList [VDict [("DatabaseName", data_catalog_db_name);
                                    ("Tables", VList [VStr table_name])]])]);
             ("SchemaChangePolicy",
              VDict [("UpdateBehavior", VStr "UPDATE_IN_DATABASE");
                     ("DeleteBehavior", VStr "LOG")]);
             ("Schedule", VStr "cron(0 2 * * ? *)")] ;;
  check_response resp.

(** The body of the loop over the scanned records. *)
Definition process (ddb_table_name : string)
    (data_catalog_db_name role_arn account_id : value) (s3_obj : value) : M unit :=
  attrs <- lift (subscript s3_obj "data_source_attrs") ;;
  bucket_name <- lift (subscript attrs "bucketName") ;;
  catalog_bucket_name <- lift (str_replace bucket_name "-" "_") ;;
  let catalog_bucket_name := replace "." "_" catalog_bucket_name in
  let dc_table_name := py_str data_catalog_db_name ++ "_" ++ catalog_bucket_name in
  create_data_catalog_table bucket_name data_catalog_db_name account_id dc_table_name ;;;
  create_crawler data_catalog_db_name dc_table_name role_arn ;;;
  update_ddb ddb_table_name s3_obj (VStr dc_table_name) data_catalog_db_name.

Definition lambda_handler : M unit :=
  ddb_table_name <- os_environ GLUE_TRACKER_DDB_TABLE_NAME_ENV_VAR ;;
  if negb (truthy ddb_table_name) then raise MissingEnvironmentVariable else
  ddb_resp <- _fetch_ddb_results (DDB_PARTIQL (py_str ddb_table_name)) ;;
  ddb_results <- lift (get ddb_resp "Items") ;;
  if negb (truthy ddb_results) then ret tt else
  pythonic_results <- unmarshall_ddb_items ddb_results ;;
  role_arn <- os_environ GLUE_ROLE_ARN_ENV_VAR ;;
  if negb (truthy role_arn) then raise MissingEnvironmentVariable else
  data_catalog_db_name <- os_environ DATA_CATALOG_DB_NAME_ENV_VAR ;;
  if negb (truthy data_catalog_db_name) then raise MissingEnvironmentVariable else
  identity <- boto "sts" "get_caller_identity" [] ;;
  account_id <- lift (subscript identity "Account") ;;
  for_ pythonic_results
    (process (py_str ddb_table_name) data_catalog_db_name role_arn account_id).

End catalog_creator_s3.

(** ** s3-glue-job-creator/app.py *)
Module s3_glue_job_creator.

Definition GLUE_DEFAULT_ARGS : dict :=
  [("--enable-metrics", VStr "true");
   ("--enable-spark-ui", VStr "true");
   ("--enable-job-insights", VStr "false");
   ("--enable-glue-datacatalog", VStr "true");
   ("--enable-continuous-cloudwatch-log", VStr "true");
   ("--job-bookmark-option", VStr "job-bookmark-disable");
   ("--job-language", VStr "python")].

(** [SELECT * FROM {} WHERE glue_job_created = False AND
    data_catalog_entry = True AND data_source_type = 's3'] *)
Definition DDB_PARTIQL (t : string) : statement :=
  Select t [("glue_job_created", VBool false);
            ("data_catalog_entry", VBool true);
            ("data_source_type", VStr "s3")].

Definition GLUE_TRACKER_DDB_TABLE_NAME_ENV_VAR : string := "DDB_GLUE_TRACKER_TABLE_NAME".
Definition PII_OUTPUT_DDB_TABLE_NAME_ENV_VAR : string := "PII_OUTPUT_TABLE_NAME".
Definition GLUE_SCRIPT_ENV_VAR : string := "GLUE_SCRIPT_BUCKET".
Definition GLUE_ASSETS_ENV_VAR : string := "GLUE_ASSETS_BUCKET".
Definition GLUE_ROLE_ARN_ENV_VAR : string := "GLUE_ROLE_ARN".
Definition GLUE_SCRIPT_FILE_NAME : string := "s3-source-script.py".
Definition GLUE_JOB_PYTHON_VERSION : string := "3".
Definition GLUE_JOB_TYPE_NAME : string := "glueetl".
Definition GLUE_JOB_MAX_RETRIES : Z := 0.
Definition GLUE_JOB_TIMEOUT : Z := 2880.
Definition GLUE_JOB_WORKER_TYPE : string := "G.1X".
Definition GLUE_JOB_NUM_WORKERS : Z := 10.
Definition GLUE_JOB_VERSION : string := "4.0".
Definition GLUE_JOB_EXEC_CLASS : string := "STANDARD".
Definition GLUE_JOB_MAX_CONCURRENT_RUNS : Z := 1.

Definition update_sets : dict := [("glue_job_created", VBool true)].

Definition update_ddb (table_name : string) (obj : value) : M unit :=
  key <- lift (subscript obj "id") ;;
  resp <- update_item table_name key update_sets ;;
  check_response resp.

Definition create_glue_job (script_location : string) (role_arn : value)
    (spark_logs_path temp_dir : string)
    (bucket_name dc_table_name output_table dc_db_name s3_host region : value)
    (glue_job_name : string) : M unit :=
  let glue_args :=
    dict_set "--region" region
      (dict_set "--s3Host" s3_host
        (dict_set "--outputTable" output_table
          (dict_set "--dataCatalogDatabase" dc_db_name
            (dict_set "--dataCatalogTable" dc_table_name
              (dict_set "--s3Bucket" bucket_name
                (dict_set "--TempDir" (VStr temp_dir)
                  (dict_set "--spark-event-logs-path" (VStr spark_logs_path)
                     GLUE_DEFAULT_ARGS))))))) in
  resp <- boto "glue" "create_job"
            [("Name", VStr glue_job_name);
             ("Command",
              VDict [("Name", VStr GLUE_JOB_TYPE_NAME);
                     ("PythonVersion", VStr GLUE_JOB_PYTHON_VERSION);
                     ("ScriptLocation", VStr script_location)]);
             ("Role", role_arn);
             ("DefaultArguments", VDict glue_args);
             ("MaxRetries", VNum GLUE_JOB_MAX_RETRIES);
             ("Timeout", VNum GLUE_JOB_TIMEOUT);
             ("WorkerType", VStr GLUE_JOB_WORKER_TYPE);
             ("NumberOfWorkers", VNum GLUE_JOB_NUM_WORKERS);
             ("GlueVersion", VStr GLUE_JOB_VERSION);
             ("ExecutionClass", VStr GLUE_JOB_EXEC_CLASS);
             ("ExecutionProperty",
              VDict [("MaxConcurrentRuns", VNum GLUE_JOB_MAX_CONCURRENT_RUNS)])] ;;
  check_response resp.

(** The body of the loop over the scanned records. *)
Definition process (ddb_table_name : string)
    (output_table assets_bucket script_bucket role_arn : value)
    (s3_obj : value) : M unit :=
  attrs <- lift (subscript s3_obj "data_source_attrs") ;;
  bucket_name <- lift (subscript attrs "bucketName") ;;
  data_catalog_table_name <- lift (subscript s3_obj "data_catalog_table_name") ;;
  data_catalog_db_name <- lift (subscript s3_obj "data_catalog_db_name") ;;
  region <- try_except
              (cfg <- lift (subscript attrs "CreateBucketConfiguration") ;;
               lift (subscript cfg "LocationConstraint"))
              (fun e => match e with
                        | KeyError =>
                            Some (o <- os_environ_get "AWS_REGION" ;;
                                  ret (VStr (default "noregion" o)))
                        | _ => None
                        end) ;;
  let glue_job_name :=
    "s3-pii-detect-" ++ py_str region ++ "-" ++ py_str data_catalog_table_name in
  s3_host <- lift (subscript attrs "Host") ;;
  create_glue_job
    ("s3://" ++ py_str script_bucket ++ "/" ++ GLUE_SCRIPT_FILE_NAME)
    role_arn
    ("s3://" ++ py_str assets_bucket ++ "/sparkHistoryLogs/")
    ("s3://" ++ py_str assets_bucket ++ "/temporary/")
    bucket_name data_catalog_table_name output_table data_catalog_db_name
    s3_host region glue_job_name ;;;
  let wf_name := "s3-wf-" ++ py_str region ++ "-" ++ py_str data_catalog_table_name in
  wf_resp <- boto "glue" "create_workflow" [("Name", VStr wf_name)] ;;
  check_response wf_resp ;;;
  trigger_resp <- boto "glue" "create_trigger"
                    [("Name", VStr ("s3-glue-trigger-" ++ py_str region ++ "-"
                                    ++ py_str data_catalog_table_name));
                     ("WorkflowName", VStr wf_name);
                     ("StartOnCreation", VBool true);
                     ("Type", VStr "SCHEDULED");
                     ("Schedule", VStr "cron(0 6 ? * MON-FRI *)");
                     ("Actions", VList [VDict [("JobName", VStr glue_job_name)]])] ;;
  check_response trigger_resp ;;;
  update_ddb ddb_table_name s3_obj.

Definition lambda_handler : M unit :=
  ddb_table_name <- os_environ GLUE_TRACKER_DDB_TABLE_NAME_ENV_VAR ;;
  if negb (truthy ddb_table_name) then raise MissingEnvironmentVariable else
  ddb_resp <- _fetch_ddb_results (DDB_PARTIQL (py_str ddb_table_name)) ;;
  ddb_results <- lift (get ddb_resp "Items") ;;
  if negb (truthy ddb_results) then ret tt else
  pythonic_results <- unmarshall_ddb_items ddb_results ;;
  output_table <- os_environ PII_OUTPUT_DDB_TABLE_NAME_ENV_VAR ;;
  if negb (truthy output_table) then raise MissingEnvironmentVariable else
  assets_bucket <- os_environ GLUE_ASSETS_ENV_VAR ;;
  if negb (truthy assets_bucket) then raise MissingEnvironmentVariable else
  script_bucket <- os_environ GLUE_SCRIPT_ENV_VAR ;;
  if negb (truthy assets_bucket) then raise MissingEnvironmentVariable else
  role_arn <- os_environ GLUE_ROLE_ARN_ENV_VAR ;;
  if negb (truthy role_arn) then raise MissingEnvironmentVariable else
  for_ pythonic_results
    (process (py_str ddb_table_name) output_table assets_bucket script_bucket role_arn).

End s3_glue_job_creator.

(** ** The tag reports: s3-tag-report, ddb-tag-report, rds-tag-report *)

Definition REQUIRED_TAG_KEYS : list string :=
  ["APP_ID"; "Purpose of Processing"; "Data Subjects"; "APP_NAME";
   "Business Function"; "Processing Activity"].

(** The end of the loop body, the same in the three reports: keep the
    required tags of the resource and, when there is one, write a row. *)
Definition write_tag_row (tag_table : string) (resource_tags : value) (obj : value)
  : M unit :=
  data_catalog_table_name <- lift (subscript obj "data_catalog_table_name") ;;
  tags <- lift (iterate resource_tags) ;;
  tag_obj <- for_acc tags []
               (fun tag_obj tag =>
                  k <- lift (subscript tag "Key") ;;
                  if in_strs k REQUIRED_TAG_KEYS
                  then v <- lift (subscript tag "Value") ;;
                       ret (dict_set (py_str k) v tag_obj)
                  else ret tag_obj) ;;
  match tag_obj with
  | [] => ret tt
  | _ =>
      unique_id <- uuid4 ;;
      time_stamp <- strftime_now ;;
      let tag_obj :=
        dict_set "time_stamp" (VStr time_stamp)
          (dict_set "data_catalog_table_name" data_catalog_table_name
            (dict_set "id" (VStr unique_id) tag_obj)) in
      resp <- put_item tag_table tag_obj false ;;
      check_response resp
  end.

Module s3_tag_report.

(** [SELECT * FROM {} WHERE data_catalog_entry = True AND
    data_source_type = 's3'] *)
Definition DDB_PARTIQL (t : string) : statement :=
  Select t [("data_catalog_entry", VBool true); ("data_source_type", VStr "s3")].

Definition GLUE_TRACKER_DDB_TABLE_NAME_ENV_VAR : string := "DDB_GLUE_TRACKER_TABLE_NAME".
Definition DDB_TAG_TABLE_NAME_ENV_VAR : string := "TAG_REPORT_TABLE_NAME".

Definition process (tag_table_name : string) (obj : value) : M unit :=
  attrs <- lift (subscript obj "data_source_attrs") ;;
  bucket_name <- lift (subscript attrs "bucketName") ;;
  bucket_tags <- _get_bucket_tags bucket_name ;;
  if negb (truthy bucket_tags) then ret tt else
  write_tag_row tag_table_name bucket_tags obj.

Definition lambda_handler : M unit :=
  ddb_table_name <- os_environ GLUE_TRACKER_DDB_TABLE_NAME_ENV_VAR ;;
  if negb (truthy ddb_table_name) then raise MissingEnvironmentVariable else
  tag_table_name <- os_environ DDB_TAG_TABLE_NAME_ENV_VAR ;;
  if negb (truthy tag_table_name) then raise MissingEnvironmentVariable else
  ddb_resp <- _fetch_ddb_results (DDB_PARTIQL (py_str ddb_table_name)) ;;
  ddb_results <- lift (get ddb_resp "Items") ;;
  if negb (truthy ddb_results) then ret tt else
  pythonic_results <- unmarshall_ddb_items ddb_results ;;
  for_ pythonic_results (process (py_str tag_table_name)).

End s3_tag_report.

Module ddb_tag_report.

(** [SELECT * FROM {} WHERE data_catalog_entry = True AND
    data_source_type = 'dynamodb'] *)
Definition DDB_PARTIQL (t : string) : statement :=
  Select t [("data_catalog_entry", VBool true); ("data_source_type", VStr "dynamodb")].

Definition GLUE_TRACKER_DDB_TABLE_NAME_ENV_VAR : string := "DDB_GLUE_TRACKER_TABLE_NAME".
Definition DDB_TAG_TABLE_NAME_ENV_VAR : string := "TAG_REPORT_TABLE_NAME".

Definition get_table_tags (table_arn : value) : M value :=
  resp <- boto "dynamodb" "list_tags_of_resource" [("ResourceArn", table_arn)] ;;
  check_response resp ;;;
  tags <- lift (get resp "Tags") ;;
  if negb (truthy tags) then ret VNone else ret tags.

Definition process (obj : value) : M unit :=
  attrs <- lift (subscript obj "data_source_attrs") ;;
  tableDescription <- lift (subscript attrs "tableDescription") ;;
  _ <- lift (subscript tableDescription "tableName") ;;
  obj_table_arn <- lift (subscript tableDescription "tableArn") ;;
  table_tags <- get_table_tags obj_table_arn ;;
  if negb (truthy table_tags) then ret tt else
  write_tag_row "tagCaptureTable" table_tags obj.

Definition lambda_handler : M unit :=
  ddb_table_name <- os_environ GLUE_TRACKER_DDB_TABLE_NAME_ENV_VAR ;;
  if negb (truthy ddb_table_name) then raise MissingEnvironmentVariable else
  tag_table_name <- os_environ DDB_TAG_TABLE_NAME_ENV_VAR ;;
  if negb (truthy tag_table_name) then raise MissingEnvironmentVariable else
  ddb_resp <- _fetch_ddb_results (DDB_PARTIQL (py_str ddb_table_name)) ;;
  ddb_results <- lift (get ddb_resp "Items") ;;
  if negb (truthy ddb_results) then ret tt else
  pythonic_results <- unmarshall_ddb_items ddb_results ;;
  for_ pythonic_results process.

End ddb_tag_report.

Module rds_tag_report.

(** [SELECT * FROM {} WHERE data_catalog_entry = True AND
    data_source_type = 'rds'] *)
Definition DDB_PARTIQL (t : string) : statement :=
  Select t [("data_catalog_entry", VBool true); ("data_source_type", VStr "rds")].

Definition GLUE_TRACKER_DDB_TABLE_NAME_ENV_VAR : string := "DDB_GLUE_TRACKER_TABLE_NAME".
Definition DDB_TAG_TABLE_NAME_ENV_VAR : string := "TAG_REPORT_TABLE_NAME".

Definition get_db_tags (table_arn : value) : M value :=
  resp <- boto "rds" "list_tags_for_resource" [("ResourceName", table_arn)] ;;
  check_response resp ;;;
  tags <- lift (get resp "TagList") ;;
  if negb (truthy tags) then ret VNone else ret tags.

Definition get_glue_connection (connection_name : value) : M value :=
  identity <- boto "sts" "get_caller_identity" [] ;;
  account_id <- lift (subscript identity "Account") ;;
  resp <- boto "glue" "get_connection"
            [("CatalogId", account_id); ("Name", connection_name)] ;;
  check_response resp ;;;
  _check_missing_field resp "Connection" ;;;
  lift (subscript resp "Connection").

Definition process (obj : value) : M unit :=
  attrs <- lift (subscript obj "data_source_attrs") ;;
  jdbc_conn_name <- lift (subscript attrs "connectionName") ;;
  conn_obj <- get_glue_connection jdbc_conn_name ;;
  _check_missing_field conn_obj "ConnectionProperties" ;;;
  props <- lift (subscript conn_obj "ConnectionProperties") ;;
  _check_missing_field props "JDBC_CONNECTION_URL" ;;;
  conn_url <- lift (subscript props "JDBC_CONNECTION_URL") ;;
  parts <- lift (str_split conn_url "://") ;;
  host <- lift (match parts with
                | _ :: h :: _ => Ok h
                | _ => Raise IndexError
                end) ;;
  let cluster := match split "." host with x :: _ => x | [] => "" end in
  desc_db_resp <- boto "rds" "describe_db_clusters"
                    [("DBClusterIdentifier", VStr cluster)] ;;
  check_response desc_db_resp ;;;
  clusters <- lift (subscript desc_db_resp "DBClusters") ;;
  cluster0 <- lift (first_item clusters) ;;
  db_cluster_arn <- lift (subscript cluster0 "DBClusterArn") ;;
  db_cluster_tags <- get_db_tags db_cluster_arn ;;
  if negb (truthy db_cluster_tags) then ret tt else
  write_tag_row "tagCaptureTable" db_cluster_tags obj.

Definition lambda_handler : M unit :=
  ddb_table_name <- os_environ GLUE_TRACKER_DDB_TABLE_NAME_ENV_VAR ;;
  if negb (truthy ddb_table_name) then raise MissingEnvironmentVariable else
  tag_table_name <- os_environ DDB_TAG_TABLE_NAME_ENV_VAR ;;
  if negb (truthy tag_table_name) then raise MissingEnvironmentVariable else
  ddb_resp <- _fetch_ddb_results (DDB_PARTIQL (py_str ddb_table_name)) ;;
  ddb_results <- lift (get ddb_resp "Items") ;;
  if negb (truthy ddb_results) then ret tt else
  pythonic_results <- unmarshall_ddb_items ddb_results ;;
  for_ pythonic_results process.

End rds_tag_report.

(** ** rds-glue-initial/app.py *)
Module rds_glue_initial.
Section handler.

(** What the handler does with the message body once it has it: the
    connection, the schema query and the crawlers (lines 370 to 501). *)
Variable provision : value -> M unit.

Definition SQS_QUEUE_URL_ENV_VAR : string := "SQS_QUEUE_URL".

Definition lambda_handler (event : value) : M unit :=
  msg_attr <- _get_sqs_message_attributes event ;;
  (if truthy msg_attr then
     _ <- lift (subscript msg_attr "message_id") ;;
     queue_url <- os_environ SQS_QUEUE_URL_ENV_VAR ;;
     if negb (truthy queue_url) then raise MissingEnvironmentVariable else
     receipt_handle <- lift (subscript msg_attr "receipt_handle") ;;
     deletion_resp <- delete_message queue_url receipt_handle ;;
     resp_metadata <- lift (get deletion_resp "ResponseMetadata") ;;
     if negb (truthy resp_metadata) then raise Exception_ else
     status_code <- lift (get resp_metadata "HTTPStatusCode") ;;
     if eq_num status_code 200 then ret tt else raise Exception_
   else ret tt) ;;;
  body <- _get_message_body event ;;
  provision body.

End handler.
End rds_glue_initial.

(** * Vocabulary of the properties *)

(** [m], run in context [c], takes every world to a world related to it
    by [R], whether it returns or raises. *)
Definition stable (c : ctx) (R : relation world) {A} (m : M A) : Prop :=
  forall w, R w (snd (m c w)).

(** Whenever [m], run in context [c], returns a value, the value
    satisfies [Q]. *)
Definition returns (c : ctx) {A} (m : M A) (Q : A -> Prop) : Prop :=
  forall w a, fst (m c w) = Ok a -> Q a.

(** Every record of table [T] is still there afterwards, and related to
    what it was by [P]. *)
Definition keeps (P : relation dict) (T : string) : relation world :=
  fun w w' =>
    forall id item, ddb w T !! id = Some item ->
      exists item', ddb w' T !! id = Some item' /\ P item item'.

(** A flag that is true stays true. *)
Definition flag_kept (flag : string) : relation dict :=
  fun item item' =>
    dict_lookup flag item = Some (VBool true) ->
    dict_lookup flag item' = Some (VBool true).

Definition flags_kept : relation dict :=
  fun item item' =>
    flag_kept "data_catalog_entry" item item' /\
    flag_kept "glue_job_created" item item'.

(** The attributes not listed in [names] are the same. *)
Definition same_outside (names : list string) : relation dict :=
  fun item item' =>
    forall a, a ∉ names -> dict_lookup a item' = dict_lookup a item.

(** Existing records are untouched, and a record that is new satisfies
    [Good]. *)
Definition only_adds (Good : dict -> Prop) : relation world :=
  fun w w' =>
    forall t k,
      match ddb w t !! k with
      | Some item => ddb w' t !! k = Some item
      | None => forall item, ddb w' t !! k = Some item -> Good item
      end.

(** The log of requests grew by requests that all satisfy [okc]. *)
Definition extends_by (okc : call -> Prop) (w w' : world) : Prop :=
  exists tr, calls w' = (calls w ++ tr)%list /\ Forall okc tr.

Definition any_call : call -> Prop := fun _ => True.

(** No table changed and every request issued satisfies [okc]. *)
Definition only_calls (okc : call -> Prop) : relation world :=
  fun w w' => ddb w' = ddb w /\ extends_by okc w w'.

(** [rq] publishes a discovery of a source of type [ty]. *)
Definition publishes (ty : string) (rq : call) : Prop :=
  exists url attrs,
    rq = Call "sqs" "send_message"
           [("QueueUrl", url);
            ("MessageBody",
             VJson (VDict [("data_source_type", VStr ty);
                           ("data_source_attrs", attrs)]))].

(** The two stage flags of a record. *)
Definition has_flags (catalogued job : bool) (item : dict) : Prop :=
  dict_lookup "data_catalog_entry" item = Some (VBool catalogued) /\
  dict_lookup "glue_job_created" item = Some (VBool job).

(** No identifier was drawn in between. *)
Definition same_draws : relation world :=
  fun w w' => drawn w' = drawn w.

(** DynamoDB reports a failed condition only when the table says so: the
    service never answers a request with that error of its own. *)
Definition no_false_conflict (c : ctx) : Prop :=
  forall hist rq,
    aws c hist rq <> Raise (ClientError "ConditionalCheckFailedException").

(** What the [except ClientError] clause makes of an exception raised by
    the conditional insert. *)
Definition after_except (e : exn) : result unit :=
  match e with
  | ClientError code =>
      if String.eqb code "ConditionalCheckFailedException"
      then Ok tt else Raise Exception_
  | _ => Raise e
  end.

(** The event was delivered by the queue: its first record carries a
    receipt handle [rh] and a message identifier. *)
Definition queue_delivery (event : value) (rh : value) : Prop :=
  exists first rest mid,
    get event "Records" = Ok (VList (first :: rest)) /\
    get first "receiptHandle" = Ok rh /\ truthy rh = true /\
    get first "messageId" = Ok mid /\ truthy mid = true.

(** The request that deletes the message with receipt handle [rh] from the
    queue at [url]. *)
Definition delete_request (url : string) (rh : value) : call :=
  Call "sqs" "delete_message" [("QueueUrl", VStr url); ("ReceiptHandle", rh)].

Definition not_delete (rq : call) : Prop := operation rq <> "delete_message".

(** [m] takes the world [w] to a world related to it by [R]. *)
Definition stable_at (c : ctx) (R : relation world) {A} (m : M A) (w : world)
  : Prop :=
  R w (snd (m c w)).

(** [v[k]] when [v] is a dict that has the key. *)
Definition field (v : value) (k : string) : option value :=
  match v with
  | VDict d => dict_lookup k d
  | _ => None
  end.

(** The bucket a [CreateBucket] notification is about. *)
Definition bucket_of (event : value) : option value :=
  field event "detail" ≫= fun d =>
  field d "requestParameters" ≫= fun p =>
  field p "bucketName".

(** The tag is the opt-in tag: key [gdpr-scan] with value [true]. *)
Definition is_opt_in (tag : value) : bool :=
  match field tag "Key", field tag "Value" with
  | Some k, Some v =>
      eq_str k s3_trigger.VALID_BUCKET_TAG_KEY &&
      eq_str v s3_trigger.VALID_BUCKET_TAG_VALUE
  | _, _ => false
  end.

(** The tag set has the opt-in tag. *)
Definition has_opt_in (tags : value) : bool :=
  match iterate tags with
  | Ok l => existsb is_opt_in l
  | Raise _ => false
  end.

(** The tag set S3 reports for the bucket [b] when it is asked in the
    world [w]: the [TagSet] of its answer to [get_bucket_tagging]; [None]
    when it answers with an error (for a bucket without tags the error is
    [NoSuchTagSet]) or without a tag set. *)
Definition reported_tags (c : ctx) (w : world) (b : value) : option value :=
  match aws c (calls w) (Call "s3" "get_bucket_tagging" [("Bucket", b)]) with
  | Ok resp => dict_lookup "TagSet" resp
  | Raise _ => None
  end.

(** The bucket [b] carries the opt-in tag. *)
Definition opted_in (c : ctx) (w : world) (b : value) : bool :=
  match reported_tags c w b with
  | Some tags => has_opt_in tags
  | None => false
  end.

(** Table [t] has a record with identifier [id] on which [flag] is true. *)
Definition flagged (flag t id : string) (w : world) : Prop :=
  exists item, ddb w t !! id = Some item /\
               dict_lookup flag item = Some (VBool true).

(** When [m] raises, no table has changed. *)
Definition fails_quietly (c : ctx) {A} (m : M A) : Prop :=
  forall w e w', m c w = (Raise e, w') -> ddb w' = ddb w.

(** The requests issued between two worlds. *)
Definition issued (w w' : world) : list call :=
  drop (List.length (calls w)) (calls w').

(** [rq] is [send_message] to the queue [url]. *)
Definition sends_to (url : string) (rq : call) : bool :=
  String.eqb (service rq) "sqs" && String.eqb (operation rq) "send_message"
  && match dict_lookup "QueueUrl" (kwargs rq) with
     | Some v => eq_str v url
     | None => false
     end.

Definition not_sent_to (url : string) (rq : call) : Prop :=
  sends_to url rq = false.

(** [rq] is [delete_message] with the receipt handle [rh]. *)
Definition deletes (rh : value) (rq : call) : Prop :=
  service rq = "sqs" /\ operation rq = "delete_message" /\
  dict_lookup "ReceiptHandle" (kwargs rq) = Some rh.

(** What a consumer that ran to [r] from the world [w] did with a
    delivery whose receipt handle is [rh].  With the queue URL configured
    and a receipt handle that is a [str], its first request is the
    deletion of the message, and when the body of the message is malformed
    the deletion is its only request and it raises.  Without a queue URL it
    raises [MissingEnvironmentVariable] before any request, and with a
    receipt handle that is not a [str] the deletion raises
    [ParamValidationError] before any request: in both cases the message
    stays in the queue. *)
Definition deletes_first (c : ctx) (event rh : value) (w : world)
    (r : result unit * world) : Prop :=
  match environ c !! "SQS_QUEUE_URL" with
  | Some url =>
      if String.eqb url "" then r = (Raise MissingEnvironmentVariable, w)
      else
        match str_of rh with
        | Some _ =>
            (exists tr, issued w (snd r) = delete_request url rh :: tr) /\
            (forall e, fst (_get_message_body event c w) = Raise e ->
               exists e', r = (Raise e', log_call (delete_request url rh) w))
        | None => r = (Raise ParamValidationError, w)
        end
  | None => r = (Raise MissingEnvironmentVariable, w)
  end.

Definition is_operation (svc op : string) (rq : call) : bool :=
  String.eqb (service rq) svc && String.eqb (operation rq) op.

(** The invocations of the lambdas that read or write the tracker. *)
Inductive invocation : Type :=
  | GlueTrackingInitial (event : value)
  | RdsGlueTrackingInitial (event : value)
  | S3Trigger (event : value)
  | DynamodbTrigger (event : value)
  | CatalogCreatorS3
  | S3GlueJobCreator
  | S3TagReport
  | DdbTagReport
  | RdsTagReport.

Definition invoke (i : invocation) : M unit :=
  match i with
  | GlueTrackingInitial event => glue_tracking_initial.lambda_handler event
  | RdsGlueTrackingInitial event => rds_glue_tracking_initial.lambda_handler event
  | S3Trigger event => s3_trigger.lambda_handler event
  | DynamodbTrigger event => dynamodb_trigger.lambda_handler event
  | CatalogCreatorS3 => catalog_creator_s3.lambda_handler
  | S3GlueJobCreator => s3_glue_job_creator.lambda_handler
  | S3TagReport => s3_tag_report.lambda_handler
  | DdbTagReport => ddb_tag_report.lambda_handler
  | RdsTagReport => rds_tag_report.lambda_handler
  end.

(** ** Sample inputs *)

(** A configured deployment in which every service answers with status
    200, and a few events and tables, for the examples below. *)
Module sample.

Definition ok200 : dict :=
  [("ResponseMetadata", VDict [("HTTPStatusCode", VNum 200)]);
   ("Account", VStr "111122223333")].

Definition environment : gmap string string :=
  list_to_map
    [("GLUE_TRACKER_TABLE_NAME", "tracker");
     ("DDB_TABLE_NAME", "tracker");
     ("DDB_GLUE_TRACKER_TABLE_NAME", "tracker");
     ("TAG_REPORT_TABLE_NAME", "tags");
     ("SQS_QUEUE_URL", "queue/tracking");
     ("GLUE_TRACKING_QUEUE_URL", "queue/tracking");
     ("GLUE_CUSTOM_ENTITY_QUEUE_URL", "queue/custom-entity");
     ("CATALOG_DB_NAME", "db");
     ("DATA_CATALOG_DB_NAME", "db");
     ("GLUE_ROLE_ARN", "arn:role");
     ("PII_OUTPUT_TABLE_NAME", "pii");
     ("GLUE_ASSETS_BUCKET", "assets");
     ("GLUE_SCRIPT_BUCKET", "scripts")].

(** Identifiers that are all different. *)
Definition fresh_ids (n : nat) : string := "id-" ++ pretty n.

Definition cloud : ctx :=
  Ctx environment fresh_ids (fun _ _ => Ok ok200) (fun _ => "2024-01-01 00:00:00").

(** The same deployment when [uuid4] returns the same identifier twice. *)
Definition cloud_same_id : ctx :=
  Ctx environment (fun _ => "id-0") (fun _ _ => Ok ok200)
    (fun _ => "2024-01-01 00:00:00").

(** The same deployment without [GLUE_SCRIPT_BUCKET]. *)
Definition cloud_without_script_bucket : ctx :=
  Ctx (delete "GLUE_SCRIPT_BUCKET" environment) fresh_ids
    (fun _ _ => Ok ok200) (fun _ => "2024-01-01 00:00:00").

(** The same deployment without [SQS_QUEUE_URL]. *)
Definition cloud_without_queue_url : ctx :=
  Ctx (delete "SQS_QUEUE_URL" environment) fresh_ids
    (fun _ _ => Ok ok200) (fun _ => "2024-01-01 00:00:00").

(** The same deployment when Glue refuses to create the table [db_b1]. *)
Definition cloud_refusing_b1 : ctx :=
  Ctx environment fresh_ids
    (fun _ rq =>
       if is_operation "glue" "create_table" rq &&
          match dict_lookup "TableInput" (kwargs rq) with
          | Some ti => match field ti "Name" with
                       | Some n => eq_str n "db_b1"
                       | None => false
                       end
          | None => false
          end
       then Raise (ClientError "AlreadyExistsException")
       else Ok ok200)
    (fun _ => "2024-01-01 00:00:00").

Definition start : world := World (fun _ => ∅) [] 0.

Definition bucket (name : string) : value :=
  VDict [("bucketName", VStr name); ("Host", VStr "s3.amazonaws.com")].

(** A message of the tracking queue, as the queue delivers it. *)
Definition delivery (body : value) : value :=
  VDict [("Records",
          VList [VDict [("receiptHandle", VStr "rh-1");
                        ("messageId", VStr "m-1");
                        ("body", body)]])].

Definition s3_discovery : value := s3_trigger.message_dict (bucket "b1").

Definition create_bucket_event : value :=
  VDict [("source", VStr "aws.s3");
         ("detail", VDict [("eventName", VStr "CreateBucket");
                           ("requestParameters", bucket "b1")])].

Definition table_description : value :=
  VDict [("tableDescription",
          VDict [("tableName", VStr "orders");
                 ("tableArn", VStr "arn:table/orders")])].

Definition create_table_event : value :=
  VDict [("source", VStr "aws.dynamodb");
         ("detail", VDict [("eventName", VStr "CreateTable");
                           ("responseElements", table_description)])].

Definition glue_create_table_event : value :=
  VDict [("source", VStr "aws.glue");
         ("detail",
          VDict [("eventName", VStr "CreateTable");
                 ("requestParameters",
                  VDict [("databaseName", VStr "db");
                         ("tableInput",
                          VDict [("name", VStr "orders");
                                 ("parameters",
                                  VDict [("connectionName", VStr "jdbc")])])])])].

(** A record of an object-store source, with the given stage flags. *)
Definition record (id bucket_name : string) (catalogued job : bool) : dict :=
  [("id", VStr id);
   ("data_source_type", VStr "s3");
   ("glue_job_created", VBool job);
   ("data_catalog_entry", VBool catalogued);
   ("data_source_attrs", bucket bucket_name);
   ("data_catalog_table_name", VStr ("db_" ++ bucket_name));
   ("data_catalog_db_name", VStr "db")].

Definition with_tracker (tb : table) : world :=
  World (fun t => if decide (t = "tracker") then tb else ∅) [] 0.

(** The tags S3 reports for the sample bucket, in a deployment that
    differs from [cloud] by them only. *)
Definition cloud_with_tags (tags : list value) : ctx :=
  Ctx environment fresh_ids
    (fun _ rq =>
       if is_operation "s3" "get_bucket_tagging" rq
       then Ok (("TagSet", VList tags) :: ok200)
       else Ok ok200)
    (fun _ => "2024-01-01 00:00:00").

Definition tag (k v : string) : value :=
  VDict [("Key", VStr k); ("Value", VStr v)].

(** Three object-store records that no stage has touched; a scan
    returns them in the order [id-1], [id-2], [id-0]. *)
Definition three_discovered : table :=
  <["id-0" := record "id-0" "b2" false false]>
    (<["id-2" := record "id-2" "b1" false false]>
       (<["id-1" := record "id-1" "b0" false false]> ∅)).

(** One object-store record that the catalog stage has completed. *)
Definition one_catalogued : table :=
  {["id-0" := record "id-0" "b1" true false]}.

Definition stage_flags (w : world) (id : string) : option value * option value :=
  match ddb w "tracker" !! id with
  | Some item =>
      (dict_lookup "data_catalog_entry" item, dict_lookup "glue_job_created" item)
  | None => (None, None)
  end.

End sample.

(** The script a [create_job] request names. *)
Definition script_location (rq : call) : option value :=
  dict_lookup "Command" (kwargs rq) ≫= fun cmd => field cmd "ScriptLocation".

(** Every table other than [T] is what it was. *)
Definition same_elsewhere (T : string) : relation world :=
  fun w w' => forall t, t <> T -> ddb w' t = ddb w t.

(** ** More of Python's operations on values *)

(** [a == b] for any two values: numbers and booleans by their number,
    texts by their characters, lists element by element, dicts as sets of
    bindings (a dict holds a key once). *)
Fixpoint py_equal (a b : value) : bool :=
  match a with
  | VNone => match b with VNone => true | _ => false end
  | VBool x => eq_num b (Z.b2z x)
  | VNum n => eq_num b n
  | VStr s => eq_str b s
  | VJson j => eq_str b (json_dumps j)
  | VList l =>
      match b with
      | VList l' =>
          (fix go (l l' : list value) : bool :=
             match l, l' with
             | [], [] => true
             | x :: r, y :: r' => py_equal x y && go r r'
             | _, _ => false
             end) l l'
      | _ => false
      end
  | VDict d =>
      match b with
      | VDict d' =>
          Nat.eqb (List.length d) (List.length d') &&
          (fix go (d : dict) : bool :=
             match d with
             | [] => true
             | (k, v) :: r =>
                 match dict_lookup k d' with
                 | Some v' => py_equal v v' && go r
                 | None => false
                 end
             end) d
      | _ => false
      end
  end.

(** [sub in s] for two texts. *)
Fixpoint substring_of (sub s : string) : bool :=
  String.prefix sub s ||
  match s with
  | EmptyString => false
  | String _ r => substring_of sub r
  end.

(** ["lit" in v]: a substring of a text, an element of a list, a key of a
    dict. *)
Definition contains (lit : string) (v : value) : result bool :=
  match v with
  | VStr _ | VJson _ =>
      match str_of v with
      | Some s => Ok (substring_of lit s)
      | None => Raise TypeError
      end
  | VList l => Ok (existsb (fun x => eq_str x lit) l)
  | VDict d => Ok (existsb (fun kv => String.eqb lit (fst kv)) d)
  | _ => Raise TypeError
  end.

(** [s.replace(old, new)] for a non-empty [old]: the occurrences are
    replaced from left to right, without overlap. *)
Fixpoint replace_go (old new : string) (skip : nat) (s : string) : string :=
  match s with
  | EmptyString => EmptyString
  | String a r =>
      match skip with
      | S k => replace_go old new k r
      | O =>
          if String.prefix old s
          then new ++ replace_go old new (String.length old - 1) r
          else String a (replace_go old new 0 r)
      end
  end.

Definition replace_all (old new s : string) : string := replace_go old new 0 s.

(** [s.strip(chars)]. *)
Fixpoint lstrip (chars : list ascii) (s : string) : string :=
  match s with
  | EmptyString => EmptyString
  | String a r => if bool_decide (a ∈ chars) then lstrip chars r else s
  end.

Definition rstrip (chars : list ascii) (s : string) : string :=
  String.rev (lstrip chars (String.rev s)).

Definition strip (chars : list ascii) (s : string) : string :=
  rstrip chars (lstrip chars s).

Definition backslash : ascii := ascii_of_nat 92.

Definition hex_digit (n : nat) : ascii :=
  nth n (list_ascii_of_string "0123456789abcdef") "0"%char.

(** [repr(s)] of a text, its characters read as Latin-1: between single
    quotes, or between double quotes when the text has a single quote and
    no double quote; the quote, the backslash and what does not print are
    escaped. *)
Definition repr_char (q a : ascii) : string :=
  let n := nat_of_ascii a in
  if Ascii.eqb a q || Ascii.eqb a backslash then String backslash (String a EmptyString)
  else if Nat.eqb n 9 then String backslash "t"
  else if Nat.eqb n 10 then String backslash "n"
  else if Nat.eqb n 13 then String backslash "r"
  else if Nat.ltb n 32 || (Nat.leb 127 n && Nat.leb n 160) || Nat.eqb n 173
  then String backslash
         (String "x" (String (hex_digit (n / 16)) (String (hex_digit (n mod 16)) EmptyString)))
  else String a EmptyString.

Fixpoint repr_chars (q : ascii) (s : string) : string :=
  match s with
  | EmptyString => EmptyString
  | String a r => repr_char q a ++ repr_chars q r
  end.

Definition has_char (a : ascii) (s : string) : bool :=
  existsb (Ascii.eqb a) (list_ascii_of_string s).

Definition repr_str (s : string) : string :=
  let q := if has_char "'" s && negb (has_char (ascii_of_nat 34) s)
           then ascii_of_nat 34 else "'"%char in
  String q (repr_chars q s ++ String q EmptyString).

(** [str(tuple(l))] for a list of texts. *)
Definition str_tuple (l : list string) : string :=
  match l with
  | [x] => "(" ++ repr_str x ++ ",)"
  | _ => "(" ++ join ", " (map repr_str l) ++ ")"
  end.

(** [del d[k]]. *)
Fixpoint dict_del (k : string) (d : dict) : option dict :=
  match d with
  | [] => None
  | (k', v) :: r =>
      if String.eqb k k' then Some r
      else match dict_del k r with
           | Some r' => Some ((k', v) :: r')
           | None => None
           end
  end.

Definition delete_key (v : value) (k : string) : result value :=
  match v with
  | VDict d =>
      match dict_del k d with
      | Some d' => Ok (VDict d')
      | None => Raise KeyError
      end
  | _ => Raise TypeError
  end.

(** [d[k] = x]. *)
Definition assign (v : value) (k : string) (x : value) : result value :=
  match v with
  | VDict d => Ok (VDict (dict_set k x d))
  | _ => Raise TypeError
  end.

(** [s[:n]]. *)
Fixpoint str_take (n : nat) (s : string) : string :=
  match n, s with
  | S n', String a r => String a (str_take n' r)
  | _, _ => EmptyString
  end.

(** What an iteration of a loop ends with: it falls through or [continue]s
    to the next element, or [break]s out of the loop. *)
Inductive flow (S : Type) : Type :=
  | Next (s : S)
  | Break (s : S).
Arguments Next {S} s.
Arguments Break {S} s.

(** A loop that carries a local variable and can [break]. *)
Fixpoint for_flow {A S} (l : list A) (s : S) (body : S -> A -> M (flow S)) : M S :=
  match l with
  | [] => ret s
  | x :: r =>
      f <- body s x ;;
      match f with
      | Next s' => for_flow r s' body
      | Break s' => ret s'
      end
  end.

(** ** rds-glue-initial/app.py, after the message body is read *)
Module rds_glue_provision.

Definition SEC_GROUP_ENV_VAR : string := "CONN_SEC_GROUP_ID".
Definition CRAWLER_SCHEMAS_EXC_ENV_VAR : string := "CRAWLER_SCHEMAS_EXCEPTION".
Definition CATALOG_DB_NAME_ENV_VAR : string := "CATALOG_DB_NAME".
Definition CRAWLER_ROLE_ENV_VAR : string := "CRAWLER_ROLE_ARN".
Definition DEFAULT_EXCEPTION_SCHEMAS : list string :=
  ["pg_catalog"; "information_schema"].

Definition newline : string := String (ascii_of_nat 10) EmptyString.

(** [BASE_SCHEMA_SQL.format(tuple(exc_schemas))]. *)
Definition BASE_SCHEMA_SQL (exc_schemas : list string) : string :=
  newline ++
  "SELECT DISTINCT(table_schema) FROM information_schema.tables WHERE table_schema NOT IN "
  ++ str_tuple exc_schemas ++ newline.

(** The cluster a secret is for, or [None] when the secret is not a JSON
    document. *)
Definition _get_db_cluster_identifier (secret_name : value) : M value :=
  get_secret_value_response <-
    boto "secretsmanager" "get_secret_value" [("SecretId", secret_name)] ;;
  _check_missing_field get_secret_value_response "SecretString" ;;;
  secret_string <- lift (subscript get_secret_value_response "SecretString") ;;
  parsed <- lift (json_loads secret_string) ;;
  match parsed with
  | Some secret_dict => lift (get secret_dict "dbClusterIdentifier")
  | None => ret VNone
  end.

(** One round of the loop over the secrets of the account: [arn] and [name]
    are the two local variables of [_fetch_secret_for_db]. *)
Definition visit_secret (cluster_identifier : value) (st : value * value)
    (secret : value) : M (value * value) :=
  _check_missing_field secret "Name" ;;;
  name <- lift (subscript secret "Name") ;;
  cluster_id <- _get_db_cluster_identifier name ;;
  match cluster_id with
  | VNone => ret (fst st, name)
  | _ =>
      if py_equal cluster_id cluster_identifier
      then _check_missing_field secret "ARN" ;;;
           arn <- lift (subscript secret "ARN") ;;
           ret (arn, name)
      else ret (fst st, name)
  end.

(** Returns [(arn, name)]. *)
Definition _fetch_secret_for_db (cluster_identifier : value) : M (value * value) :=
  resp <- boto "secretsmanager" "list_secrets" [] ;;
  check_response resp ;;;
  _check_missing_field resp "SecretList" ;;;
  secret_list <- lift (subscript resp "SecretList") ;;
  secrets <- lift (iterate secret_list) ;;
  for_acc secrets (VStr "", VStr "") (visit_secret cluster_identifier).

Definition create_glue_conn (connection_name protocol : string)
    (endpoint port dbname connection_ssl secret_name account_id subnet
       sec_group_id : value) : M unit :=
  let url := "jdbc:" ++ protocol ++ "://" ++ py_str endpoint ++ ":"
             ++ py_str port ++ "/" ++ py_str dbname in
  enforce_ssl <- (if negb (truthy connection_ssl) then ret "false"
                  else ret (lower (py_str connection_ssl))) ;;
  zone <- lift (subscript subnet "SubnetAvailabilityZone") ;;
  zone_name <- lift (subscript zone "Name") ;;
  subnet_id <- lift (subscript subnet "SubnetIdentifier") ;;
  resp <- boto "glue" "create_connection"
            [("CatalogId", account_id);
             ("ConnectionInput",
              VDict [("Name", VStr connection_name);
                     ("ConnectionType", VStr "JDBC");
                     ("ConnectionProperties",
                      VDict [("JDBC_CONNECTION_URL", VStr url);
                             ("SECRET_ID", secret_name);
                             ("JDBC_ENFORCE_SSL", VStr enforce_ssl)]);
                     ("PhysicalConnectionRequirements",
                      VDict [("AvailabilityZone", zone_name);
                             ("SubnetId", subnet_id);
                             ("SecurityGroupIdList", VList [sec_group_id])])])] ;;
  check_response resp.

Definition get_subnet_for_conn (subnet_group : value) : M value :=
  resp <- boto "rds" "describe_db_subnet_groups"
            [("DBSubnetGroupName", subnet_group)] ;;
  check_response resp ;;;
  _check_missing_field resp "DBSubnetGroups" ;;;
  groups <- lift (subscript resp "DBSubnetGroups") ;;
  subnet_group_details <- lift (first_item groups) ;;
  _check_missing_field subnet_group_details "Subnets" ;;;
  subnets <- lift (subscript subnet_group_details "Subnets") ;;
  lift (first_item subnets).

Definition _execute_sql (secret dbname resource_arn : value) (sql : string)
  : M value :=
  response <- boto "rds-data" "execute_statement"
                [("resourceArn", resource_arn);
                 ("secretArn", secret);
                 ("database", dbname);
                 ("sql", VStr sql)] ;;
  md <- lift (subscript response "ResponseMetadata") ;;
  status <- lift (subscript md "HTTPStatusCode") ;;
  if eq_num status 200 then ret response else raise Exception_.

(** The loop over the records of the schema query (lines 456 to 468): a
    record without a first field, or whose first field is not a string
    value, is skipped. *)
Definition schema_of (crawler_schemas : list value) (rec : value)
  : M (list value) :=
  try_except
    (rec_first <- lift (first_item rec) ;;
     schema <- lift (subscript rec_first "stringValue") ;;
     ret (crawler_schemas ++ [schema])%list)
    (fun e =>
       match e with
       | IndexError => Some (ret crawler_schemas)
       | KeyError => Some (ret crawler_schemas)
       | _ => None
       end).

Definition crawler_request (cluster_id catalog_db_name crawler_role : value)
    (connection_name : string) (schema : value) : call :=
  Call "glue" "create_crawler"
    [("Name", VStr ("glue-crawler-" ++ py_str cluster_id ++ "-" ++ py_str schema));
     ("Role", crawler_role);
     ("DatabaseName", catalog_db_name);
     ("Targets",
      VDict [("JdbcTargets",
              VList [VDict [("ConnectionName", VStr connection_name);
                            ("Path", VStr ("postgres/" ++ py_str schema ++ "/%"))]])]);
     ("Schedule", VStr "cron(0 2 * * ? *)")].

(** The body of the loop over the schemas (lines 482 to 499). *)
Definition create_crawler (cluster_id catalog_db_name crawler_role : value)
    (connection_name : string) (schema : value) : M unit :=
  let rq := crawler_request cluster_id catalog_db_name crawler_role
              connection_name schema in
  resp <- boto (service rq) (operation rq) (kwargs rq) ;;
  check_response resp.

(** Lines 370 to 501 of [lambda_handler]. *)
Definition provision (body : value) : M unit :=
  _check_missing_field body "dBClusterIdentifier" ;;;
  cluster_id <- lift (subscript body "dBClusterIdentifier") ;;
  _check_missing_field body "dBClusterArn" ;;;
  cluster_arn <- lift (subscript body "dBClusterArn") ;;
  _check_missing_field body "endpoint" ;;;
  endpoint <- lift (subscript body "endpoint") ;;
  _check_missing_field body "engine" ;;;
  engine <- lift (subscript body "engine") ;;
  _check_missing_field body "port" ;;;
  port <- lift (subscript body "port") ;;
  dbname <- lift (get body "databaseName") ;;
  let dbname := if truthy dbname then dbname else VStr "information_schema" in
  is_postgres <- lift (contains "postgres" engine) ;;
  let protocol := if is_postgres then "postgresql" else "mysql" in
  secret <- _fetch_secret_for_db cluster_id ;;
  let secret_arn := fst secret in
  let secret_name := snd secret in
  if negb (truthy secret_arn) then ret tt else
  sec_group_id <- os_environ SEC_GROUP_ENV_VAR ;;
  if negb (truthy sec_group_id) then raise MissingEnvironmentVariable else
  _check_missing_field body "dBSubnetGroup" ;;;
  subnet_group <- lift (subscript body "dBSubnetGroup") ;;
  subnet <- get_subnet_for_conn subnet_group ;;
  _ <- lift (subscript subnet "SubnetIdentifier") ;;
  identity <- boto "sts" "get_caller_identity" [] ;;
  account_id <- lift (subscript identity "Account") ;;
  let connection_name := "glue-connection-" ++ py_str cluster_id in
  connection_ssl <- os_environ "CONNECTION_SSL" ;;
  create_glue_conn connection_name protocol endpoint port dbname connection_ssl
    secret_name account_id subnet sec_group_id ;;;
  crawler_schemas_exc <- os_environ_get CRAWLER_SCHEMAS_EXC_ENV_VAR ;;
  let exc_schemas :=
    (DEFAULT_EXCEPTION_SCHEMAS ++
     match crawler_schemas_exc with
     | Some s => split "," s
     | None => []
     end)%list in
  sql_resp <- _execute_sql secret_arn dbname cluster_arn
                (BASE_SCHEMA_SQL exc_schemas) ;;
  recs <- lift (get_default sql_resp "records" (VList [])) ;;
  recs <- lift (iterate recs) ;;
  crawler_schemas <- for_acc recs [] schema_of ;;
  catalog_db_name <- os_environ CATALOG_DB_NAME_ENV_VAR ;;
  if negb (truthy catalog_db_name) then raise MissingEnvironmentVariable else
  crawler_role <- os_environ CRAWLER_ROLE_ENV_VAR ;;
  if negb (truthy crawler_role) then raise MissingEnvironmentVariable else
  for_ crawler_schemas
    (create_crawler cluster_id catalog_db_name crawler_role connection_name).

Definition lambda_handler : value -> M unit :=
  rds_glue_initial.lambda_handler provision.

End rds_glue_provision.

(** The schema a record of the schema query names: the string value of
    its first field. *)
Definition schema_of_record (rec : value) : option value :=
  match rec with
  | VList (f :: _) => field f "stringValue"
  | _ => None
  end.

(** A record as the RDS Data API returns it: a list of fields, each a
    dict. *)
Definition is_record (rec : value) : Prop :=
  exists fields, rec = VList fields /\ Forall (fun f => exists d, f = VDict d) fields.

(** ** rds-ddl-init/app.py and rds-ddl-change/app.py *)

(** What the two lambdas that run the DDL file share. *)
Module rds_ddl.

Definition DB_NAME_ENV_VAR : string := "DB_NAME".
Definition DDL_SOURCE_BUCKET_ENV_VAR : string := "DDL_SOURCE_BUCKET".
Definition DDL_FILE : string := "rds-ddl.sql".

(** The cluster a secret is for.  A secret that is not a JSON document
    raises [JSONDecodeError], a [ValueError]. *)
Definition get_db_cluster_id_from_secret_name (secret_name : value) : M value :=
  get_secret_value_response <-
    boto "secretsmanager" "get_secret_value" [("SecretId", secret_name)] ;;
  _check_missing_field get_secret_value_response "SecretString" ;;;
  secret_string <- lift (subscript get_secret_value_response "SecretString") ;;
  parsed <- lift (json_loads secret_string) ;;
  match parsed with
  | Some secret_dict => lift (get secret_dict "dbClusterIdentifier")
  | None => raise ValueError
  end.

(** One round of the loop over the secrets of the account; [arn] is the
    local variable of [_fetch_secret_for_db]. *)
Definition visit_secret (cluster_identifier : value) (arn : value)
    (secret : value) : M (flow value) :=
  _check_missing_field secret "Name" ;;;
  name <- lift (subscript secret "Name") ;;
  cluster_id <- get_db_cluster_id_from_secret_name name ;;
  if negb (truthy cluster_id) then ret (Next arn) else
  if py_equal cluster_id cluster_identifier
  then _check_missing_field secret "ARN" ;;;
       arn <- lift (subscript secret "ARN") ;;
       ret (Break arn)
  else ret (Next arn).

Definition _fetch_secret_for_db (cluster_identifier : value) : M value :=
  resp <- boto "secretsmanager" "list_secrets" [] ;;
  check_response resp ;;;
  _check_missing_field resp "SecretList" ;;;
  secret_list <- lift (subscript resp "SecretList") ;;
  secrets <- lift (iterate secret_list) ;;
  for_flow secrets (VStr "") (visit_secret cluster_identifier).

Definition execute_sql_request (secret dbname resource_arn : value) (sql : string)
  : call :=
  Call "rds-data" "execute_statement"
    [("resourceArn", resource_arn);
     ("secretArn", secret);
     ("database", dbname);
     ("sql", VStr sql)].

Definition _execute_sql (secret dbname resource_arn : value) (sql : string)
  : M unit :=
  let rq := execute_sql_request secret dbname resource_arn sql in
  response <- boto (service rq) (operation rq) (kwargs rq) ;;
  md <- lift (subscript response "ResponseMetadata") ;;
  status <- lift (subscript md "HTTPStatusCode") ;;
  if eq_num status 200 then ret tt else raise Exception_.

(** The body of an S3 object is a stream: the dict
    [{"StreamingBody": text}] stands for the stream that holds [text]. *)
Definition streaming_body (text : string) : value :=
  VDict [("StreamingBody", VStr text)].

(** [body_obj.read().decode("utf-8")]. *)
Definition read_decode (body_obj : value) : result string :=
  match body_obj with
  | VDict [("StreamingBody", VStr text)] => Ok text
  | _ => Raise AttributeError
  end.

Definition _get_ddl_source_file_contents (bucket filename : value) : M string :=
  resp <- boto "s3" "get_object" [("Bucket", bucket); ("Key", filename)] ;;
  check_response resp ;;;
  _check_missing_field resp "Body" ;;;
  body_obj <- lift (subscript resp "Body") ;;
  lift (read_decode body_obj).

Definition whitespace : list ascii :=
  [" "%char; ascii_of_nat 10; ascii_of_nat 9].

(** The body of the loop over the statements of the file. *)
Definition run_statement (secret_arn db_name cluster_arn : value) (sql : string)
  : M unit :=
  let eff_sql := strip whitespace sql in
  if negb (String.eqb eff_sql "")
  then _execute_sql secret_arn db_name cluster_arn eff_sql
  else ret tt.

(** The end of both handlers: fetch the file and run its statements. *)
Definition run_ddl (source_s3_bucket ddl_source_file secret_arn db_name
    cluster_arn : value) : M unit :=
  file_content_string <-
    _get_ddl_source_file_contents source_s3_bucket ddl_source_file ;;
  for_ (split ";" file_content_string)
    (run_statement secret_arn db_name cluster_arn).

(** [os.environ.get("DDL_SOURCE_FILE_RDS", DDL_FILE)]. *)
Definition ddl_source_file : M value :=
  o <- os_environ_get "DDL_SOURCE_FILE_RDS" ;;
  ret (VStr (default DDL_FILE o)).

End rds_ddl.

Module rds_ddl_init.

Definition SQS_QUEUE_ENV_VAR : string := "SQS_QUEUE_URL".

Definition _get_message_body (event : value) : M value :=
  test_event <- lift (get_default event "test_event" (VStr "")) ;;
  t <- lift (str_lower test_event) ;;
  if String.eqb t "true" then ret event else
  _check_missing_field event "Records" ;;;
  records <- lift (subscript event "Records") ;;
  first_record <- lift (first_item records) ;;
  body <- try_except (lift (get first_record "body"))
            (fun e => match e with
                      | AttributeError => Some (raise MalformedEvent)
                      | _ => None
                      end) ;;
  if negb (truthy body) then raise MalformedEvent else
  parsed <- lift (json_loads body) ;;
  match parsed with
  | Some v => ret v
  | None => raise MalformedEvent
  end.

Definition _get_sqs_message_attributes (event : value) : M value :=
  records <- lift (get event "Records") ;;
  if negb (truthy records) then ret VNone else
  first_record <- try_except (lift (first_item records))
                    (fun e => match e with
                              | IndexError => Some (raise MalformedEvent)
                              | _ => None
                              end) ;;
  _check_missing_field first_record "receiptHandle" ;;;
  receipt_handle <- lift (subscript first_record "receiptHandle") ;;
  _check_missing_field first_record "messageId" ;;;
  message_id <- lift (subscript first_record "messageId") ;;
  ret (VDict [("message_id", message_id); ("receipt_handle", receipt_handle)]).

(** Lines 310 to 369 of [lambda_handler]. *)
Definition run (body : value) : M unit :=
  _check_missing_field body "dBClusterIdentifier" ;;;
  cluster_id <- lift (subscript body "dBClusterIdentifier") ;;
  source_s3_bucket <- os_environ rds_ddl.DDL_SOURCE_BUCKET_ENV_VAR ;;
  if negb (truthy source_s3_bucket) then raise MissingEnvironmentVariable else
  cluster_lower <- lift (str_lower cluster_id) ;;
  bucket_lower <- lift (str_lower source_s3_bucket) ;;
  if negb (substring_of cluster_lower bucket_lower) then ret tt else
  _check_missing_field body "dBClusterArn" ;;;
  cluster_arn <- lift (subscript body "dBClusterArn") ;;
  body_dbname <- lift (get body "databaseName") ;;
  let body_dbname :=
    if truthy body_dbname then body_dbname else VStr "information_schema" in
  env_db_name <- os_environ rds_ddl.DB_NAME_ENV_VAR ;;
  let db_name := if truthy env_db_name then env_db_name else body_dbname in
  secret_arn <- rds_ddl._fetch_secret_for_db cluster_id ;;
  if negb (truthy secret_arn) then raise Exception_ else
  ddl_source_file <- rds_ddl.ddl_source_file ;;
  rds_ddl.run_ddl source_s3_bucket ddl_source_file secret_arn db_name cluster_arn.

Definition lambda_handler (event : value) : M unit :=
  msg_attr <- _get_sqs_message_attributes event ;;
  (if truthy msg_attr then
     _ <- lift (subscript msg_attr "message_id") ;;
     queue_url <- os_environ SQS_QUEUE_ENV_VAR ;;
     if negb (truthy queue_url) then raise MissingEnvironmentVariable else
     receipt_handle <- lift (subscript msg_attr "receipt_handle") ;;
     deletion_resp <- delete_message queue_url receipt_handle ;;
     resp_metadata <- lift (get deletion_resp "ResponseMetadata") ;;
     if negb (truthy resp_metadata) then raise Exception_ else
     status_code <- lift (get resp_metadata "HTTPStatusCode") ;;
     if eq_num status_code 200 then ret tt else raise Exception_
   else ret tt) ;;;
  body <- _get_message_body event ;;
  run body.

End rds_ddl_init.

(** The handler first sleeps for two minutes, which changes nothing
    here. *)
Module rds_ddl_change.

Definition REGION_ENV_VAR : string := "AWS_REGION".

(** Lines 240 to 245: the ARN of the first cluster described, or the
    empty text when the list of clusters cannot be indexed. *)
Definition described_cluster_arn (resp : value) : M value :=
  try_except
    (clusters <- lift (subscript resp "DBClusters") ;;
     cluster_details <- lift (first_item clusters) ;;
     _check_missing_field cluster_details "DBClusterArn" ;;;
     lift (subscript cluster_details "DBClusterArn"))
    (fun e => match e with
              | IndexError => Some (ret (VStr ""))
              | _ => None
              end).

(** Lines 247 to 258: the ARN made up from the region and the account
    when RDS gave none. *)
Definition inferred_cluster_arn (cluster_arn : value) (cluster_id : string)
  : M value :=
  region <- os_environ REGION_ENV_VAR ;;
  if negb (truthy region) then raise MissingEnvironmentVariable else
  identity <- boto "sts" "get_caller_identity" [] ;;
  account_id <- lift (get identity "Account") ;;
  if negb (truthy account_id) then ret cluster_arn else
  ret (VStr ("arn:aws:rds:" ++ py_str region ++ ":" ++ py_str account_id
             ++ ":cluster:" ++ cluster_id)).

Definition lambda_handler : M unit :=
  ddl_source_file <- rds_ddl.ddl_source_file ;;
  source_s3_bucket <- os_environ rds_ddl.DDL_SOURCE_BUCKET_ENV_VAR ;;
  if negb (truthy source_s3_bucket) then raise MissingEnvironmentVariable else
  db_name <- os_environ rds_ddl.DB_NAME_ENV_VAR ;;
  if negb (truthy db_name) then raise MissingEnvironmentVariable else
  let cluster_id := replace_all "ddl-source-" "" (py_str source_s3_bucket) in
  resp <- boto "rds" "describe_db_clusters"
            [("DBClusterIdentifier", VStr cluster_id)] ;;
  check_response resp ;;;
  _check_missing_field resp "DBClusters" ;;;
  cluster_arn <- described_cluster_arn resp ;;
  cluster_arn <- (if negb (truthy cluster_arn)
                  then inferred_cluster_arn cluster_arn cluster_id
                  else ret cluster_arn) ;;
  if negb (truthy cluster_arn) then raise Exception_ else
  secret_arn <- rds_ddl._fetch_secret_for_db (VStr cluster_id) ;;
  if negb (truthy secret_arn) then raise Exception_ else
  rds_ddl.run_ddl source_s3_bucket ddl_source_file secret_arn db_name cluster_arn.

End rds_ddl_change.

(** The statements of a DDL file: its pieces between semicolons, without
    the white space around them, the empty ones left out. *)
Definition statements (text : string) : list string :=
  List.filter (fun s => negb (String.eqb s ""))
    (map (strip rds_ddl.whitespace) (split ";" text)).

Definition not_sts (rq : call) : Prop := service rq <> "sts".

Definition get_secret_value_request (name : value) : call :=
  Call "secretsmanager" "get_secret_value" [("SecretId", name)].

(** The cluster the secret named [name] is for, as Secrets Manager answers
    [get_secret_value] for it after the requests [hist]: the
    [dbClusterIdentifier] of the JSON document in [SecretString]. *)
Definition cluster_of_secret (c : ctx) (hist : list call) (name : value)
  : option value :=
  match aws c hist (get_secret_value_request name) with
  | Ok r =>
      match dict_lookup "SecretString" r with
      | Some (VJson doc) => field doc "dbClusterIdentifier"
      | _ => None
      end
  | Raise _ => None
  end.

(** No secret of the account is a secret of the cluster [cid]. *)
Definition no_secret_of (c : ctx) (cid : value) : Prop :=
  forall hist name id,
    cluster_of_secret c hist name = Some id -> py_equal id cid = false.

(** ** pii-report/app.py *)
Module pii_report.

Definition DELETE_PROPS : list string :=
  ["CreateTime"; "UpdateTime"; "CreatedBy"; "IsRegisteredWithLakeFormation";
   "CatalogId"; "VersionId"; "DatabaseName"].
Definition PII_OUTPUT_TABLE : string := "OUTPUT_TABLE_NAME".
Definition DATA_SOURCE : string := "DATA_SOURCE_NAME".

(** [SELECT * FROM {} WHERE data_source_type = '{}'] *)
Definition PARTIQL (t : string) (data_source : string) : statement :=
  Select t [("data_source_type", VStr data_source)].

(** [SELECT columnName, entityTypes FROM {} WHERE data_catalog_table='{}'
    AND "timestamp"='{}'] *)
Definition PII_PARTIQL (t : string) (table time_str : string) : statement :=
  Select t [("data_catalog_table", VStr table); ("timestamp", VStr time_str)].

Definition PII_COLUMNS : list string := ["columnName"; "entityTypes"].

(** The attributes of an item that a [SELECT a1, a2 ...] keeps. *)
Definition project (names : list string) (item : dict) : dict :=
  List.filter (fun kv => bool_decide (fst kv ∈ names)) item.

Definition execute_projection_request (names : list string) (q : statement)
  : call :=
  Call "dynamodb" "execute_statement"
    [("Statement",
      VDict [("SELECT", VList (map VStr names));
             ("FROM", VStr (from_ q));
             ("WHERE", VDict (where_ q))])].

(** [client.execute_statement(Statement=q)] for a statement that selects
    the attributes [names]. *)
Definition execute_projection (names : list string) (q : statement) : M value :=
  fun c w =>
    let rq := execute_projection_request names q in
    let w1 := log_call rq w in
    match aws c (calls w) rq with
    | Raise e => (Raise e, w1)
    | Ok _ =>
        (Ok (VDict (("Items",
                     VList (map (fun item => VDict (project names item))
                              (select q (ddb w (from_ q)))))
                    :: ok_response)), w1)
    end.

(** [_fetch_ddb_results] on [PII_PARTIQL]. *)
Definition _fetch_pii_results (query : statement) : M value :=
  resp <- execute_projection PII_COLUMNS query ;;
  check_response resp ;;;
  ret resp.

Definition glue_get_table (table_name account_id database_name : value) : M value :=
  resp <- boto "glue" "get_table"
            [("CatalogId", account_id);
             ("DatabaseName", database_name);
             ("Name", table_name)] ;;
  check_response resp ;;;
  ret resp.

(** One round of the first loop of [update_catalog_table]: the right-hand
    side of the assignment is evaluated before its target. *)
Definition note_column (pii_col_dict : dict) (col : value) : M dict :=
  entity_types <- lift (subscript col "entityTypes") ;;
  column_name <- lift (subscript col "columnName") ;;
  key <- lift (str_lower column_name) ;;
  ret (dict_set key (VStr (py_str entity_types)) pii_col_dict).

Definition comment_of (types : value) : string :=
  let comment_str := "Sensitive Data Element | " ++ py_str types in
  if Nat.ltb 255 (String.length comment_str)
  then str_take 255 comment_str else comment_str.

(** One round of the loop over the columns of the catalog table. *)
Definition annotate (pii_col_dict : dict) (update_cols : list value)
    (col_obj : value) : M (list value) :=
  col_name <- lift (subscript col_obj "Name") ;;
  col_obj <- (match str_of col_name ≫= fun s => dict_lookup s pii_col_dict with
              | Some entity_types =>
                  lift (assign col_obj "Comment" (VStr (comment_of entity_types)))
              | None => ret col_obj
              end) ;;
  ret (update_cols ++ [col_obj])%list.

Definition update_table_request (account_id database_name update_table_dict
    version : value) : call :=
  Call "glue" "update_table"
    [("CatalogId", account_id);
     ("DatabaseName", database_name);
     ("TableInput", update_table_dict);
     ("VersionId", version)].

Definition update_catalog_table (table_name database_name account_id : value)
    (columns : list value) : M unit :=
  pii_col_dict <- for_acc columns [] note_column ;;
  table_resp <- glue_get_table table_name account_id database_name ;;
  table_dict <- lift (get table_resp "Table") ;;
  if negb (truthy table_dict) then raise Exception_ else
  version <- lift (subscript table_dict "VersionId") ;;
  update_table_dict <-
    for_acc DELETE_PROPS table_dict (fun d del_prop => lift (delete_key d del_prop)) ;;
  descriptor <- lift (subscript update_table_dict "StorageDescriptor") ;;
  catalog_cols <- lift (subscript descriptor "Columns") ;;
  catalog_cols <- lift (iterate catalog_cols) ;;
  update_cols <- for_acc catalog_cols [] (annotate pii_col_dict) ;;
  descriptor <- lift (assign descriptor "Columns" (VList update_cols)) ;;
  update_table_dict <- lift (assign update_table_dict "StorageDescriptor" descriptor) ;;
  let rq := update_table_request account_id database_name update_table_dict
              version in
  resp <- boto (service rq) (operation rq) (kwargs rq) ;;
  check_response resp.

(** What [catalog_tables_dict] holds for a catalog table. *)
Record latest : Type := Latest {
  catalog_database_name : value;
  timestamp : Z;
  time_str : value;
}.

(** A value that can be the key of a dict. *)
Definition hashable (v : value) : bool :=
  match v with
  | VList _ | VDict _ => false
  | _ => true
  end.

Fixpoint find_key (k : value) (d : list (value * latest)) : option latest :=
  match d with
  | [] => None
  | (k', x) :: r => if py_equal k k' then Some x else find_key k r
  end.

Fixpoint set_key (k : value) (x : latest) (d : list (value * latest))
  : list (value * latest) :=
  match d with
  | [] => [(k, x)]
  | (k', x') :: r =>
      if py_equal k k' then (k', x) :: r else (k', x') :: set_key k x r
  end.

Section handler.

(** [datetime.datetime.strptime(s, DATE_FORMAT)] as the number of
    microseconds of the instant, [None] when it raises [ValueError]. *)
Variable strptime : string -> option Z.

(** One round of the loop that keeps the latest timestamp per catalog
    table. *)
Definition note_record (catalog_tables_dict : list (value * latest))
    (rec : value) : M (list (value * latest)) :=
  catalog_table <- lift (subscript rec "data_catalog_table") ;;
  time_str <- lift (subscript rec "timestamp") ;;
  timestamp <- lift (match str_of time_str with
                     | Some s => match strptime s with
                                 | Some t => Ok t
                                 | None => Raise ValueError
                                 end
                     | None => Raise TypeError
                     end) ;;
  if negb (hashable catalog_table) then raise TypeError else
  match find_key catalog_table catalog_tables_dict with
  | None =>
      database <- lift (subscript rec "data_catalog_database") ;;
      ret (catalog_tables_dict ++
           [(catalog_table, Latest database timestamp time_str)])%list
  | Some existing_obj =>
      if Z.ltb (pii_report.timestamp existing_obj) timestamp
      then ret (set_key catalog_table
                  (Latest (catalog_database_name existing_obj) timestamp time_str)
                  catalog_tables_dict)
      else ret catalog_tables_dict
  end.

(** The body of the loop over the catalog tables. *)
Definition report_table (ddb_table_name : string) (account_id : value)
    (entry : value * latest) : M unit :=
  let table := fst entry in
  pii_results <- _fetch_pii_results
                   (PII_PARTIQL ddb_table_name (py_str table)
                      (py_str (time_str (snd entry)))) ;;
  pii_items <- lift (get pii_results "Items") ;;
  pythonic_pii_items <- unmarshall_ddb_items pii_items ;;
  update_catalog_table table (catalog_database_name (snd entry)) account_id
    pythonic_pii_items.

Definition lambda_handler : M unit :=
  ddb_table_name <- os_environ PII_OUTPUT_TABLE ;;
  if negb (truthy ddb_table_name) then raise MissingEnvironmentVariable else
  data_source <- os_environ DATA_SOURCE ;;
  if negb (truthy data_source) then raise MissingEnvironmentVariable else
  ddb_resp <- _fetch_ddb_results
                (PARTIQL (py_str ddb_table_name) (py_str data_source)) ;;
  ddb_results <- lift (get ddb_resp "Items") ;;
  if negb (truthy ddb_results) then ret tt else
  pythonic_results <- unmarshall_ddb_items ddb_results ;;
  catalog_tables_dict <- for_acc pythonic_results [] note_record ;;
  identity <- boto "sts" "get_caller_identity" [] ;;
  account_id <- lift (subscript identity "Account") ;;
  for_ catalog_tables_dict (report_table (py_str ddb_table_name) account_id).

End handler.

End pii_report.

(** The names under which [note_column] files the columns are in lower
    case. *)
Definition lower_keys (d : dict) : Prop :=
  Forall (fun kv => lower (fst kv) = fst kv) d.

(** A column of the catalog table and what [annotate] makes of it. *)
Definition annotated (col col' : value) : Prop :=
  field col' "Name" = field col "Name" /\
  (col' = col \/
   exists d name comment,
     col = VDict d /\
     col' = VDict (dict_set "Comment" (VStr comment) d) /\
     field col "Name" ≫= str_of = Some name /\
     lower name = name /\
     (String.length comment <= 255)%nat).

(** The catalog table a record of the PII output table is about, and the
    instant of its timestamp. *)
Definition table_of (rec : value) : option value :=
  field rec "data_catalog_table".

Definition instant_of (strptime : string -> option Z) (rec : value) : option Z :=
  match field rec "timestamp" with
  | Some ts => match str_of ts with
               | Some s => strptime s
               | None => None
               end
  | None => None
  end.

(** What [==] compares of a value that can be a key. *)
Definition key_class (v : value) : option (unit + (Z + string)) :=
  match v with
  | VNone => Some (inl tt)
  | VBool b => Some (inr (inl (Z.b2z b)))
  | VNum n => Some (inr (inl n))
  | VStr s => Some (inr (inr s))
  | VJson j => Some (inr (inr (json_dumps j)))
  | _ => None
  end.

(** The keys of [catalog_tables_dict] can all be keys of a dict. *)
Definition hashable_keys (d : list (value * pii_report.latest)) : Prop :=
  Forall (fun kx => pii_report.hashable (fst kx) = true) d.

(** What holds of [catalog_tables_dict] once the records [seen] have been
    looked at. *)
Definition latest_of (strptime : string -> option Z) (seen : value -> Prop)
    (d : list (value * pii_report.latest)) : Prop :=
  hashable_keys d /\
  (forall rec, seen rec ->
     exists k t e,
       table_of rec = Some k /\ instant_of strptime rec = Some t /\
       pii_report.hashable k = true /\
       pii_report.find_key k d = Some e /\ t <= pii_report.timestamp e) /\
  (forall k e, (k, e) ∈ d ->
     exists rec k',
       seen rec /\ table_of rec = Some k' /\ py_equal k' k = true /\
       field rec "timestamp" = Some (pii_report.time_str e) /\
       instant_of strptime rec = Some (pii_report.timestamp e)).


Definition get_table_request (table_name account_id database_name : value)
  : call :=
  Call "glue" "get_table"
    [("CatalogId", account_id);
     ("DatabaseName", database_name);
     ("Name", table_name)].

(** A response with status 200. *)
Definition status_200 (resp : dict) : Prop :=
  exists md, dict_lookup "ResponseMetadata" resp = Some (VDict md) /\
             dict_lookup "HTTPStatusCode" md = Some (VNum 200).

(** Outside the records of table [T] whose key is in [S], every record of
    every table is what it was. *)
Definition untouched (T : string) (S : string -> Prop) : relation world :=
  fun w w' => forall t k, t <> T \/ ~ S k -> ddb w' t !! k = ddb w t !! k.

(** The keys under which the records [objs] of a scan ask to be
    updated. *)
Definition ids_of (objs : list value) (k : string) : Prop :=
  exists obj key, obj ∈ objs /\ subscript obj "id" = Ok key /\ str_of key = Some k.

(** Every record of the table is stored under its [id]. *)
Definition keyed_by_id (tb : table) : Prop :=
  forall k item, tb !! k = Some item -> dict_lookup "id" item = Some (VStr k).

(** ** More sample inputs *)

(** A deployment with an RDS cluster [cluster-1], its secret and its DDL
    file, and a catalog table with PII findings. *)
Module sample_rds.

Definition environment : gmap string string :=
  list_to_map
    [("SQS_QUEUE_URL", "queue/rds");
     ("CONN_SEC_GROUP_ID", "sg-1");
     ("CATALOG_DB_NAME", "db");
     ("CRAWLER_ROLE_ARN", "arn:role");
     ("DDL_SOURCE_BUCKET", "ddl-source-cluster-1");
     ("DB_NAME", "app");
     ("OUTPUT_TABLE_NAME", "pii");
     ("DATA_SOURCE_NAME", "s3");
     ("DDB_GLUE_TRACKER_TABLE_NAME", "tracker");
     ("TAG_REPORT_TABLE_NAME", "tags")].

Definition secret (name arn : string) : value :=
  VDict [("Name", VStr name); ("ARN", VStr arn)].

Definition secrets : list value :=
  [secret "cluster-1-secret" "arn:secret/1"; secret "other" "arn:secret/2"].

Definition secret_string (cluster : string) : value :=
  VJson (VDict [("username", VStr "admin");
                ("dbClusterIdentifier", VStr cluster)]).

Definition ddl_text : string :=
  "CREATE TABLE a (x int); ;CREATE TABLE b (y int);".

Definition schema_records : list value :=
  [VList [VDict [("stringValue", VStr "public")]];
   VList [];
   VList [VDict [("longValue", VNum 1)]]].

(** The description of a catalog table, without [CreatedBy]. *)
Definition described_table : dict :=
  [("Name", VStr "db_b1");
   ("DatabaseName", VStr "db");
   ("CreateTime", VStr "2024-01-01");
   ("UpdateTime", VStr "2024-01-02");
   ("IsRegisteredWithLakeFormation", VBool false);
   ("CatalogId", VStr "111122223333");
   ("VersionId", VStr "3");
   ("StorageDescriptor",
    VDict [("Columns",
            VList [VDict [("Name", VStr "email"); ("Type", VStr "string")];
                   VDict [("Name", VStr "Id"); ("Type", VStr "int")]])])].

Definition answer (rq : call) : result dict :=
  if is_operation "secretsmanager" "list_secrets" rq
  then Ok (("SecretList", VList secrets) :: sample.ok200)
  else if is_operation "secretsmanager" "get_secret_value" rq
  then Ok (("SecretString",
            match dict_lookup "SecretId" (kwargs rq) with
            | Some n => if eq_str n "cluster-1-secret"
                        then secret_string "cluster-1"
                        else secret_string "cluster-2"
            | None => VNone
            end) :: sample.ok200)
  else if is_operation "s3" "get_object" rq
  then Ok (("Body", rds_ddl.streaming_body ddl_text) :: sample.ok200)
  else if is_operation "rds-data" "execute_statement" rq
  then Ok (("records", VList schema_records) :: sample.ok200)
  else if is_operation "rds" "describe_db_clusters" rq
  then Ok (("DBClusters",
            VList [VDict [("DBClusterArn", VStr "arn:cluster/1")]])
           :: sample.ok200)
  else if is_operation "dynamodb" "list_tags_of_resource" rq
  then Ok (("Tags", VList [sample.tag "APP_ID" "42"; sample.tag "team" "data"])
           :: sample.ok200)
  else if is_operation "glue" "get_table" rq
  then Ok (("Table", VDict described_table) :: sample.ok200)
  else Ok sample.ok200.

Definition cloud : ctx :=
  Ctx environment sample.fresh_ids (fun _ rq => answer rq)
    (fun _ => "2024-01-01 00:00:00").

(** The message about the creation of the cluster [id]. *)
Definition cluster_created (id : string) : value :=
  VDict [("dBClusterIdentifier", VStr id);
         ("dBClusterArn", VStr "arn:cluster/1");
         ("endpoint", VStr "cluster.example.com");
         ("engine", VStr "aurora-postgresql");
         ("port", VNum 5432);
         ("dBSubnetGroup", VStr "subnets")].

(** A record of a DynamoDB table that the catalog lists. *)
Definition table_record (id : string) : dict :=
  [("id", VStr id);
   ("data_source_type", VStr "dynamodb");
   ("glue_job_created", VBool false);
   ("data_catalog_entry", VBool true);
   ("data_source_attrs", sample.table_description);
   ("data_catalog_table_name", VStr "orders")].

Definition finding (table time column : string) : value :=
  VDict [("data_catalog_table", VStr table);
         ("data_catalog_database", VStr "db");
         ("timestamp", VStr time);
         ("columnName", VStr column);
         ("entityTypes", VList [VStr "EMAIL"])].

(** The instant of a zero-padded timestamp, as the number its digits
    write. *)
Definition digits (s : string) : option Z :=
  Some (fold_left
          (fun acc a =>
             let n := nat_of_ascii a in
             if Nat.leb 48 n && Nat.leb n 57
             then acc * 10 + Z.of_nat (n - 48) else acc)
          (list_ascii_of_string s) 0).

End sample_rds.

(** * Properties *)

(** ** Dictionaries *)

Lemma dict_lookup_set_eq k v d : dict_lookup k (dict_set k v d) = Some v.
Proof.
  induction d as [|[k' v'] d IH]; simpl.
  - by rewrite String.eqb_refl.
  - destruct (String.eqb k k') eqn:E; simpl; rewrite ?String.eqb_refl, ?E; done.
Qed.

Lemma dict_lookup_set_ne k k' v d :
  k <> k' -> dict_lookup k' (dict_set k v d) = dict_lookup k' d.
Proof.
  intros Hne. induction d as [|[k0 v0] d IH]; simpl.
  - destruct (String.eqb k' k) eqn:E; [|done].
    apply String.eqb_eq in E. congruence.
  - destruct (String.eqb k k0) eqn:E; simpl.
    + apply String.eqb_eq in E. subst k0.
      destruct (String.eqb k' k) eqn:E'; [|done].
      apply String.eqb_eq in E'. congruence.
    + by rewrite IH.
Qed.

Lemma dict_lookup_set k k' v d :
  dict_lookup k' (dict_set k v d) = if decide (k = k') then Some v else dict_lookup k' d.
Proof.
  case_decide; subst; auto using dict_lookup_set_eq, dict_lookup_set_ne.
Qed.

Lemma apply_sets_lookup_other sets a item :
  a ∉ map fst sets -> dict_lookup a (apply_sets sets item) = dict_lookup a item.
Proof.
  unfold apply_sets. revert item.
  induction sets as [|[k v] sets IH]; intros item Hnin; simpl; [done|].
  rewrite IH by (intros ?; apply Hnin; simpl; by right).
  apply dict_lookup_set_ne. intros ->. apply Hnin. simpl. by left.
Qed.

(** ** Relations that every step of a handler respects *)

Section stable.
Context (c : ctx) (R : relation world) `{!PreOrder R}.

Lemma stable_ret {A} (a : A) : stable c R (ret a).
Proof. intros w. simpl. reflexivity. Qed.

Lemma stable_raise {A} (e : exn) : stable c R (raise e : M A).
Proof. intros w. simpl. reflexivity. Qed.

Lemma stable_lift {A} (r : result A) : stable c R (lift r).
Proof. intros w. simpl. reflexivity. Qed.

Lemma stable_bind {A B} (m : M A) (k : A -> M B) :
  stable c R m ->
  (forall a w, fst (m c w) = Ok a -> stable c R (k a)) ->
  stable c R (bind m k).
Proof.
  intros Hm Hk w. unfold bind. specialize (Hm w).
  destruct (m c w) as [[a|e] w'] eqn:E; simpl in *; [|done].
  etrans; [exact Hm|]. eapply Hk. by rewrite E.
Qed.

Lemma stable_try_except {A} (m : M A) (h : exn -> option (M A)) :
  stable c R m ->
  (forall e k, h e = Some k -> stable c R k) ->
  stable c R (try_except m h).
Proof.
  intros Hm Hh w. unfold try_except. specialize (Hm w).
  destruct (m c w) as [[a|e] w'] eqn:E; simpl in *; [done|].
  destruct (h e) as [k|] eqn:Ek; [|done].
  etrans; [exact Hm|]. by eapply Hh.
Qed.

Lemma stable_for {A} (l : list A) (body : A -> M unit) :
  (forall x, stable c R (body x)) -> stable c R (for_ l body).
Proof.
  intros Hb. induction l as [|x l IH]; simpl.
  - apply stable_ret.
  - apply stable_bind; auto.
Qed.

Lemma stable_for_acc {A S} (l : list A) (s : S) (body : S -> A -> M S) :
  (forall s x, stable c R (body s x)) -> stable c R (for_acc l s body).
Proof.
  intros Hb. revert s. induction l as [|x l IH]; intros s; simpl.
  - apply stable_ret.
  - apply stable_bind; auto.
Qed.

Lemma stable_os_environ_get k : stable c R (os_environ_get k).
Proof. intros w. simpl. reflexivity. Qed.

Lemma stable_os_environ k : stable c R (os_environ k).
Proof.
  apply stable_bind; [apply stable_os_environ_get|].
  intros; apply stable_ret.
Qed.

Lemma stable_strftime_now : stable c R strftime_now.
Proof. intros w. simpl. reflexivity. Qed.

End stable.

Create HintDb stable.

Ltac stable_step :=
  lazymatch goal with
  | |- PreOrder _ => solve [apply _]
  | |- stable _ _ (bind _ _) => apply stable_bind; [ | | intros ? ? ? ]
  | |- stable _ _ (ret _) => apply stable_ret
  | |- stable _ _ (raise _) => apply stable_raise
  | |- stable _ _ (lift _) => apply stable_lift
  | |- stable _ _ (os_environ _) => apply stable_os_environ
  | |- stable _ _ (os_environ_get _) => apply stable_os_environ_get
  | |- stable _ _ strftime_now => apply stable_strftime_now
  | |- stable _ _ (try_except _ _) => apply stable_try_except; [ | | intros ? ? ? ]
  | |- stable _ _ (for_ _ _) => apply stable_for; [ | intros ? ]
  | |- stable _ _ (for_acc _ _ _) => apply stable_for_acc; [ | intros ? ? ]
  | |- stable _ _ (if ?b then _ else _) => destruct b eqn:?
  | |- stable _ _ (match ?x with _ => _ end) => destruct x eqn:?
  | |- stable _ _ _ => solve [eauto with stable]
  end.

(** The clause of an [except] that was selected. *)
Ltac handler_case :=
  match goal with
  | H : match ?e with _ => _ end = Some ?k |- stable _ _ ?k =>
      is_var k; destruct e; simplify_eq
  | H : Some _ = Some ?k |- stable _ _ ?k => is_var k; simplify_eq
  | H : on_put_error ?e = Some ?k |- stable _ _ ?k =>
      is_var k; unfold on_put_error in H
  end.

Ltac stable_auto := repeat first [handler_case | stable_step].

(** ** What a computation returns *)

Section returns.
Context (c : ctx).

Lemma returns_ret {A} (a : A) (Q : A -> Prop) : Q a -> returns c (ret a) Q.
Proof. intros H w a'. simpl. by intros [= <-]. Qed.

Lemma returns_raise {A} (e : exn) (Q : A -> Prop) : returns c (raise e) Q.
Proof. by intros w a. Qed.

Lemma returns_bind {A B} (m : M A) (k : A -> M B) (Q : B -> Prop) :
  (forall a, returns c (k a) Q) -> returns c (bind m k) Q.
Proof.
  intros Hk w b. unfold bind.
  destruct (m c w) as [[a|e] w']; [|done]. apply Hk.
Qed.

Lemma returns_bind_with {A B} (m : M A) (k : A -> M B) (P : A -> Prop)
    (Q : B -> Prop) :
  returns c m P -> (forall a, P a -> returns c (k a) Q) -> returns c (bind m k) Q.
Proof.
  intros Hm Hk w b. unfold bind.
  destruct (m c w) as [[a|e] w'] eqn:E; [|done]. apply Hk.
  apply (Hm w). by rewrite E.
Qed.

End returns.

Ltac returns_step :=
  lazymatch goal with
  | |- returns _ (bind _ _) _ => apply returns_bind; intros ?
  | |- returns _ (raise _) _ => apply returns_raise
  | |- returns _ (ret _) _ => apply returns_ret
  | |- returns _ (if ?b then _ else _) _ => destruct b eqn:?
  | |- returns _ (match ?x with _ => _ end) _ => destruct x eqn:?
  end.

Ltac returns_auto := repeat returns_step.

(** ** Relations on the tables *)

(** A relation that holds between two worlds with the same tables when
    the requests issued in between all satisfy [okc]. *)
Class Quiet (okc : call -> Prop) (R : relation world) : Prop := {
  quiet_preorder : PreOrder R;
  quiet_step : forall w w', ddb w' = ddb w -> extends_by okc w w' -> R w w';
}.
#[global] Existing Instance quiet_preorder.
#[global] Hint Extern 0 (Quiet _ _) => solve [apply _] : stable.
#[global] Hint Extern 0 (any_call _) => exact I : stable.

Lemma extends_by_refl okc w w' : calls w' = calls w -> extends_by okc w w'.
Proof. intros E. exists []. by rewrite app_nil_r. Qed.

Lemma extends_by_log okc rq w : okc rq -> extends_by okc w (log_call rq w).
Proof. intros H. exists [rq]. split; [done|]. by constructor. Qed.

Section quiet.
Context (c : ctx) (okc : call -> Prop) (R : relation world) `{!Quiet okc R}.

Lemma quiet_same w w' : ddb w' = ddb w -> calls w' = calls w -> R w w'.
Proof. intros. apply quiet_step; [done|]. by apply extends_by_refl. Qed.

Lemma quiet_log rq w : okc rq -> R w (log_call rq w).
Proof. intros. apply quiet_step; [done|]. by apply extends_by_log. Qed.

Lemma stable_uuid4 : stable c R uuid4.
Proof. intros w. by apply quiet_same. Qed.

Lemma stable_boto svc op kw : okc (Call svc op kw) -> stable c R (boto svc op kw).
Proof.
  intros Hok w. unfold boto. destruct (aws c _ _); by apply quiet_log.
Qed.

Lemma stable_execute_statement q :
  okc (execute_statement_request q) -> stable c R (execute_statement q).
Proof.
  intros Hok w. unfold execute_statement.
  destruct (aws c _ _); by apply quiet_log.
Qed.

Hint Resolve stable_uuid4 stable_boto stable_execute_statement : stable.

Lemma stable__check_missing_field d k : stable c R (_check_missing_field d k).
Proof. unfold _check_missing_field. stable_auto. Qed.
Hint Resolve stable__check_missing_field : stable.

Lemma stable__validate_field d k v : stable c R (_validate_field d k v).
Proof. unfold _validate_field. stable_auto. Qed.
Hint Resolve stable__validate_field : stable.

Lemma stable_check_response r : stable c R (check_response r).
Proof. unfold check_response. stable_auto. Qed.
Hint Resolve stable_check_response : stable.

Lemma stable__fetch_ddb_results q :
  okc (execute_statement_request q) -> stable c R (_fetch_ddb_results q).
Proof. intros. unfold _fetch_ddb_results. stable_auto. Qed.

Lemma stable_unmarshall_ddb_items v : stable c R (unmarshall_ddb_items v).
Proof. unfold unmarshall_ddb_items. stable_auto. Qed.

Lemma stable__send_message_to_sqs u m :
  okc (Call "sqs" "send_message" [("QueueUrl", u); ("MessageBody", VJson m)]) ->
  stable c R (_send_message_to_sqs u m).
Proof. intros. unfold _send_message_to_sqs. stable_auto. Qed.

Lemma stable__get_bucket_tags b :
  okc (Call "s3" "get_bucket_tagging" [("Bucket", b)]) ->
  stable c R (_get_bucket_tags b).
Proof. intros. unfold _get_bucket_tags. stable_auto. Qed.

Lemma stable_delete_message q rh :
  okc (Call "sqs" "delete_message" [("QueueUrl", q); ("ReceiptHandle", rh)]) ->
  stable c R (delete_message q rh).
Proof. intros. unfold delete_message. stable_auto. Qed.

Lemma stable__get_sqs_message_attributes ev :
  stable c R (_get_sqs_message_attributes ev).
Proof. unfold _get_sqs_message_attributes. stable_auto. Qed.

Lemma stable__get_message_body ev : stable c R (_get_message_body ev).
Proof. unfold _get_message_body. stable_auto. Qed.

End quiet.

#[global] Hint Resolve stable_uuid4 stable_boto stable_execute_statement
  stable__check_missing_field stable__validate_field stable_check_response
  stable__fetch_ddb_results stable_unmarshall_ddb_items
  stable__send_message_to_sqs stable__get_bucket_tags stable_delete_message
  stable__get_sqs_message_attributes stable__get_message_body : stable.

(** The two triggers only publish messages, never write a table. *)
Section triggers.
Context (c : ctx) (R : relation world) `{!Quiet any_call R}.

Lemma stable_s3_trigger ev : stable c R (s3_trigger.lambda_handler ev).
Proof.
  unfold s3_trigger.lambda_handler, s3_trigger._extract_valid_event,
    s3_trigger.after_tags, s3_trigger.visit_tag.
  stable_auto.
Qed.

Lemma stable_dynamodb_trigger ev : stable c R (dynamodb_trigger.lambda_handler ev).
Proof.
  unfold dynamodb_trigger.lambda_handler, dynamodb_trigger._extract_valid_event.
  stable_auto.
Qed.

End triggers.

(** Nor do the inserting lambdas before their [try] statement. *)
Section items.
Context (c : ctx) (R : relation world) `{!Quiet any_call R}.

Lemma stable_glue_tracking_initial_item ev :
  stable c R (glue_tracking_initial.tracker_item ev).
Proof.
  unfold glue_tracking_initial.tracker_item,
    glue_tracking_initial._delete_sqs_message.
  stable_auto.
Qed.

Lemma stable_rds_glue_tracking_initial_item ev :
  stable c R (rds_glue_tracking_initial.tracker_item ev).
Proof.
  unfold rds_glue_tracking_initial.tracker_item,
    rds_glue_tracking_initial._extract_valid_event.
  stable_auto.
Qed.

End items.

Lemma os_environ_result c k w a :
  fst (os_environ k c w) = Ok a ->
  a = match environ c !! k with Some s => VStr s | None => VNone end.
Proof. unfold os_environ, bind, os_environ_get, ret. simpl. congruence. Qed.

(** ** Handlers keep the records of a table *)

Section keeps.
Context (c : ctx) (P : relation dict) `{!PreOrder P} (T : string).

#[global] Instance keeps_quiet : Quiet any_call (keeps P T).
Proof.
  split; [split|].
  - intros w id item H. exists item. split; [done|reflexivity].
  - intros w1 w2 w3 H12 H23 id item H.
    destruct (H12 _ _ H) as (item2 & H2 & HP2).
    destruct (H23 _ _ H2) as (item3 & H3 & HP3).
    exists item3. split; [done|]. by etrans.
  - intros w w' E _ id item H. exists item. rewrite E. split; [done|reflexivity].
Qed.

Lemma keeps_same_ddb w w' : ddb w' = ddb w -> keeps P T w w'.
Proof. intros E id item H. exists item. rewrite E. split; [done|reflexivity]. Qed.

(** A conditional insert never touches a record that exists. *)
Lemma stable_put_item_if_absent t item :
  stable c (keeps P T) (put_item t item true).
Proof.
  intros w. unfold put_item.
  destruct (aws c _ _); [|by apply keeps_same_ddb].
  destruct (dict_lookup "id" item ≫= str_of) as [k|]; [|by apply keeps_same_ddb].
  simpl. case_bool_decide as Hk; simpl; [by apply keeps_same_ddb|].
  intros id it Hid. exists it. split; [|reflexivity]. simpl.
  case_decide as Ht; [|done]. subst t.
  rewrite lookup_insert_ne; [done|]. intros ->. apply Hk. by rewrite Hid.
Qed.

(** An insert into another table does not touch [T] at all. *)
Lemma stable_put_item_elsewhere t item cond :
  t <> T -> stable c (keeps P T) (put_item t item cond).
Proof.
  intros Hne w. unfold put_item.
  destruct (aws c _ _); [|by apply keeps_same_ddb].
  destruct (dict_lookup "id" item ≫= str_of) as [k|]; [|by apply keeps_same_ddb].
  destruct (_ && _)%bool; simpl; [by apply keeps_same_ddb|].
  intros id it Hid. exists it. split; [|reflexivity]. simpl.
  case_decide; [congruence|done].
Qed.

Lemma stable_update_item t key sets :
  (forall item, P item (apply_sets sets item)) ->
  stable c (keeps P T) (update_item t key sets).
Proof.
  intros Hsets w. unfold update_item.
  destruct (str_of key) as [k|]; [|reflexivity].
  destruct (aws c _ _); [|by apply keeps_same_ddb].
  intros id it Hid. simpl.
  case_decide as Ht; [|exists it; split; [done|reflexivity]]. subst t.
  destruct (decide (k = id)) as [->|Hk].
  - rewrite lookup_insert_eq, Hid. simpl. eexists; split; [done|]. apply Hsets.
  - rewrite lookup_insert_ne by done. exists it. split; [done|reflexivity].
Qed.

Hint Resolve stable_put_item_if_absent : stable.

Lemma stable_write_tag_row t tags obj :
  t <> T -> stable c (keeps P T) (write_tag_row t tags obj).
Proof.
  intros Ht. unfold write_tag_row. stable_auto.
  by apply stable_put_item_elsewhere.
Qed.

Lemma stable_glue_tracking_initial ev :
  stable c (keeps P T) (glue_tracking_initial.lambda_handler ev).
Proof.
  unfold glue_tracking_initial.lambda_handler, insert_record,
    glue_tracking_initial.tracker_item,
    glue_tracking_initial._delete_sqs_message.
  stable_auto.
Qed.

Lemma stable_rds_glue_tracking_initial ev :
  stable c (keeps P T) (rds_glue_tracking_initial.lambda_handler ev).
Proof.
  unfold rds_glue_tracking_initial.lambda_handler, insert_record,
    rds_glue_tracking_initial.tracker_item,
    rds_glue_tracking_initial._extract_valid_event.
  stable_auto.
Qed.

Lemma stable_catalog_process t db role acct obj :
  (forall tn dbn item, P item (apply_sets (catalog_creator_s3.update_sets tn dbn) item)) ->
  stable c (keeps P T) (catalog_creator_s3.process t db role acct obj).
Proof.
  intros Hsets.
  unfold catalog_creator_s3.process,
    catalog_creator_s3.create_data_catalog_table,
    catalog_creator_s3.create_crawler, catalog_creator_s3.update_ddb.
  stable_auto. by apply stable_update_item.
Qed.

Lemma stable_catalog_creator_s3 :
  (forall tn dbn item, P item (apply_sets (catalog_creator_s3.update_sets tn dbn) item)) ->
  stable c (keeps P T) catalog_creator_s3.lambda_handler.
Proof.
  intros Hsets. unfold catalog_creator_s3.lambda_handler.
  stable_auto. by apply stable_catalog_process.
Qed.

Lemma stable_job_process t out assets script role obj :
  (forall item, P item (apply_sets s3_glue_job_creator.update_sets item)) ->
  stable c (keeps P T) (s3_glue_job_creator.process t out assets script role obj).
Proof.
  intros Hsets.
  unfold s3_glue_job_creator.process,
    s3_glue_job_creator.create_glue_job, s3_glue_job_creator.update_ddb.
  stable_auto. by apply stable_update_item.
Qed.

Lemma stable_s3_glue_job_creator :
  (forall item, P item (apply_sets s3_glue_job_creator.update_sets item)) ->
  stable c (keeps P T) s3_glue_job_creator.lambda_handler.
Proof.
  intros Hsets. unfold s3_glue_job_creator.lambda_handler.
  stable_auto. by apply stable_job_process.
Qed.

Lemma stable_s3_tag_report :
  environ c !! s3_tag_report.DDB_TAG_TABLE_NAME_ENV_VAR <> Some T ->
  stable c (keeps P T) s3_tag_report.lambda_handler.
Proof.
  intros Henv. unfold s3_tag_report.lambda_handler.
  apply stable_bind; [apply _|stable_auto|]. intros ddb_table_name w1 _.
  destruct (negb (truthy ddb_table_name)); [stable_auto|].
  apply stable_bind; [apply _|stable_auto|]. intros tag_table_name w2 Htag.
  apply os_environ_result in Htag.
  destruct (truthy tag_table_name) eqn:Htruthy; simpl; [|stable_auto].
  assert (py_str tag_table_name <> T) as Hne.
  { subst tag_table_name. destruct (environ c !! _) as [s|] eqn:E; [|done].
    unfold py_str. simpl. congruence. }
  unfold s3_tag_report.process. stable_auto.
  by apply stable_write_tag_row.
Qed.

Lemma stable_ddb_tag_report :
  T <> "tagCaptureTable" -> stable c (keeps P T) ddb_tag_report.lambda_handler.
Proof.
  intros Hne.
  unfold ddb_tag_report.lambda_handler, ddb_tag_report.process,
    ddb_tag_report.get_table_tags.
  stable_auto. by apply stable_write_tag_row.
Qed.

Lemma stable_rds_tag_report :
  T <> "tagCaptureTable" -> stable c (keeps P T) rds_tag_report.lambda_handler.
Proof.
  intros Hne.
  unfold rds_tag_report.lambda_handler, rds_tag_report.process,
    rds_tag_report.get_glue_connection, rds_tag_report.get_db_tags.
  stable_auto. by apply stable_write_tag_row.
Qed.

End keeps.

(** ** Monotonic flags *)

#[local] Instance flag_kept_preorder flag : PreOrder (flag_kept flag).
Proof. split; unfold flag_kept; [intros x; auto | intros x y z; auto]. Qed.

#[local] Instance flags_kept_preorder : PreOrder flags_kept.
Proof.
  split.
  - intros x. split; reflexivity.
  - intros x y z [? ?] [? ?]. split; by etrans.
Qed.

#[local] Instance same_outside_preorder names : PreOrder (same_outside names).
Proof.
  split.
  - by intros x a _.
  - intros x y z Hxy Hyz a Ha. by rewrite Hyz, Hxy.
Qed.

Lemma catalog_sets_keep_flags tn dbn item :
  flags_kept item (apply_sets (catalog_creator_s3.update_sets tn dbn) item).
Proof.
  split; intros H; unfold apply_sets; simpl.
  - rewrite !dict_lookup_set_ne by done. apply dict_lookup_set_eq.
  - by rewrite !dict_lookup_set_ne by done.
Qed.

Lemma job_sets_keep_flags item :
  flags_kept item (apply_sets s3_glue_job_creator.update_sets item).
Proof.
  split; intros H; unfold apply_sets; simpl.
  - by rewrite !dict_lookup_set_ne by done.
  - apply dict_lookup_set_eq.
Qed.

(** Every invocation keeps the records of every table other than the tag
    report's, related by any preorder that the two stage updates respect. *)
Lemma invoke_keeps (P : relation dict) `{!PreOrder P} c T i :
  (forall tn dbn item, P item (apply_sets (catalog_creator_s3.update_sets tn dbn) item)) ->
  (forall item, P item (apply_sets s3_glue_job_creator.update_sets item)) ->
  environ c !! "TAG_REPORT_TABLE_NAME" <> Some T ->
  T <> "tagCaptureTable" ->
  stable c (keeps P T) (invoke i).
Proof.
  intros Hcat Hjob Henv Hne. destruct i; simpl.
  - by apply stable_glue_tracking_initial.
  - by apply stable_rds_glue_tracking_initial.
  - apply stable_s3_trigger; apply _.
  - apply stable_dynamodb_trigger; apply _.
  - by apply stable_catalog_creator_s3.
  - by apply stable_s3_glue_job_creator.
  - by apply stable_s3_tag_report.
  - by apply stable_ddb_tag_report.
  - by apply stable_rds_tag_report.
Qed.

(** C3.  Whatever lambda runs (the two inserts, the two triggers, the
    catalog stage, the job stage, the three tag reports), a record of the
    tracker table is still there afterwards, and each of
    [data_catalog_entry] and [glue_job_created] that was true is still
    true.  The tracker table is any table that is not the one the tag
    reports write their rows to. *)
Theorem flags_are_monotonic (c : ctx) (i : invocation) (w : world)
    (T id : string) (item : dict) :
  environ c !! "TAG_REPORT_TABLE_NAME" <> Some T ->
  T <> "tagCaptureTable" ->
  ddb w T !! id = Some item ->
  exists item',
    ddb (snd (invoke i c w)) T !! id = Some item' /\
    (dict_lookup "data_catalog_entry" item = Some (VBool true) ->
     dict_lookup "data_catalog_entry" item' = Some (VBool true)) /\
    (dict_lookup "glue_job_created" item = Some (VBool true) ->
     dict_lookup "glue_job_created" item' = Some (VBool true)).
Proof.
  intros Henv Hne Hid.
  destruct (invoke_keeps flags_kept c T i catalog_sets_keep_flags
              job_sets_keep_flags Henv Hne w id item Hid) as (item' & H' & Hc & Hj).
  exists item'. auto.
Qed.

(** ** What the stage updates write *)

Lemma update_item_existing c w t key k sets item :
  str_of key = Some k ->
  ddb w t !! k = Some item ->
  forall r w', update_item t key sets c w = (Ok r, w') ->
    r = VDict ok_response /\
    ddb w' t !! k = Some (apply_sets sets item) /\
    (forall t' k', t' <> t \/ k' <> k -> ddb w' t' !! k' = ddb w t' !! k').
Proof.
  intros Hkey Hitem r w'. unfold update_item. rewrite Hkey.
  destruct (aws c _ _); [|done]. intros [= <- <-]. simpl. split; [done|split].
  - rewrite decide_True by done. by rewrite lookup_insert_eq, Hitem.
  - intros t' k' Hor. case_decide; [|done]. subst t'.
    destruct Hor as [?|?]; [done|]. by rewrite lookup_insert_ne.
Qed.

Lemma check_response_ok c w : check_response (VDict ok_response) c w = (Ok tt, w).
Proof. reflexivity. Qed.

(** Both stage handlers leave every attribute they do not own as it was,
    on every record of every table. *)
Lemma catalog_stage_frame c T :
  stable c (keeps (same_outside
                     ["data_catalog_entry"; "data_catalog_table_name";
                      "data_catalog_db_name"]) T)
    catalog_creator_s3.lambda_handler.
Proof.
  apply stable_catalog_creator_s3; [apply _|].
  intros tn dbn item a Ha. apply apply_sets_lookup_other. exact Ha.
Qed.

Lemma job_stage_frame c T :
  stable c (keeps (same_outside ["glue_job_created"]) T)
    s3_glue_job_creator.lambda_handler.
Proof.
  apply stable_s3_glue_job_creator; [apply _|].
  intros item a Ha. apply apply_sets_lookup_other. exact Ha.
Qed.

(** C8.  On a record that exists, a successful [update_ddb] of the catalog
    stage sets [data_catalog_entry] to true and the two catalog names, a
    successful [update_ddb] of the job stage sets [glue_job_created] to
    true; every other attribute of the record ([id], [data_source_type],
    [data_source_attrs], the flag of the other stage) and every other
    record of every table is what it was. *)
Theorem stage_update_writes_its_fields_only (c : ctx) (w : world) (T : string)
    (obj key : value) (k : string) (item : dict) :
  subscript obj "id" = Ok key ->
  str_of key = Some k ->
  ddb w T !! k = Some item ->
  (forall tn dbn w',
     catalog_creator_s3.update_ddb T obj tn dbn c w = (Ok tt, w') ->
     exists item',
       ddb w' T !! k = Some item' /\
       dict_lookup "data_catalog_entry" item' = Some (VBool true) /\
       dict_lookup "data_catalog_table_name" item' = Some tn /\
       dict_lookup "data_catalog_db_name" item' = Some dbn /\
       same_outside ["data_catalog_entry"; "data_catalog_table_name";
                     "data_catalog_db_name"] item item' /\
       (forall t' k', t' <> T \/ k' <> k -> ddb w' t' !! k' = ddb w t' !! k')) /\
  (forall w',
     s3_glue_job_creator.update_ddb T obj c w = (Ok tt, w') ->
     exists item',
       ddb w' T !! k = Some item' /\
       dict_lookup "glue_job_created" item' = Some (VBool true) /\
       same_outside ["glue_job_created"] item item' /\
       (forall t' k', t' <> T \/ k' <> k -> ddb w' t' !! k' = ddb w t' !! k')).
Proof.
  intros Hid Hkey Hitem. split.
  - intros tn dbn w'. unfold catalog_creator_s3.update_ddb, bind, lift.
    rewrite Hid.
    destruct (update_item _ _ _ c w) as [[r|e] w1] eqn:E; [|done].
    destruct (update_item_existing _ _ _ _ _ _ _ Hkey Hitem _ _ E) as (-> & H1 & H2).
    rewrite check_response_ok. intros [= <-].
    exists (apply_sets (catalog_creator_s3.update_sets tn dbn) item).
    split; [done|]. unfold apply_sets. simpl.
    repeat split.
    + rewrite !dict_lookup_set_ne by done. apply dict_lookup_set_eq.
    + rewrite !dict_lookup_set_ne by done. apply dict_lookup_set_eq.
    + apply dict_lookup_set_eq.
    + intros a Ha. apply (apply_sets_lookup_other (catalog_creator_s3.update_sets tn dbn)).
      exact Ha.
    + exact H2.
  - intros w'. unfold s3_glue_job_creator.update_ddb, bind, lift.
    rewrite Hid.
    destruct (update_item _ _ _ c w) as [[r|e] w1] eqn:E; [|done].
    destruct (update_item_existing _ _ _ _ _ _ _ Hkey Hitem _ _ E) as (-> & H1 & H2).
    rewrite check_response_ok. intros [= <-].
    exists (apply_sets s3_glue_job_creator.update_sets item).
    split; [done|]. unfold apply_sets. simpl.
    repeat split.
    + apply dict_lookup_set_eq.
    + intros a Ha. apply (apply_sets_lookup_other s3_glue_job_creator.update_sets).
      exact Ha.
    + exact H2.
Qed.

(** ** What the job stage scans *)

Lemma issued_refl w : issued w w = [].
Proof. unfold issued. by rewrite drop_all. Qed.

Lemma issued_log rq w : issued w (log_call rq w) = [rq].
Proof. unfold issued. simpl. by rewrite drop_app_length. Qed.

Lemma job_scan_selects_catalogued t item :
  satisfies (where_ (s3_glue_job_creator.DDB_PARTIQL t)) item = true ->
  dict_lookup "data_catalog_entry" item = Some (VBool true).
Proof.
  simpl. intros H.
  apply andb_prop in H as [_ H]. apply andb_prop in H as [H _].
  destruct (dict_lookup "data_catalog_entry" item) as [v|]; [|done].
  by destruct v as [| [|] | | | | |].
Qed.

Lemma elem_of_select q tb item :
  item ∈ select q tb <-> satisfies (where_ q) item = true /\ exists k, tb !! k = Some item.
Proof.
  unfold select. rewrite list_elem_of_filter, list_elem_of_fmap.
  split.
  - intros [Hs ([k it] & -> & Hin)]. split; [done|]. exists k.
    by apply elem_of_map_to_list in Hin.
  - intros [Hs [k Hk]]. split; [done|]. exists (k, item). split; [done|].
    by apply elem_of_map_to_list.
Qed.

(** C4.  The scan of the job stage returns only records whose
    [data_catalog_entry] is the boolean true: a record where it is false,
    or missing, is not among the records the job stage works on; and in a
    world where no record of any table has it true, the job stage issues no
    request to Glue and changes no table. *)
Theorem job_stage_scans_catalogued_records_only (t : string) (tb : table) :
  Forall (fun item => dict_lookup "data_catalog_entry" item = Some (VBool true))
    (select (s3_glue_job_creator.DDB_PARTIQL t) tb) /\
  (forall item,
     dict_lookup "data_catalog_entry" item <> Some (VBool true) ->
     item ∉ select (s3_glue_job_creator.DDB_PARTIQL t) tb) /\
  (forall c w,
     (forall t' k item, ddb w t' !! k = Some item ->
        dict_lookup "data_catalog_entry" item <> Some (VBool true)) ->
     let w' := snd (s3_glue_job_creator.lambda_handler c w) in
     Forall (fun rq => service rq <> "glue") (issued w w') /\ ddb w' = ddb w).
Proof.
  split; [|split].
  - apply Forall_forall. intros item Hin. apply elem_of_select in Hin as [Hs _].
    by eapply job_scan_selects_catalogued.
  - intros item Hne Hin. apply elem_of_select in Hin as [Hs _].
    apply Hne. by eapply job_scan_selects_catalogued.
  - intros c w Hnone.
    assert (forall T, select (s3_glue_job_creator.DDB_PARTIQL T) (ddb w T) = []) as Hsel.
    { intros T. destruct (select _ _) as [|item l] eqn:E; [done|]. exfalso.
      assert (item ∈ select (s3_glue_job_creator.DDB_PARTIQL T) (ddb w T)) as Hin
        by (rewrite E; left).
      apply elem_of_select in Hin as [Hs [k Hk]].
      eapply Hnone; [exact Hk|]. by eapply job_scan_selects_catalogued. }
    unfold s3_glue_job_creator.lambda_handler, bind, os_environ, os_environ_get,
      bind, ret, raise. simpl.
    destruct (environ c !! _) as [T|]; simpl;
      [|split; [rewrite issued_refl; constructor|done]].
    destruct (negb (negb (String.eqb T ""))); simpl;
      [split; [rewrite issued_refl; constructor|done]|].
    unfold _fetch_ddb_results, bind, execute_statement. simpl.
    unfold py_str. simpl. rewrite Hsel.
    destruct (aws c _ _); simpl;
      (split; [rewrite issued_log; by repeat constructor|done]).
Qed.

(** ** What the ingestion handlers insert *)

Lemma issued_extends okc w w' :
  extends_by okc w w' -> Forall okc (issued w w').
Proof.
  intros (tr & E & H). unfold issued. rewrite E. by rewrite drop_app_length.
Qed.

#[global] Instance only_calls_quiet okc : Quiet okc (only_calls okc).
Proof.
  split; [split|].
  - intros w. split; [done|]. by apply extends_by_refl.
  - intros w1 w2 w3 [E12 (tr1 & C12 & F12)] [E23 (tr2 & C23 & F23)]. split.
    + congruence.
    + exists (tr1 ++ tr2)%list. split.
      * by rewrite C23, C12, app_assoc.
      * by apply Forall_app.
  - intros w w' E H. by split.
Qed.

Section only_adds.
Context (c : ctx) (Good : dict -> Prop).

#[global] Instance only_adds_quiet : Quiet any_call (only_adds Good).
Proof.
  split; [split|].
  - intros w t k. by destruct (ddb w t !! k).
  - intros w1 w2 w3 H12 H23 t k. specialize (H12 t k). specialize (H23 t k).
    destruct (ddb w1 t !! k) as [i1|].
    + by rewrite H12 in H23.
    + destruct (ddb w2 t !! k) as [i2|]; [|done].
      intros item Hitem. rewrite H23 in Hitem. injection Hitem as <-. by apply H12.
  - intros w w' E _ t k. rewrite E. by destruct (ddb w t !! k).
Qed.

Lemma only_adds_same w w' : ddb w' = ddb w -> only_adds Good w w'.
Proof. intros E t k. rewrite E. by destruct (ddb w t !! k). Qed.

Lemma stable_put_good t item :
  Good item -> stable c (only_adds Good) (put_item t item true).
Proof.
  intros Hgood w. unfold put_item.
  destruct (aws c _ _); [|by apply only_adds_same].
  destruct (dict_lookup "id" item ≫= str_of) as [k|]; [|by apply only_adds_same].
  simpl. case_bool_decide as Hk; simpl; [by apply only_adds_same|].
  intros t' k'. simpl. case_decide as Ht.
  - subst t'. destruct (decide (k = k')) as [<-|Hne].
    + rewrite lookup_insert_eq.
      destruct (ddb w t !! k) eqn:E; [exfalso; by apply Hk|].
      by intros ? [= <-].
    + rewrite lookup_insert_ne by done. by destruct (ddb w t !! k').
  - by destruct (ddb w t' !! k').
Qed.

End only_adds.

Lemma glue_tracking_initial_item c ev :
  returns c (glue_tracking_initial.tracker_item ev)
    (fun p => exists u ty attrs,
       snd p = glue_tracking_initial.python_obj u ty attrs).
Proof.
  unfold glue_tracking_initial.tracker_item. returns_auto. simpl. by eexists _, _, _.
Qed.

Lemma rds_glue_tracking_initial_item c ev :
  returns c (rds_glue_tracking_initial.tracker_item ev)
    (fun o => forall p, o = Some p -> exists u name db attrs,
       snd p = rds_glue_tracking_initial.python_obj u name db attrs).
Proof.
  unfold rds_glue_tracking_initial.tracker_item. returns_auto.
  - by intros p.
  - intros p [= <-]. simpl. by eexists _, _, _, _.
Qed.

Lemma stable_glue_tracking_initial_adds c ev :
  stable c (only_adds (has_flags false false))
    (glue_tracking_initial.lambda_handler ev).
Proof.
  unfold glue_tracking_initial.lambda_handler, insert_record.
  apply stable_bind; [apply _| |].
  - unfold glue_tracking_initial.tracker_item,
      glue_tracking_initial._delete_sqs_message.
    stable_auto.
  - intros p w Hp. apply glue_tracking_initial_item in Hp as (u & ty & attrs & ->).
    stable_auto. by apply stable_put_good.
Qed.

Lemma stable_rds_glue_tracking_initial_adds c ev :
  stable c
    (only_adds (fun item =>
       has_flags true false item /\
       dict_lookup "data_source_type" item = Some (VStr "rds")))
    (rds_glue_tracking_initial.lambda_handler ev).
Proof.
  unfold rds_glue_tracking_initial.lambda_handler, insert_record.
  apply stable_bind; [apply _| |].
  - unfold rds_glue_tracking_initial.tracker_item,
      rds_glue_tracking_initial._extract_valid_event.
    stable_auto.
  - intros o w Ho. apply rds_glue_tracking_initial_item in Ho.
    destruct o as [p|]; [|stable_auto].
    destruct (Ho p eq_refl) as (u & name & db & attrs & ->).
    stable_auto. by apply stable_put_good.
Qed.

Lemma stable_dynamodb_trigger_publishes c ev :
  stable c (only_calls (publishes "dynamodb")) (dynamodb_trigger.lambda_handler ev).
Proof.
  unfold dynamodb_trigger.lambda_handler, dynamodb_trigger._extract_valid_event.
  stable_auto.
  apply (stable__send_message_to_sqs _ (publishes "dynamodb")); [apply _|].
  by eexists _, _.
Qed.


(** ** Running a handler step by step *)

Lemma bind_inv_Ok {A B} (m : M A) (k : A -> M B) c w b w' :
  bind m k c w = (Ok b, w') ->
  exists a w1, m c w = (Ok a, w1) /\ k a c w1 = (Ok b, w').
Proof.
  unfold bind. destruct (m c w) as [[a|e] w1]; [|done]. intros H. by exists a, w1.
Qed.

Lemma bind_inv_Raise {A B} (m : M A) (k : A -> M B) c w e w' :
  bind m k c w = (Raise e, w') ->
  m c w = (Raise e, w') \/
  exists a w1, m c w = (Ok a, w1) /\ k a c w1 = (Raise e, w').
Proof.
  unfold bind. destruct (m c w) as [[a|e0] w1].
  - intros H. right. by exists a, w1.
  - intros [= -> ->]. by left.
Qed.

Lemma stable_snd c R {A} (m : M A) w r w' :
  stable c R m -> m c w = (r, w') -> R w w'.
Proof. intros H E. specialize (H w). by rewrite E in H. Qed.

#[local] Instance same_draws_preorder : PreOrder same_draws.
Proof. split; unfold same_draws; [by intros w|intros w1 w2 w3; congruence]. Qed.

Lemma pure__get_sqs_message_attributes c ev :
  stable c eq (_get_sqs_message_attributes ev).
Proof. unfold _get_sqs_message_attributes. stable_auto. Qed.

Lemma pure__get_message_body c ev : stable c eq (_get_message_body ev).
Proof. unfold _get_message_body. stable_auto. Qed.

Lemma pure_os_environ c k : stable c eq (os_environ k).
Proof. stable_auto. Qed.

Lemma same_draws_boto c svc op kw : stable c same_draws (boto svc op kw).
Proof. intros w. unfold boto. by destruct (aws c _ _). Qed.

Lemma same_draws__delete_sqs_message c m :
  stable c same_draws (glue_tracking_initial._delete_sqs_message m).
Proof.
  unfold glue_tracking_initial._delete_sqs_message, delete_message. stable_auto.
  apply same_draws_boto.
Qed.

Ltac inv_run :=
  repeat match goal with
    | H : bind _ _ _ _ = (Ok _, _) |- _ =>
        apply bind_inv_Ok in H as (? & ? & ? & H)
    | H : ret _ _ _ = (_, _) |- _ => unfold ret in H; simplify_eq
    | H : raise _ _ _ = (Ok _, _) |- _ => discriminate H
    | H : lift _ _ _ = (_, _) |- _ => unfold lift in H; simplify_eq
    | H : (if ?b then _ else _) _ _ = (Ok _, _) |- _ => destruct b eqn:?
    end.

Lemma uuid4_run c w u w' :
  uuid4 c w = (Ok u, w') ->
  u = uuid_at c (drawn w) /\ ddb w' = ddb w /\ calls w' = calls w /\
  drawn w' = S (drawn w).
Proof. unfold uuid4. by intros [= <- <-]. Qed.

Lemma os_environ_run c k w a w' :
  os_environ k c w = (Ok a, w') ->
  w' = w /\ a = match environ c !! k with Some s => VStr s | None => VNone end.
Proof. unfold os_environ, bind, os_environ_get, ret. simpl. by intros [= <- <-]. Qed.

Lemma truthy_env c k a :
  a = match environ c !! k with Some s => VStr s | None => VNone end ->
  truthy a = true -> environ c !! k = Some (py_str a).
Proof. intros ->. by destruct (environ c !! k). Qed.

(** The record that glue-tracking-initial is about to insert: its key is
    the identifier drawn in this invocation, the only one, and no table has
    changed yet. *)
Lemma glue_tracking_initial_item_run c ev w p w0 :
  glue_tracking_initial.tracker_item ev c w = (Ok p, w0) ->
  ddb w0 = ddb w /\ drawn w0 = S (drawn w) /\
  environ c !! "GLUE_TRACKER_TABLE_NAME" = Some (fst p) /\
  exists ty attrs,
    snd p = glue_tracking_initial.python_obj (uuid_at c (drawn w)) ty attrs.
Proof.
  intros H.
  pose proof (stable_snd c (only_calls any_call) _ _ _ _
                (stable_glue_tracking_initial_item c _ ev) H) as [Hddb _].
  unfold glue_tracking_initial.tracker_item in H.
  apply bind_inv_Ok in H as (msg_attr & w1 & H1 & H).
  apply (stable_snd c eq) in H1; [|apply pure__get_sqs_message_attributes].
  subst w1.
  apply bind_inv_Ok in H as ([] & w2 & H2 & H).
  assert (drawn w2 = drawn w) as Hd2.
  { destruct (truthy msg_attr).
    - by apply (stable_snd c same_draws) in H2;
        [|apply same_draws__delete_sqs_message].
    - unfold ret in H2. by simplify_eq. }
  apply bind_inv_Ok in H as (body & w3 & H3 & H).
  apply (stable_snd c eq) in H3; [|apply pure__get_message_body]. subst w3.
  apply bind_inv_Ok in H as (tbl & w4 & H4 & H).
  apply os_environ_run in H4 as [-> Htbl].
  destruct (truthy tbl) eqn:Htr; simpl in H; [|done].
  apply bind_inv_Ok in H as (u & w5 & H5 & H).
  apply uuid4_run in H5 as (-> & _ & _ & Hd5).
  inv_run; simpl;
    (split; [done|]; split; [congruence|]; split; [by eapply truthy_env|]);
    try rewrite Hd2; by eexists _, _.
Qed.

(** ** The conditional insert *)

Lemma insert_record_after c w T item :
  insert_record T item c w =
    match put_item T item true c w with
    | (Ok _, w') => (Ok tt, w')
    | (Raise e, w') => (after_except e, w')
    end.
Proof.
  unfold insert_record, try_except, bind, after_except, on_put_error.
  destruct (put_item T item true c w) as [[r|e] w']; [done|].
  destruct e; try done. by destruct (String.eqb _ _).
Qed.

Lemma put_item_raise c w t item cond e w' :
  put_item t item cond c w = (Raise e, w') -> ddb w' = ddb w.
Proof.
  unfold put_item. destruct (aws c _ _); [|by intros [= <- <-]].
  destruct (dict_lookup "id" item ≫= str_of); [|by intros [= <- <-]].
  destruct (_ && _)%bool; [by intros [= <- <-]|done].
Qed.

(** C6.  When the conditional [put_item] raises, no table has changed.
    If what it raises is the failed condition, the [try] statement ends
    normally and so does the invocation, in both inserting lambdas; if it
    is anything else, the statement raises ([Exception] for another
    [ClientError], the exception itself otherwise) and so does the
    invocation.  The failed condition is what an insert under an existing
    id raises. *)
Theorem insert_failures (c : ctx) (T : string) (item : dict) (w0 w' : world)
    (e : exn) :
  put_item T item true c w0 = (Raise e, w') ->
  ddb w' = ddb w0 /\
  insert_record T item c w0 = (after_except e, w') /\
  (e = ClientError "ConditionalCheckFailedException" -> after_except e = Ok tt) /\
  (e <> ClientError "ConditionalCheckFailedException" ->
   exists e', after_except e = Raise e') /\
  (forall event w,
     glue_tracking_initial.tracker_item event c w = (Ok (T, item), w0) ->
     glue_tracking_initial.lambda_handler event c w = (after_except e, w')) /\
  (forall event w,
     rds_glue_tracking_initial.tracker_item event c w = (Ok (Some (T, item)), w0) ->
     rds_glue_tracking_initial.lambda_handler event c w = (after_except e, w')) /\
  (forall k r,
     aws c (calls w0) (put_item_request T item true) = Ok r ->
     dict_lookup "id" item ≫= str_of = Some k ->
     is_Some (ddb w0 T !! k) ->
     e = ClientError "ConditionalCheckFailedException").
Proof.
  intros Hput.
  assert (insert_record T item c w0 = (after_except e, w')) as Hins
    by (by rewrite insert_record_after, Hput).
  split; [by eapply put_item_raise|]. split; [done|].
  split; [by intros ->|]. split.
  - intros Hne. destruct e; simpl; try by eexists.
    destruct (String.eqb code _) eqn:E; [|by eexists].
    apply String.eqb_eq in E. by subst code.
  - split; [|split].
    + intros event w Hitem. unfold glue_tracking_initial.lambda_handler, bind.
      by rewrite Hitem.
    + intros event w Hitem. unfold rds_glue_tracking_initial.lambda_handler, bind.
      by rewrite Hitem.
    + intros k r Haws Hk Hsome. revert Hput. unfold put_item.
      rewrite Haws, Hk. simpl. rewrite bool_decide_eq_true_2 by done.
      by intros [= <- _].
Qed.

(** ** Delivering the same message twice *)

(** An invocation of glue-tracking-initial that ends normally has drawn one
    identifier; either a record with that identifier existed and no table
    has changed, or a record was added under it. *)
Lemma glue_tracking_initial_ok c ev w T :
  environ c !! "GLUE_TRACKER_TABLE_NAME" = Some T ->
  no_false_conflict c ->
  fst (glue_tracking_initial.lambda_handler ev c w) = Ok tt ->
  let w' := snd (glue_tracking_initial.lambda_handler ev c w) in
  let u := uuid_at c (drawn w) in
  drawn w' = S (drawn w) /\
  ((is_Some (ddb w T !! u) /\ ddb w' = ddb w) \/
   (ddb w T !! u = None /\ exists item, ddb w' T = <[u := item]> (ddb w T))).
Proof.
  intros Henv Hhonest. unfold glue_tracking_initial.lambda_handler, bind.
  destruct (glue_tracking_initial.tracker_item ev c w) as [[p|e] w0] eqn:Hp; [|done].
  apply glue_tracking_initial_item_run in Hp as (Hddb & Hdr & HT & ty & attrs & Hobj).
  rewrite Henv in HT. injection HT as HT. destruct p as [T' item]. simpl in *.
  subst T' item. rewrite insert_record_after. unfold put_item.
  destruct (aws c (calls w0) _) as [r|e] eqn:Haws.
  - simpl. rewrite Hddb.
    case_bool_decide as Hex; simpl; intros _.
    + split; [done|]. left. by split.
    + split; [done|]. right. split.
      * by apply eq_None_not_Some.
      * eexists. by rewrite decide_True.
  - simpl. destruct e; simpl; try done.
    destruct (String.eqb code _) eqn:E; [|done].
    apply String.eqb_eq in E. subst code. by destruct (Hhonest _ _ Haws).
Qed.

(** C1, as the code has it.  Take an event delivered twice to
    glue-tracking-initial, both invocations ending normally, the first one
    drawing an identifier not in the tracker table.  If the second
    delivery draws that identifier again, its insert fails its condition
    and changes nothing: the table has gained one record.  If it draws
    another identifier that is not in the table, it inserts a second
    record: the table has gained two. *)
Theorem redelivery (c : ctx) (event : value) (w : world) (T : string) :
  let r1 := glue_tracking_initial.lambda_handler event c w in
  let r2 := glue_tracking_initial.lambda_handler event c (snd r1) in
  let u1 := uuid_at c (drawn w) in
  let u2 := uuid_at c (drawn (snd r1)) in
  environ c !! "GLUE_TRACKER_TABLE_NAME" = Some T ->
  no_false_conflict c ->
  ddb w T !! u1 = None ->
  fst r1 = Ok tt ->
  fst r2 = Ok tt ->
  (u2 = u1 ->
   ddb (snd r2) = ddb (snd r1) /\ size (ddb (snd r2) T) = S (size (ddb w T))) /\
  (u2 <> u1 -> ddb w T !! u2 = None ->
   size (ddb (snd r2) T) = S (S (size (ddb w T)))).
Proof.
  intros r1 r2 u1 u2 Henv Hhonest Hfresh H1 H2.
  destruct (glue_tracking_initial_ok c event w T Henv Hhonest H1)
    as (Hd1 & [[Hsome _]|[_ [item1 Hw1]]]).
  { fold u1 in Hsome. rewrite Hfresh in Hsome. by destruct Hsome. }
  destruct (glue_tracking_initial_ok c event (snd r1) T Henv Hhonest H2)
    as (Hd2 & Hcase).
  fold r1 in Hw1. fold u1 in Hw1. fold r2 u2 in Hcase.
  split.
  - intros Heq. destruct Hcase as [[_ Hsame]|[Hnone _]].
    + split; [done|]. rewrite Hsame, Hw1. by rewrite map_size_insert_None.
    + rewrite Hw1, Heq, lookup_insert_eq in Hnone. done.
  - intros Hne Hfresh2. destruct Hcase as [[Hsome _]|[Hnone [item2 Hw2]]].
    + rewrite Hw1, lookup_insert_ne, Hfresh2 in Hsome by done. by destruct Hsome.
    + rewrite Hw2, map_size_insert_None by done.
      rewrite Hw1. by rewrite map_size_insert_None.
Qed.

(** ** The message is deleted first *)

#[global] Instance extends_by_quiet okc : Quiet okc (extends_by okc).
Proof.
  split; [split|].
  - intros w. by apply extends_by_refl.
  - intros w1 w2 w3 (tr1 & C12 & F12) (tr2 & C23 & F23).
    exists (tr1 ++ tr2)%list. split.
    + by rewrite C23, C12, app_assoc.
    + by apply Forall_app.
  - by intros w w' _ H.
Qed.

Lemma stable_put_item_calls c okc t item cond :
  okc (put_item_request t item cond) ->
  stable c (extends_by okc) (put_item t item cond).
Proof.
  intros Hok w. unfold put_item.
  destruct (aws c _ _); [|by apply extends_by_log].
  destruct (dict_lookup "id" item ≫= str_of); [|by apply extends_by_log].
  destruct (_ && _)%bool; simpl; by apply extends_by_log.
Qed.

Lemma issued_cons okc w rq w' :
  extends_by okc (log_call rq w) w' -> exists tr, issued w w' = rq :: tr.
Proof.
  intros (tr & E & _). exists tr. unfold issued. rewrite E. simpl.
  by rewrite <- app_assoc, drop_app_length.
Qed.

Lemma queue_delivery_attributes c ev rh w :
  queue_delivery ev rh ->
  exists mid, _get_sqs_message_attributes ev c w =
                (Ok (VDict [("message_id", mid); ("receipt_handle", rh)]), w).
Proof.
  intros (first & rest & mid & HR & Hrh & Htrh & Hmid & Htmid). exists mid.
  unfold _get_sqs_message_attributes, bind, lift, try_except. rewrite HR. simpl.
  by rewrite Hrh, Hmid, Htrh, Htmid.
Qed.

Lemma attributes_queue_delivery c ev w a w' :
  _get_sqs_message_attributes ev c w = (Ok a, w') ->
  truthy a = true -> exists rh, queue_delivery ev rh.
Proof.
  unfold _get_sqs_message_attributes, bind, lift, try_except, ret, raise.
  destruct (get ev "Records") as [records|] eqn:HR; [|done].
  destruct (truthy records) eqn:Htr; simpl; [|by intros [= <- <-]].
  destruct (first_item records) as [first|e] eqn:Hf; [|by destruct e].
  destruct (get first "receiptHandle") as [rh|] eqn:Hrh; [|done].
  destruct (get first "messageId") as [mid|] eqn:Hmid; [|done].
  destruct (truthy rh) eqn:Htrh; simpl; [|done].
  destruct (truthy mid) eqn:Htmid; simpl; [|done].
  intros _ _. exists rh.
  destruct records as [| | | | |l|]; simpl in Hf; try done.
  - destruct s; simplify_eq; done.
  - destruct (json_dumps records); simplify_eq; done.
  - destruct l as [|x l]; simplify_eq. by exists first, l, mid.
Qed.

(** The deletion step: without a queue URL, or with a receipt handle that
    is not a [str], it raises before any request; otherwise the request it
    issues is the deletion. *)
Lemma delete_step c mid rh w :
  let msg_attr := VDict [("message_id", mid); ("receipt_handle", rh)] in
  let r := glue_tracking_initial._delete_sqs_message msg_attr c w in
  match environ c !! "SQS_QUEUE_URL" with
  | Some url =>
      if String.eqb url "" then r = (Raise MissingEnvironmentVariable, w)
      else
        match str_of rh with
        | Some _ => exists x, r = (x, log_call (delete_request url rh) w)
        | None => r = (Raise ParamValidationError, w)
        end
  | None => r = (Raise MissingEnvironmentVariable, w)
  end.
Proof.
  unfold glue_tracking_initial._delete_sqs_message, delete_message, bind, lift,
    os_environ, os_environ_get, bind, ret, raise, boto. simpl.
  destruct (environ c !! _) as [url|]; [|done]. simpl.
  destruct (String.eqb url ""); simpl; [done|].
  destruct (str_of rh); [|done].
  destruct (aws c _ _) as [r|e]; simpl; [|by eexists].
  repeat case_match; by eexists.
Qed.

Lemma bind_assoc_run {A B C} (m : M A) (f : A -> M B) (g : B -> M C) c w :
  bind (bind m f) g c w = bind m (fun x => bind (f x) g) c w.
Proof. unfold bind. by destruct (m c w) as [[a|e] w1]. Qed.

Lemma bind_Ok_run {A B} (m : M A) (k : A -> M B) c w a w1 :
  m c w = (Ok a, w1) -> bind m k c w = k a c w1.
Proof. unfold bind. by intros ->. Qed.

Lemma bind_Raise_run {A B} (m : M A) (k : A -> M B) c w e w1 :
  m c w = (Raise e, w1) -> bind m k c w = (Raise e, w1).
Proof. unfold bind. by intros ->. Qed.

Lemma message_body_pure c ev w w1 :
  _get_message_body ev c w1 = (fst (_get_message_body ev c w), w1).
Proof.
  unfold _get_message_body, bind, lift, try_except, ret, raise.
  repeat case_match; simplify_eq; simpl; congruence.
Qed.

(** glue-tracking-initial after its deletion step. *)
Lemma glue_tracking_initial_rest c okc ev :
  okc (Call "dynamodb" "put_item" []) ->
  (forall t item, okc (put_item_request t item true)) ->
  stable c (extends_by okc)
    (bind
       (bind (_get_message_body ev)
          (fun body =>
             ddb_table_name <- os_environ glue_tracking_initial.DDB_TABLE_NAME_ENV_VAR ;;
             if negb (truthy ddb_table_name) then raise MissingEnvironmentVariable else
             unique_id <- uuid4 ;;
             data_source_type <- lift (subscript body "data_source_type") ;;
             data_source_attrs <- lift (subscript body "data_source_attrs") ;;
             ret (py_str ddb_table_name,
                  glue_tracking_initial.python_obj unique_id data_source_type
                    data_source_attrs)))
       (fun p => insert_record (fst p) (snd p))).
Proof.
  intros _ Hput. unfold insert_record. stable_auto.
  by apply stable_put_item_calls.
Qed.

Lemma glue_tracking_initial_after_attributes c ev w msg_attr :
  _get_sqs_message_attributes ev c w = (Ok msg_attr, w) ->
  glue_tracking_initial.lambda_handler ev c w =
  bind (if truthy msg_attr
        then glue_tracking_initial._delete_sqs_message msg_attr else ret tt)
    (fun _ =>
       bind
         (bind (_get_message_body ev)
            (fun body =>
               ddb_table_name <- os_environ glue_tracking_initial.DDB_TABLE_NAME_ENV_VAR ;;
               if negb (truthy ddb_table_name) then raise MissingEnvironmentVariable else
               unique_id <- uuid4 ;;
               data_source_type <- lift (subscript body "data_source_type") ;;
               data_source_attrs <- lift (subscript body "data_source_attrs") ;;
               ret (py_str ddb_table_name,
                    glue_tracking_initial.python_obj unique_id data_source_type
                      data_source_attrs)))
         (fun p => insert_record (fst p) (snd p))) c w.
Proof.
  intros Hattr.
  unfold glue_tracking_initial.lambda_handler, glue_tracking_initial.tracker_item.
  rewrite bind_assoc_run, (bind_Ok_run _ _ _ _ _ _ Hattr).
  by rewrite bind_assoc_run.
Qed.

Lemma rds_glue_initial_after_attributes provision c ev w msg_attr :
  _get_sqs_message_attributes ev c w = (Ok msg_attr, w) ->
  rds_glue_initial.lambda_handler provision ev c w =
  bind (if truthy msg_attr
        then glue_tracking_initial._delete_sqs_message msg_attr else ret tt)
    (fun _ => bind (_get_message_body ev) provision) c w.
Proof.
  intros Hattr. unfold rds_glue_initial.lambda_handler.
  by rewrite (bind_Ok_run _ _ _ _ _ _ Hattr).
Qed.

(** Whatever comes after the deletion step, the deletion is the first
    request of the invocation, unless the step raises before it. *)
Lemma delete_then c okc mid rh (rest : M unit) w :
  stable c (extends_by okc) rest ->
  let msg_attr := VDict [("message_id", mid); ("receipt_handle", rh)] in
  let r := bind (glue_tracking_initial._delete_sqs_message msg_attr)
             (fun _ => rest) c w in
  match environ c !! "SQS_QUEUE_URL" with
  | Some url =>
      if String.eqb url "" then r = (Raise MissingEnvironmentVariable, w)
      else
        match str_of rh with
        | Some _ => exists tr, issued w (snd r) = delete_request url rh :: tr
        | None => r = (Raise ParamValidationError, w)
        end
  | None => r = (Raise MissingEnvironmentVariable, w)
  end.
Proof.
  intros Hrest msg_attr r. subst r.
  pose proof (delete_step c mid rh w) as Hdel. simpl in Hdel. fold msg_attr in Hdel.
  destruct (environ c !! "SQS_QUEUE_URL") as [url|];
    [|by rewrite (bind_Raise_run _ _ _ _ _ _ Hdel)].
  destruct (String.eqb url ""); [by rewrite (bind_Raise_run _ _ _ _ _ _ Hdel)|].
  destruct (str_of rh); [|by rewrite (bind_Raise_run _ _ _ _ _ _ Hdel)].
  destruct Hdel as [[[]|e] Hdel].
  - rewrite (bind_Ok_run _ _ _ _ _ _ Hdel). eapply issued_cons. apply Hrest.
  - rewrite (bind_Raise_run _ _ _ _ _ _ Hdel). simpl. exists [].
    apply issued_log.
Qed.

(** Without a queue delivery the deletion step is skipped. *)
Lemma no_delivery_no_delete c ev (rest : M unit) (handler : M unit) w :
  (forall rh, ~ queue_delivery ev rh) ->
  stable c (extends_by not_delete) rest ->
  (forall msg_attr,
     _get_sqs_message_attributes ev c w = (Ok msg_attr, w) ->
     handler c w =
     bind (if truthy msg_attr
           then glue_tracking_initial._delete_sqs_message msg_attr else ret tt)
       (fun _ => rest) c w) ->
  (forall e, _get_sqs_message_attributes ev c w = (Raise e, w) ->
     handler c w = (Raise e, w)) ->
  Forall not_delete (issued w (snd (handler c w))).
Proof.
  intros Hno Hrest Hok Hraise.
  destruct (_get_sqs_message_attributes ev c w) as [[a|e] w1] eqn:Hattr.
  - pose proof (stable_snd c eq _ _ _ _ (pure__get_sqs_message_attributes c ev) Hattr).
    subst w1. rewrite (Hok a eq_refl).
    destruct (truthy a) eqn:Htr.
    { destruct (attributes_queue_delivery _ _ _ _ _ Hattr Htr) as [rh Hqd].
      by destruct (Hno rh). }
    rewrite (bind_Ok_run _ _ c w tt w eq_refl).
    eapply issued_extends. apply Hrest.
  - pose proof (stable_snd c eq _ _ _ _ (pure__get_sqs_message_attributes c ev) Hattr).
    subst w1. rewrite (Hraise e eq_refl). simpl. rewrite issued_refl. constructor.
Qed.


(** ** The opt-in tag *)

Lemma stable_at_bind c R `{!PreOrder R} {A B} (m : M A) (k : A -> M B) w :
  stable_at c R m w ->
  (forall a w1, m c w = (Ok a, w1) -> stable_at c R (k a) w1) ->
  stable_at c R (bind m k) w.
Proof.
  unfold stable_at, bind. intros Hm Hk.
  destruct (m c w) as [[a|e] w1] eqn:E; simpl in *; [|done].
  etrans; [exact Hm|]. by apply Hk.
Qed.

Lemma stable_stable_at c R {A} (m : M A) w : stable c R m -> stable_at c R m w.
Proof. intros H. apply H. Qed.

Lemma pure__check_missing_field c d k : stable c eq (_check_missing_field d k).
Proof. unfold _check_missing_field. stable_auto. Qed.

Lemma pure__validate_field c d k v : stable c eq (_validate_field d k v).
Proof.
  unfold _validate_field. stable_auto. apply pure__check_missing_field.
Qed.

Lemma pure_s3_extract_valid_event c ev :
  stable c eq (s3_trigger._extract_valid_event ev).
Proof.
  unfold s3_trigger._extract_valid_event.
  stable_auto; auto using pure__check_missing_field, pure__validate_field.
Qed.

Lemma subscript_field v k x : subscript v k = Ok x -> field v k = Some x.
Proof.
  unfold subscript, field. destruct v; try done.
  destruct (dict_lookup k d); by intros [= <-].
Qed.

Lemma s3_extract_valid_event_run c ev w ve w1 :
  s3_trigger._extract_valid_event ev c w = (Ok ve, w1) ->
  w1 = w /\ forall b, subscript ve "bucketName" = Ok b -> bucket_of ev = Some b.
Proof.
  intros H. split.
  - symmetry. by eapply (stable_snd c eq), H; apply pure_s3_extract_valid_event.
  - intros b Hb. unfold s3_trigger._extract_valid_event in H.
    inv_run. unfold bucket_of.
    repeat match goal with
           | H : subscript _ _ = Ok _ |- _ => apply subscript_field in H
           end.
    by simplify_option_eq.
Qed.

Lemma visit_tag_flag c u ve flag tag :
  returns c (s3_trigger.visit_tag u ve flag tag)
    (fun flag' => flag' = flag || is_opt_in tag).
Proof.
  unfold returns. intros w flag' H.
  destruct (s3_trigger.visit_tag u ve flag tag c w) as [r w'] eqn:E.
  simpl in H. subst r. unfold s3_trigger.visit_tag in E.
  inv_run; unfold is_opt_in;
    repeat match goal with
           | H : subscript _ _ = Ok _ |- _ => apply subscript_field in H
           end;
    simplify_option_eq;
    repeat match goal with
           | H : eq_str _ _ = _ |- _ => rewrite H
           end; simpl; try done;
    repeat case_match; by repeat match goal with
                                 | b : bool |- _ => destruct b
                                 end.
Qed.

Lemma tag_loop_flag c u ve tags flag :
  returns c (for_acc tags flag (s3_trigger.visit_tag u ve))
    (fun flag' => flag' = flag || existsb is_opt_in tags).
Proof.
  revert flag. induction tags as [|tag tags IH]; intros flag; simpl.
  - apply returns_ret. by rewrite orb_false_r.
  - eapply returns_bind_with; [apply visit_tag_flag|].
    intros flag1 ->. intros w flag' H. apply IH in H. by rewrite H, orb_assoc.
Qed.

Lemma send_message_run c u m w r w' :
  _send_message_to_sqs u m c w = (r, w') ->
  w' = log_call (Call "sqs" "send_message"
                   [("QueueUrl", u); ("MessageBody", VJson m)]) w.
Proof.
  unfold _send_message_to_sqs, bind, boto.
  destruct (aws c _ _) as [resp|e]; [|by intros [= <- <-]].
  unfold _check_missing_field, bind, lift, ret, raise.
  repeat case_match; simplify_eq; by intros [= <- <-].
Qed.

Section opt_in.
Context (c : ctx) (url : string).

Lemma not_sent_elsewhere (cu : string) m :
  cu <> url ->
  not_sent_to url
    (Call "sqs" "send_message" [("QueueUrl", VStr cu); ("MessageBody", m)]).
Proof.
  intros Hne. unfold not_sent_to, sends_to, eq_str. simpl.
  by apply String.eqb_neq.
Qed.

Lemma stable_tag_loop (cu : string) ve tags flag :
  cu <> url ->
  stable c (only_calls (not_sent_to url))
    (for_acc tags flag (s3_trigger.visit_tag (VStr cu) ve)).
Proof.
  intros Hne. unfold s3_trigger.visit_tag. stable_auto.
  apply (stable__send_message_to_sqs _ (not_sent_to url)); [apply _|].
  by apply not_sent_elsewhere.
Qed.

Lemma stable_s3_extract_valid_event R okc `{!Quiet okc R} ev :
  stable c R (s3_trigger._extract_valid_event ev).
Proof. unfold s3_trigger._extract_valid_event. stable_auto. Qed.

Lemma stable_after_tags_without (cu : string) q ve tags :
  cu <> url ->
  has_opt_in tags = false ->
  stable c (only_calls (not_sent_to url))
    (s3_trigger.after_tags q (VStr cu) ve tags).
Proof.
  intros Hne Hno. unfold s3_trigger.after_tags.
  destruct (negb (truthy tags)); [stable_auto|].
  apply stable_bind; [apply _|stable_auto|]. intros l w Hl.
  assert (iterate tags = Ok l) as Hit by done.
  apply stable_bind; [apply _|by apply stable_tag_loop|]. intros flag w1 Hflag.
  apply tag_loop_flag in Hflag. simpl in Hflag.
  unfold has_opt_in in Hno. rewrite Hit in Hno. rewrite Hno in Hflag.
  subst flag. simpl. stable_auto.
Qed.

End opt_in.

Lemma lift_run {A} (r : result A) c w a w1 :
  lift r c w = (Ok a, w1) -> r = Ok a /\ w1 = w.
Proof. unfold lift. by intros [= -> ->]. Qed.

(** The tags [_get_bucket_tags] returns are the tag set S3 reports. *)
Lemma get_bucket_tags_run c b w tags w1 :
  _get_bucket_tags b c w = (Ok tags, w1) ->
  tags = match reported_tags c w b with
         | Some t => if truthy t then t else VNone
         | None => VNone
         end.
Proof.
  unfold _get_bucket_tags, reported_tags, try_except, bind, boto.
  destruct (aws c (calls w) _) as [resp|e]; simpl.
  - unfold _check_missing_field, bind, lift, ret, raise. simpl.
    destruct (dict_lookup "TagSet" resp) as [t|]; simpl;
      repeat case_match; simplify_eq; by intros [= <- <-].
  - destruct e; try done. destruct (String.eqb code "NoSuchTagSet"); [|done].
    by intros [= <- <-].
Qed.

Lemma has_opt_in_truthy tags : has_opt_in tags = true -> truthy tags = true.
Proof.
  unfold has_opt_in. destruct tags as [| | |s|j|l|d]; simpl; try done.
  - by destruct s.
  - by destruct l.
  - by destruct d.
Qed.

Lemma lacks_opt_in c event w :
  (forall b, bucket_of event = Some b -> opted_in c w b = false) ->
  forall b tags w1,
    bucket_of event = Some b ->
    _get_bucket_tags b c w = (Ok tags, w1) ->
    has_opt_in tags = false.
Proof.
  intros Hlacks b tags w1 Hb Htags. specialize (Hlacks b Hb).
  apply get_bucket_tags_run in Htags. subst tags. unfold opted_in in Hlacks.
  destruct (reported_tags c w b) as [t|]; [|done].
  by destruct (truthy t).
Qed.

(** Without the opt-in tag on the bucket, nothing is sent to the tracking
    queue. *)
Lemma s3_trigger_without_opt_in c event w url :
  environ c !! "GLUE_TRACKING_QUEUE_URL" = Some url ->
  environ c !! "GLUE_CUSTOM_ENTITY_QUEUE_URL" <> Some url ->
  (forall b tags w1,
     bucket_of event = Some b ->
     _get_bucket_tags b c w = (Ok tags, w1) ->
     has_opt_in tags = false) ->
  stable_at c (only_calls (not_sent_to url)) (s3_trigger.lambda_handler event) w.
Proof.
  intros Henv Hcustom Hlacks. unfold s3_trigger.lambda_handler.
  unfold s3_trigger.GLUE_TRACK_QUEUE_URL_ENV_VAR,
    s3_trigger.GLUE_CUSTOM_ENTITY_QUEUE_URL_ENV_VAR.
  apply stable_at_bind; [apply _| |].
  { apply stable_stable_at.
    apply (stable_s3_extract_valid_event c _ (not_sent_to url)). }
  intros ve w1 Hve. apply s3_extract_valid_event_run in Hve as [-> Hbucket].
  apply stable_at_bind; [apply _|apply stable_stable_at; stable_auto|].
  intros q w1 Hq. apply os_environ_run in Hq as [-> ->]. rewrite Henv.
  destruct (negb (truthy (VStr url))); [apply stable_stable_at; stable_auto|].
  apply stable_at_bind; [apply _|apply stable_stable_at; stable_auto|].
  intros cu w1 Hcu. apply os_environ_run in Hcu as [-> ->].
  destruct (environ c !! "GLUE_CUSTOM_ENTITY_QUEUE_URL") as [cus|] eqn:Ecu;
    [|simpl; apply stable_stable_at; stable_auto].
  destruct (negb (truthy (VStr cus))); [apply stable_stable_at; stable_auto|].
  apply stable_at_bind; [apply _|apply stable_stable_at; stable_auto|].
  intros b w1 Hb. apply lift_run in Hb as [Hb ->].
  apply stable_at_bind; [apply _| |].
  { apply stable_stable_at.
    apply (stable__get_bucket_tags c (not_sent_to url)); [apply _|reflexivity]. }
  intros tags w1 Htags. apply stable_stable_at.
  apply stable_after_tags_without; [congruence|].
  eapply Hlacks; [|exact Htags]. by apply Hbucket.
Qed.

(** With the opt-in tag, an invocation that ends normally has sent one
    message to the tracking queue, its last request. *)
Lemma s3_trigger_with_opt_in c event w url b :
  environ c !! "GLUE_TRACKING_QUEUE_URL" = Some url ->
  environ c !! "GLUE_CUSTOM_ENTITY_QUEUE_URL" <> Some url ->
  bucket_of event = Some b ->
  opted_in c w b = true ->
  fst (s3_trigger.lambda_handler event c w) = Ok tt ->
  exists tr attrs,
    issued w (snd (s3_trigger.lambda_handler event c w)) =
      (tr ++ [Call "sqs" "send_message"
                [("QueueUrl", VStr url);
                 ("MessageBody",
                  VJson (VDict [("data_source_type", VStr "s3");
                                ("data_source_attrs", attrs)]))]])%list /\
    Forall (not_sent_to url) tr /\
    field attrs "bucketName" = Some b.
Proof.
  intros Henv Hcustom Hbucket Hopt Hok.
  destruct (s3_trigger.lambda_handler event c w) as [r w'] eqn:Hrun.
  simpl in Hok. subst r. simpl. unfold s3_trigger.lambda_handler in Hrun.
  unfold s3_trigger.GLUE_TRACK_QUEUE_URL_ENV_VAR,
    s3_trigger.GLUE_CUSTOM_ENTITY_QUEUE_URL_ENV_VAR in Hrun.
  apply bind_inv_Ok in Hrun as (ve & w2 & Hve & Hrun).
  apply s3_extract_valid_event_run in Hve as [-> Hb].
  apply bind_inv_Ok in Hrun as (q & w2 & Hq & Hrun).
  apply os_environ_run in Hq as [-> ->]. rewrite Henv in Hrun.
  destruct (negb (truthy (VStr url))); [done|].
  apply bind_inv_Ok in Hrun as (cu & w2 & Hcu & Hrun).
  apply os_environ_run in Hcu as [-> ->].
  destruct (environ c !! "GLUE_CUSTOM_ENTITY_QUEUE_URL") as [cus|] eqn:Ecu; [|done].
  destruct (negb (truthy (VStr cus))); [done|].
  apply bind_inv_Ok in Hrun as (b' & w2 & Hb' & Hrun).
  apply lift_run in Hb' as [Hb' ->].
  pose proof (subscript_field _ _ _ Hb') as Hfield.
  apply Hb in Hb'. rewrite Hbucket in Hb'. injection Hb' as <-.
  apply bind_inv_Ok in Hrun as (tags & w1 & Htags & Hrun).
  pose proof (get_bucket_tags_run _ _ _ _ _ Htags) as Hrep.
  unfold opted_in in Hopt.
  destruct (reported_tags c w b) as [t|]; [|done].
  rewrite (has_opt_in_truthy _ Hopt) in Hrep. subst t.
  pose proof (stable_snd c (only_calls (not_sent_to url)) _ _ _ _
                (stable__get_bucket_tags c (not_sent_to url) _ b eq_refl) Htags)
    as Hw1.
  unfold s3_trigger.after_tags in Hrun.
  rewrite (has_opt_in_truthy _ Hopt) in Hrun. simpl in Hrun.
  apply bind_inv_Ok in Hrun as (l & w2 & Hl & Hrun).
  apply lift_run in Hl as [Hl ->].
  apply bind_inv_Ok in Hrun as (flag & w2 & Hloop & Hrun).
  pose proof (tag_loop_flag c (VStr cus) ve l false w1 flag) as Hflag.
  rewrite Hloop in Hflag. specialize (Hflag eq_refl). simpl in Hflag.
  unfold has_opt_in in Hopt. rewrite Hl in Hopt. rewrite Hopt in Hflag. subst flag.
  simpl in Hrun.
  assert (cus <> url) as Hne by congruence.
  pose proof (stable_snd c (only_calls (not_sent_to url)) _ _ _ _
                (stable_tag_loop c url cus ve l false Hne) Hloop) as Hw2.
  apply send_message_run in Hrun. subst w'.
  destruct Hw1 as [_ (tr1 & C1 & F1)]. destruct Hw2 as [_ (tr2 & C2 & F2)].
  exists (tr1 ++ tr2)%list, ve. split; [|split; [|done]].
  - unfold issued. simpl. rewrite C2, C1, <- !app_assoc.
    by rewrite drop_app_length.
  - by apply Forall_app.
Qed.

Lemma filter_not_sent url tr :
  Forall (not_sent_to url) tr -> List.filter (sends_to url) tr = [].
Proof.
  induction 1 as [|rq tr Hrq _ IH]; simpl; [done|].
  unfold not_sent_to in Hrq. by rewrite Hrq.
Qed.


(** ** A failing record stops the batch *)

Lemma for_abort {A} (pre : list A) k post (body : A -> M unit) c w w1 e w2 :
  for_ pre body c w = (Ok tt, w1) ->
  body k c w1 = (Raise e, w2) ->
  for_ (pre ++ k :: post) body c w = (Raise e, w2).
Proof.
  revert w. induction pre as [|x pre IH]; intros w Hpre Hk; simpl in *.
  - unfold ret in Hpre. simplify_eq. by apply bind_Raise_run.
  - apply bind_inv_Ok in Hpre as ([] & w0 & Hx & Hpre).
    rewrite (bind_Ok_run _ _ _ _ _ _ Hx). by apply IH.
Qed.

Section fails_quietly.
Context (c : ctx).

Lemma fails_quietly_bind {A B} (m : M A) (k : A -> M B) :
  stable c (only_calls any_call) m ->
  (forall a, fails_quietly c (k a)) ->
  fails_quietly c (bind m k).
Proof.
  intros Hm Hk w e w' H. apply bind_inv_Raise in H as [H|(a & w1 & H1 & H)].
  - by destruct (stable_snd _ _ _ _ _ _ Hm H).
  - destruct (stable_snd _ _ _ _ _ _ Hm H1) as [E _].
    rewrite <- E. by eapply Hk.
Qed.

Lemma fails_quietly_update_item t key sets :
  fails_quietly c (update_item t key sets).
Proof.
  intros w e w'. unfold update_item.
  destruct (str_of key); [|by intros [= _ <-]].
  destruct (aws c _ _); [done|by intros [= _ <-]].
Qed.

Lemma update_then_check t key sets w r w' :
  bind (update_item t key sets) check_response c w = (r, w') ->
  (r = Ok tt /\ update_item t key sets c w = (Ok (VDict ok_response), w')) \/
  (exists e, r = Raise e /\ ddb w' = ddb w).
Proof.
  unfold bind. destruct (update_item t key sets c w) as [[resp|e] w1] eqn:E.
  - assert (resp = VDict ok_response) as ->.
    { unfold update_item in E. destruct (str_of key); [|done].
      destruct (aws c _ _); [|done]. by simplify_eq. }
    rewrite check_response_ok. intros [= <- <-]. by left.
  - intros [= <- <-]. right. exists e. split; [done|].
    by eapply fails_quietly_update_item.
Qed.

Lemma fails_quietly_catalog_process t db role acct obj :
  fails_quietly c (catalog_creator_s3.process t db role acct obj).
Proof.
  unfold catalog_creator_s3.process.
  do 5 (apply fails_quietly_bind;
        [unfold catalog_creator_s3.create_data_catalog_table,
           catalog_creator_s3.create_crawler; stable_auto|intros ?]).
  unfold catalog_creator_s3.update_ddb.
  apply fails_quietly_bind; [stable_auto|]. intros key w e w' H.
  apply update_then_check in H as [[? _]|(_ & _ & ?)]; done.
Qed.

Lemma fails_quietly_job_process t out assets script role obj :
  fails_quietly c (s3_glue_job_creator.process t out assets script role obj).
Proof.
  unfold s3_glue_job_creator.process.
  do 11 (apply fails_quietly_bind;
         [unfold s3_glue_job_creator.create_glue_job; stable_auto|intros ?]).
  unfold s3_glue_job_creator.update_ddb.
  apply fails_quietly_bind; [stable_auto|]. intros key w e w' H.
  apply update_then_check in H as [[? _]|(_ & _ & ?)]; done.
Qed.

End fails_quietly.

Lemma for_establishes {A} (body : A -> M unit) (Q : A -> world -> Prop) c l w w1 :
  (forall x w w', body x c w = (Ok tt, w') -> Q x w') ->
  (forall x y w, Q x w -> Q x (snd (body y c w))) ->
  for_ l body c w = (Ok tt, w1) ->
  forall x, x ∈ l -> Q x w1.
Proof.
  intros Hest Hkeep. revert w. induction l as [|y l IH]; intros w Hrun x Hin.
  - by apply elem_of_nil in Hin.
  - simpl in Hrun. apply bind_inv_Ok in Hrun as ([] & w0 & Hy & Hrun).
    apply elem_of_cons in Hin as [->|Hin]; [|by eapply IH].
    assert (Q y w0) as Hq by (by eapply Hest).
    clear Hy IH. revert w0 Hrun Hq.
    induction l as [|z l IH]; intros w0 Hrun Hq; simpl in Hrun.
    + unfold ret in Hrun. by simplify_eq.
    + apply bind_inv_Ok in Hrun as ([] & w2 & Hz & Hrun).
      apply (IH w2 Hrun). specialize (Hkeep y z w0 Hq). by rewrite Hz in Hkeep.
Qed.

Lemma update_item_sets c t key sets w r w' id :
  update_item t key sets c w = (Ok r, w') ->
  str_of key = Some id ->
  exists old, ddb w' t !! id = Some (apply_sets sets old).
Proof.
  unfold update_item. intros H Hkey. rewrite Hkey in H.
  destruct (aws c _ _); [|done]. injection H as _ <-. simpl.
  rewrite decide_True by done. rewrite lookup_insert_eq. by eexists.
Qed.

Lemma flagged_kept c flag t id {A} (m : M A) w :
  stable c (keeps (flag_kept flag) t) m ->
  flagged flag t id w -> flagged flag t id (snd (m c w)).
Proof.
  intros Hm (item & Hitem & Hflag).
  destruct (Hm w id item Hitem) as (item' & Hitem' & Hkept).
  exists item'. split; [done|]. by apply Hkept.
Qed.

Lemma catalog_process_ok c t db role acct obj w w' key id :
  catalog_creator_s3.process t db role acct obj c w = (Ok tt, w') ->
  subscript obj "id" = Ok key -> str_of key = Some id ->
  flagged "data_catalog_entry" t id w'.
Proof.
  intros H Hid Hkey. unfold catalog_creator_s3.process in H.
  do 5 (apply bind_inv_Ok in H as (? & ? & _ & H)).
  unfold catalog_creator_s3.update_ddb in H.
  apply bind_inv_Ok in H as (key' & w1 & Hk & H).
  apply lift_run in Hk as [Hk ->]. rewrite Hid in Hk. injection Hk as <-.
  apply update_then_check in H as [[_ H]|(e & ? & _)]; [|done].
  destruct (update_item_sets _ _ _ _ _ _ _ _ H Hkey) as [old Hold].
  eexists. split; [exact Hold|]. unfold apply_sets. simpl.
  rewrite !dict_lookup_set_ne by done. apply dict_lookup_set_eq.
Qed.

Lemma job_process_ok c t out assets script role obj w w' key id :
  s3_glue_job_creator.process t out assets script role obj c w = (Ok tt, w') ->
  subscript obj "id" = Ok key -> str_of key = Some id ->
  flagged "glue_job_created" t id w'.
Proof.
  intros H Hid Hkey. unfold s3_glue_job_creator.process in H.
  do 11 (apply bind_inv_Ok in H as (? & ? & _ & H)).
  unfold s3_glue_job_creator.update_ddb in H.
  apply bind_inv_Ok in H as (key' & w1 & Hk & H).
  apply lift_run in Hk as [Hk ->]. rewrite Hid in Hk. injection Hk as <-.
  apply update_then_check in H as [[_ H]|(e & ? & _)]; [|done].
  destruct (update_item_sets _ _ _ _ _ _ _ _ H Hkey) as [old Hold].
  eexists. split; [exact Hold|]. unfold apply_sets. simpl.
  apply dict_lookup_set_eq.
Qed.

(** C2, as the code has it.  In each of the two stage handlers, when the
    loop over the scanned records has processed the records [pre] and
    processing the next record [k] raises, the loop raises the same
    exception there and then: the invocation ends without processing the
    records [post] that follow.  The tables are what they were before [k]:
    the records before [k] carry the flag of the stage, [k] and the records
    after it have not been updated. *)
Theorem failure_stops_the_batch (c : ctx) (T : string) (pre : list value)
    (k : value) (post : list value) (e : exn) (w w1 w2 : world) :
  (forall db role acct,
     let body := catalog_creator_s3.process T db role acct in
     for_ pre body c w = (Ok tt, w1) ->
     body k c w1 = (Raise e, w2) ->
     for_ (pre ++ k :: post) body c w = (Raise e, w2) /\
     ddb w2 = ddb w1 /\
     (forall obj key id,
        obj ∈ pre -> subscript obj "id" = Ok key -> str_of key = Some id ->
        flagged "data_catalog_entry" T id w2)) /\
  (forall out assets script role,
     let body := s3_glue_job_creator.process T out assets script role in
     for_ pre body c w = (Ok tt, w1) ->
     body k c w1 = (Raise e, w2) ->
     for_ (pre ++ k :: post) body c w = (Raise e, w2) /\
     ddb w2 = ddb w1 /\
     (forall obj key id,
        obj ∈ pre -> subscript obj "id" = Ok key -> str_of key = Some id ->
        flagged "glue_job_created" T id w2)).
Proof.
  split.
  - intros db role acct body Hpre Hk.
    split; [by eapply for_abort|].
    pose proof (fails_quietly_catalog_process c _ _ _ _ _ _ _ _ Hk) as Hddb.
    split; [done|]. intros obj key id Hin Hid Hkey.
    assert (flagged "data_catalog_entry" T id w1) as (item & Hitem & Hflag).
    { refine (for_establishes body
                (fun obj w => forall key id,
                   subscript obj "id" = Ok key -> str_of key = Some id ->
                   flagged "data_catalog_entry" T id w) c pre w w1 _ _ Hpre
                obj Hin key id Hid Hkey).
      - intros x w0 w' Hx key' id' ? ?. by eapply catalog_process_ok.
      - intros x y w0 Hq key' id' ? ?. apply flagged_kept; [|by eapply Hq].
        apply stable_catalog_process; [apply _|].
        intros tn dbn item. apply catalog_sets_keep_flags. }
    exists item. by rewrite Hddb.
  - intros out assets script role body Hpre Hk.
    split; [by eapply for_abort|].
    pose proof (fails_quietly_job_process c _ _ _ _ _ _ _ _ _ Hk) as Hddb.
    split; [done|]. intros obj key id Hin Hid Hkey.
    assert (flagged "glue_job_created" T id w1) as (item & Hitem & Hflag).
    { refine (for_establishes body
                (fun obj w => forall key id,
                   subscript obj "id" = Ok key -> str_of key = Some id ->
                   flagged "glue_job_created" T id w) c pre w w1 _ _ Hpre
                obj Hin key id Hid Hkey).
      - intros x w0 w' Hx key' id' ? ?. by eapply job_process_ok.
      - intros x y w0 Hq key' id' ? ?. apply flagged_kept; [|by eapply Hq].
        apply stable_job_process; [apply _|].
        intros item. apply job_sets_keep_flags. }
    exists item. by rewrite Hddb.
Qed.

(** * The claims on sample inputs *)

Import sample.

(** C1 as stated fails: the same message delivered twice in a deployment
    whose identifiers are all different leaves two records in the tracker
    table, and the second insert ends normally without any failed
    condition. *)
Lemma redelivery_adds_a_second_record :
  let event := delivery (VJson s3_discovery) in
  let r1 := glue_tracking_initial.lambda_handler event cloud start in
  let r2 := glue_tracking_initial.lambda_handler event cloud (snd r1) in
  fst r1 = Ok tt /\ fst r2 = Ok tt /\
  size (ddb (snd r1) "tracker") = 1%nat /\
  size (ddb (snd r2) "tracker") = 2%nat /\
  (ddb (snd r2) "tracker" !! "id-0") ≫= dict_lookup "data_source_attrs"
    = Some (bucket "b1") /\
  (ddb (snd r2) "tracker" !! "id-1") ≫= dict_lookup "data_source_attrs"
    = Some (bucket "b1").
Proof. vm_compute. repeat split; reflexivity. Qed.

(** C2 as stated fails: of three scanned records, the one scanned second
    is refused by Glue; the catalog stage raises there, and the record
    scanned third is left as it was. *)
Lemma a_failure_leaves_later_records_unprocessed :
  let r := catalog_creator_s3.lambda_handler cloud_refusing_b1
             (with_tracker three_discovered) in
  map fst (map_to_list three_discovered) = ["id-1"; "id-2"; "id-0"] /\
  fst r = Raise (ClientError "AlreadyExistsException") /\
  stage_flags (snd r) "id-1" = (Some (VBool true), Some (VBool false)) /\
  stage_flags (snd r) "id-2" = (Some (VBool false), Some (VBool false)) /\
  stage_flags (snd r) "id-0" = (Some (VBool false), Some (VBool false)).
Proof. vm_compute. repeat split; reflexivity. Qed.


(** C9: the code at the failing input.  Without [GLUE_SCRIPT_BUCKET] the
    job stage does not raise: it creates the job with the script location
    [s3://None/s3-source-script.py] and marks the record. *)
Theorem job_stage_runs_without_script_bucket :
  let c := cloud_without_script_bucket in
  let r := s3_glue_job_creator.lambda_handler c (with_tracker one_catalogued) in
  environ c !! s3_glue_job_creator.GLUE_SCRIPT_ENV_VAR = None /\
  fst r = Ok tt /\
  map script_location
    (List.filter (is_operation "glue" "create_job") (calls (snd r)))
    = [Some (VStr "s3://None/s3-source-script.py")] /\
  stage_flags (snd r) "id-0" = (Some (VBool true), Some (VBool true)).
Proof. vm_compute. repeat split; reflexivity. Qed.

(** [redelivery] on the sample delivery, in the deployment whose
    identifiers are all different. *)
Lemma redelivery_witness :
  let event := delivery (VJson s3_discovery) in
  let r1 := glue_tracking_initial.lambda_handler event cloud start in
  let r2 := glue_tracking_initial.lambda_handler event cloud (snd r1) in
  size (ddb (snd r2) "tracker") = S (S (size (ddb start "tracker"))).
Proof.
  intros event r1 r2.
  refine (proj2 (redelivery cloud event start "tracker" _ _ _ _ _) _ _).
  - vm_compute. reflexivity.
  - intros hist rq. vm_compute. discriminate.
  - vm_compute. reflexivity.
  - vm_compute. reflexivity.
  - vm_compute. reflexivity.
  - vm_compute. discriminate.
  - vm_compute. reflexivity.
Defined.

(** [failure_stops_the_batch] on the three sample records, the second of
    which Glue refuses. *)
Lemma failure_stops_the_batch_witness :
  let c := cloud_refusing_b1 in
  let body := catalog_creator_s3.process "tracker" (VStr "db") (VStr "arn:role")
                (VStr "111122223333") in
  let pre := [VDict (record "id-1" "b0" false false)] in
  let k := VDict (record "id-2" "b1" false false) in
  let post := [VDict (record "id-0" "b2" false false)] in
  let w := with_tracker three_discovered in
  let w1 := snd (for_ pre body c w) in
  let w2 := snd (body k c w1) in
  for_ (pre ++ k :: post) body c w
    = (Raise (ClientError "AlreadyExistsException"), w2) /\
  ddb w2 = ddb w1.
Proof.
  intros c body pre k post w w1 w2.
  destruct (proj1 (failure_stops_the_batch c "tracker" pre k post
                     (ClientError "AlreadyExistsException") w w1 w2)
              (VStr "db") (VStr "arn:role") (VStr "111122223333"))
    as (H1 & H2 & _).
  - vm_compute. reflexivity.
  - vm_compute. reflexivity.
  - split; [exact H1|exact H2].
Defined.

(** [flags_are_monotonic] on a catalogued record when the catalog stage
    runs again. *)
Lemma flags_are_monotonic_witness :
  exists item',
    ddb (snd (invoke CatalogCreatorS3 cloud (with_tracker one_catalogued)))
      "tracker" !! "id-0" = Some item' /\
    (dict_lookup "data_catalog_entry" (record "id-0" "b1" true false)
       = Some (VBool true) ->
     dict_lookup "data_catalog_entry" item' = Some (VBool true)) /\
    (dict_lookup "glue_job_created" (record "id-0" "b1" true false)
       = Some (VBool true) ->
     dict_lookup "glue_job_created" item' = Some (VBool true)).
Proof.
  apply (flags_are_monotonic cloud CatalogCreatorS3 (with_tracker one_catalogued)
           "tracker" "id-0" (record "id-0" "b1" true false)).
  - vm_compute. discriminate.
  - discriminate.
  - vm_compute. reflexivity.
Defined.

(** [job_stage_scans_catalogued_records_only] on a record the catalog
    stage has not completed. *)
Lemma job_stage_scan_witness :
  record "id-0" "b2" false false
    ∉ select (s3_glue_job_creator.DDB_PARTIQL "tracker") three_discovered.
Proof.
  apply (proj1 (proj2 (job_stage_scans_catalogued_records_only "tracker"
                         three_discovered))).
  vm_compute. discriminate.
Defined.


(** [insert_failures] on an insert under an identifier that exists. *)
Lemma insert_failures_witness :
  let item := glue_tracking_initial.python_obj "id-0" (VStr "s3") (bucket "b1") in
  let w0 := with_tracker one_catalogued in
  let w' := log_call (put_item_request "tracker" item true) w0 in
  ddb w' = ddb w0 /\ insert_record "tracker" item cloud w0 = (Ok tt, w').
Proof.
  intros item w0 w'.
  destruct (insert_failures cloud "tracker" item w0 w'
              (ClientError "ConditionalCheckFailedException"))
    as (H1 & H2 & _).
  - vm_compute. reflexivity.
  - split; [exact H1|exact H2].
Defined.

(** [stage_update_writes_its_fields_only] on the job-stage update of a
    catalogued record. *)
Lemma stage_update_witness :
  let item := record "id-0" "b1" true false in
  let w := with_tracker one_catalogued in
  let w' := snd (s3_glue_job_creator.update_ddb "tracker" (VDict item) cloud w) in
  exists item',
    ddb w' "tracker" !! "id-0" = Some item' /\
    dict_lookup "glue_job_created" item' = Some (VBool true) /\
    same_outside ["glue_job_created"] item item' /\
    (forall t' k', t' <> "tracker" \/ k' <> "id-0" ->
       ddb w' t' !! k' = ddb w t' !! k').
Proof.
  intros item w w'.
  apply (proj2 (stage_update_writes_its_fields_only cloud w "tracker" (VDict item)
                  (VStr "id-0") "id-0" item eq_refl eq_refl
                  ltac:(vm_compute; reflexivity)) w').
  vm_compute. reflexivity.
Defined.




(** * Further properties *)

(** ** The table a tag report writes *)

Section same_elsewhere.
Context (c : ctx) (T : string).

#[global] Instance same_elsewhere_quiet : Quiet any_call (same_elsewhere T).
Proof.
  split; [split|].
  - by intros w t _.
  - intros w1 w2 w3 H12 H23 t Ht. by rewrite H23, H12.
  - intros w w' E _ t _. by rewrite E.
Qed.

Lemma stable_put_item_there item cond :
  stable c (same_elsewhere T) (put_item T item cond).
Proof.
  intros w t Ht. unfold put_item.
  destruct (aws c _ _); [|done].
  destruct (dict_lookup "id" item ≫= str_of) as [k|]; [|done].
  destruct (_ && _)%bool; simpl; [done|]. by rewrite decide_False.
Qed.

Lemma stable_write_tag_row_there tags obj :
  stable c (same_elsewhere T) (write_tag_row T tags obj).
Proof. unfold write_tag_row. stable_auto. apply stable_put_item_there. Qed.

End same_elsewhere.

(** X1.  The reports on DynamoDB tables and on RDS clusters check that
    [TAG_REPORT_TABLE_NAME] is set but write their rows to the table
    [tagCaptureTable], whatever the variable says: every other table, the
    one the variable names included, is what it was.  The report on S3
    buckets writes to the table the variable names, and to no other. *)
Theorem tag_report_tables (c : ctx) (w : world) (t : string) :
  (t <> "tagCaptureTable" ->
   ddb (snd (ddb_tag_report.lambda_handler c w)) t = ddb w t /\
   ddb (snd (rds_tag_report.lambda_handler c w)) t = ddb w t) /\
  (environ c !! "TAG_REPORT_TABLE_NAME" <> Some t ->
   ddb (snd (s3_tag_report.lambda_handler c w)) t = ddb w t).
Proof.
  split.
  - intros Hne. split.
    + assert (stable c (same_elsewhere "tagCaptureTable")
                ddb_tag_report.lambda_handler) as H; [|by apply H].
      unfold ddb_tag_report.lambda_handler, ddb_tag_report.process,
        ddb_tag_report.get_table_tags.
      stable_auto. apply stable_write_tag_row_there.
    + assert (stable c (same_elsewhere "tagCaptureTable")
                rds_tag_report.lambda_handler) as H; [|by apply H].
      unfold rds_tag_report.lambda_handler, rds_tag_report.process,
        rds_tag_report.get_glue_connection, rds_tag_report.get_db_tags.
      stable_auto. apply stable_write_tag_row_there.
  - intros Henv.
    destruct (environ c !! "TAG_REPORT_TABLE_NAME") as [T|] eqn:E.
    + assert (stable c (same_elsewhere T) s3_tag_report.lambda_handler) as H;
        [|apply H; congruence].
      unfold s3_tag_report.lambda_handler.
      apply stable_bind; [apply _|stable_auto|]. intros ddb_table_name w1 _.
      destruct (negb (truthy ddb_table_name)); [stable_auto|].
      apply stable_bind; [apply _|stable_auto|]. intros tag_table_name w2 Htag.
      apply os_environ_result in Htag.
      unfold s3_tag_report.DDB_TAG_TABLE_NAME_ENV_VAR in Htag. rewrite E in Htag.
      subst tag_table_name. unfold py_str at 2. simpl.
      unfold s3_tag_report.process. stable_auto.
      apply stable_write_tag_row_there.
    + assert (stable c (only_calls any_call) s3_tag_report.lambda_handler) as H.
      { unfold s3_tag_report.lambda_handler.
        apply stable_bind; [apply _|stable_auto|]. intros ddb_table_name w1 _.
        destruct (negb (truthy ddb_table_name)); [stable_auto|].
        apply stable_bind; [apply _|stable_auto|]. intros tag_table_name w2 Htag.
        apply os_environ_result in Htag.
        unfold s3_tag_report.DDB_TAG_TABLE_NAME_ENV_VAR in Htag. rewrite E in Htag.
        subst tag_table_name. simpl. stable_auto. }
      destruct (H w) as [Hd _]. by rewrite Hd.
Qed.

(** ** Running the helpers *)

Lemma boto_run c svc op kw w r w' :
  boto svc op kw c w = (Ok r, w') ->
  exists d, aws c (calls w) (Call svc op kw) = Ok d /\ r = VDict d /\
            w' = log_call (Call svc op kw) w.
Proof.
  unfold boto. destruct (aws c _ _) as [d|e]; [|done].
  intros [= <- <-]. by exists d.
Qed.

Lemma boto_world c svc op kw w :
  snd (boto svc op kw c w) = log_call (Call svc op kw) w.
Proof. unfold boto. by destruct (aws c _ _). Qed.

Lemma check_missing_field_run c d k w a w' :
  _check_missing_field d k c w = (Ok a, w') ->
  w' = w /\ exists v, get d k = Ok v /\ truthy v = true.
Proof.
  unfold _check_missing_field, bind, lift, ret, raise.
  destruct (get d k) as [v|e]; [|done].
  destruct (truthy v) eqn:E; [|done]. intros [= _ <-]. eauto.
Qed.

Lemma check_response_run c r w a w' :
  check_response r c w = (Ok a, w') ->
  w' = w /\
  exists md, field r "ResponseMetadata" = Some (VDict md) /\
             dict_lookup "HTTPStatusCode" md = Some (VNum 200).
Proof.
  intros H. unfold check_response in H.
  apply bind_inv_Ok in H as ([] & w1 & H1 & H).
  apply check_missing_field_run in H1 as (-> & _).
  apply bind_inv_Ok in H as (md & w1 & H1 & H).
  apply lift_run in H1 as (Hmd & ->). apply subscript_field in Hmd.
  unfold _validate_field in H.
  apply bind_inv_Ok in H as (v & w1 & H1 & H).
  apply lift_run in H1 as (Hv & ->).
  apply bind_inv_Ok in H as ([] & w1 & H1 & H).
  apply check_missing_field_run in H1 as (-> & v' & Hv' & Htr).
  rewrite Hv in Hv'. injection Hv' as <-.
  destruct (py_eq v (VNum 200)) eqn:E; [|done].
  unfold ret in H. injection H as _ <-. split; [done|].
  destruct md as [| | | | | |md]; try done. exists md. split; [done|].
  simpl in Hv. injection Hv as <-.
  destruct (dict_lookup "HTTPStatusCode" md) as [x|]; [|done]. simpl in *.
  destruct x; simpl in E; try done.
  - destruct b; vm_compute in E; done.
  - apply Z.eqb_eq in E. by subst.
Qed.

(** ** The secret of a cluster in rds-glue-initial *)

Lemma visit_secret_name c cid st secret w arn name w' :
  rds_glue_provision.visit_secret cid st secret c w = (Ok (arn, name), w') ->
  field secret "Name" = Some name /\
  (arn = fst st \/ field secret "ARN" = Some arn).
Proof.
  unfold rds_glue_provision.visit_secret. intros H.
  apply bind_inv_Ok in H as ([] & w1 & _ & H).
  apply bind_inv_Ok in H as (n & w2 & Hn & H).
  apply lift_run in Hn as (Hn & ->). apply subscript_field in Hn.
  apply bind_inv_Ok in H as (cl & w3 & _ & H).
  destruct cl; try (unfold ret in H; simplify_eq; by auto);
    (destruct (py_equal _ cid);
     [apply bind_inv_Ok in H as ([] & w4 & _ & H);
      apply bind_inv_Ok in H as (a & w5 & Ha & H);
      apply lift_run in Ha as (Ha & ->); apply subscript_field in Ha;
      unfold ret in H; simplify_eq; by auto
     |unfold ret in H; simplify_eq; by auto]).
Qed.

Lemma secret_loop c cid secrets st w arn name w' :
  for_acc secrets st (rds_glue_provision.visit_secret cid) c w
    = (Ok (arn, name), w') ->
  match last secrets with
  | Some secret => field secret "Name" = Some name
  | None => name = snd st
  end /\
  (arn = fst st \/ exists secret, secret ∈ secrets /\ field secret "ARN" = Some arn).
Proof.
  revert st w. induction secrets as [|s secrets IH]; intros st w H; simpl in H.
  - unfold ret in H. simplify_eq. split; [done|by left].
  - apply bind_inv_Ok in H as ([a n] & w1 & Hs & H).
    apply visit_secret_name in Hs as (Hn & Ha).
    apply IH in H as (Hlast & Harn). split.
    + destruct secrets as [|s' secrets]; simpl in *; [by subst|].
      destruct (last (s' :: secrets)) eqn:E; [done|by apply last_None in E].
    + destruct Harn as [->|(s' & Hin & Hs')].
      * simpl. destruct Ha as [->|Ha]; [by left|].
        right. exists s. split; [by left|done].
      * right. exists s'. split; [by right|done].
Qed.

(** X2.  [_fetch_secret_for_db] of rds-glue-initial returns the name of
    the secret listed last, whichever secret is the one of the cluster:
    the loop assigns [name] in every round and never leaves early.  The
    ARN it returns is empty or the ARN of a listed secret. *)
Theorem secret_name_is_the_last_listed (c : ctx) (cid : value) (w w' : world)
    (resp : dict) (secrets : list value) (arn name : value) :
  aws c (calls w) (Call "secretsmanager" "list_secrets" []) = Ok resp ->
  dict_lookup "SecretList" resp = Some (VList secrets) ->
  rds_glue_provision._fetch_secret_for_db cid c w = (Ok (arn, name), w') ->
  (exists secret, last secrets = Some secret /\ field secret "Name" = Some name) /\
  (arn = VStr "" \/
   exists secret, secret ∈ secrets /\ field secret "ARN" = Some arn).
Proof.
  intros Haws Hlist H. unfold rds_glue_provision._fetch_secret_for_db in H.
  apply bind_inv_Ok in H as (r & w1 & Hr & H).
  apply boto_run in Hr as (d & Hd & -> & ->). rewrite Haws in Hd. injection Hd as <-.
  apply bind_inv_Ok in H as ([] & w1 & H1 & H).
  apply check_response_run in H1 as (-> & _).
  apply bind_inv_Ok in H as ([] & w1 & H1 & H).
  apply check_missing_field_run in H1 as (-> & v & Hv & Htr).
  simpl in Hv. rewrite Hlist in Hv. injection Hv as <-.
  apply bind_inv_Ok in H as (sl & w1 & H1 & H).
  apply lift_run in H1 as (Hsl & ->). simpl in Hsl. rewrite Hlist in Hsl.
  injection Hsl as <-.
  apply bind_inv_Ok in H as (l & w1 & H1 & H).
  apply lift_run in H1 as (Hl & ->). simpl in Hl. injection Hl as <-.
  apply secret_loop in H as (Hlast & Harn). split; [|exact Harn].
  destruct secrets as [|s secrets]; [done|].
  destruct (last (s :: secrets)) as [secret|] eqn:E; [by exists secret|].
  by apply last_None in E.
Qed.

(** X3.  What rds-glue-initial does with the body of the message never
    deletes a message and never writes a DynamoDB table. *)
Theorem provision_only_requests (c : ctx) (body : value) (w : world) :
  let r := rds_glue_provision.provision body c w in
  ddb (snd r) = ddb w /\ Forall not_delete (issued w (snd r)).
Proof.
  assert (stable c (only_calls not_delete) (rds_glue_provision.provision body))
    as H.
  { unfold rds_glue_provision.provision,
      rds_glue_provision._fetch_secret_for_db, rds_glue_provision.visit_secret,
      rds_glue_provision._get_db_cluster_identifier,
      rds_glue_provision.get_subnet_for_conn,
      rds_glue_provision.create_glue_conn, rds_glue_provision._execute_sql,
      rds_glue_provision.schema_of, rds_glue_provision.create_crawler.
    stable_auto; (apply (stable_boto _ not_delete); [apply _|by unfold not_delete]). }
  intros r. destruct (H w) as [Hd He]. split; [done|].
  by eapply issued_extends.
Qed.

(** ** rds-glue-initial without a secret for the cluster *)

(** A step of a handler that reads its arguments only. *)
Ltac pure_step H :=
  apply stable_at_bind; [apply _|apply stable_stable_at; stable_auto|];
  intros ? ? H;
  first [apply check_missing_field_run in H as (-> & _)
        |apply lift_run in H as (H & ->)].

Lemma get_db_cluster_identifier_run c name w cl w' :
  rds_glue_provision._get_db_cluster_identifier name c w = (Ok cl, w') ->
  cl = VNone \/ cluster_of_secret c (calls w) name = Some cl.
Proof.
  unfold rds_glue_provision._get_db_cluster_identifier. intros H.
  apply bind_inv_Ok in H as (r & w1 & Hr & H).
  apply boto_run in Hr as (d & Hd & -> & ->).
  apply bind_inv_Ok in H as ([] & w1 & H1 & H).
  apply check_missing_field_run in H1 as (-> & _).
  apply bind_inv_Ok in H as (s & w1 & Hs & H).
  apply lift_run in Hs as (Hs & ->). apply subscript_field in Hs. simpl in Hs.
  apply bind_inv_Ok in H as (parsed & w1 & Hp & H).
  apply lift_run in Hp as (Hp & ->).
  unfold cluster_of_secret, get_secret_value_request. rewrite Hd, Hs.
  destruct s as [| | |s|doc| |]; simpl in Hp; simplify_eq.
  - unfold ret in H. simplify_eq. by left.
  - apply lift_run in H as (H & _).
    destruct doc as [| | | | | |dd]; simpl in H; simplify_eq. simpl.
    destruct (dict_lookup "dbClusterIdentifier" dd); simpl; [by right|by left].
Qed.

Lemma visit_secret_no_match c cid st secret w st' w' :
  no_secret_of c cid ->
  rds_glue_provision.visit_secret cid st secret c w = (Ok st', w') ->
  fst st' = fst st.
Proof.
  intros Hno H. unfold rds_glue_provision.visit_secret in H.
  apply bind_inv_Ok in H as ([] & w1 & _ & H).
  apply bind_inv_Ok in H as (n & w2 & _ & H).
  apply bind_inv_Ok in H as (cl & w3 & Hcl & H).
  apply get_db_cluster_identifier_run in Hcl as [->|Hcl].
  { unfold ret in H. by simplify_eq. }
  rewrite (Hno _ _ _ Hcl) in H.
  destruct cl; unfold ret in H; by simplify_eq.
Qed.

Lemma secret_loop_no_match c cid secrets st w st' w' :
  no_secret_of c cid ->
  for_acc secrets st (rds_glue_provision.visit_secret cid) c w = (Ok st', w') ->
  fst st' = fst st.
Proof.
  intros Hno. revert st w. induction secrets as [|s secrets IH]; intros st w H;
    simpl in H.
  - unfold ret in H. by simplify_eq.
  - apply bind_inv_Ok in H as (st1 & w1 & Hs & H).
    apply IH in H. rewrite H. by eapply visit_secret_no_match.
Qed.

Lemma fetch_secret_no_match c cid w secret w' :
  no_secret_of c cid ->
  rds_glue_provision._fetch_secret_for_db cid c w = (Ok secret, w') ->
  fst secret = VStr "".
Proof.
  intros Hno H. unfold rds_glue_provision._fetch_secret_for_db in H.
  do 5 (apply bind_inv_Ok in H as (? & ? & _ & H)).
  by apply (secret_loop_no_match _ _ _ _ _ _ _ Hno) in H.
Qed.

(** X4.  When no secret of the account is a secret of the cluster of the
    message (Secrets Manager never reports its identifier as the
    [dbClusterIdentifier] of a secret), rds-glue-initial stops after it
    has looked at the secrets: it has sent requests to Secrets Manager
    only (no connection, no schema query, no crawler), and no table has
    changed. *)
Theorem no_secret_no_provisioning (c : ctx) (body : value) (w : world) :
  (forall cid, field body "dBClusterIdentifier" = Some cid -> no_secret_of c cid) ->
  let r := rds_glue_provision.provision body c w in
  ddb (snd r) = ddb w /\
  Forall (fun rq => service rq = "secretsmanager") (issued w (snd r)).
Proof.
  intros Hno r.
  assert (stable_at c (only_calls (fun rq => service rq = "secretsmanager"))
            (rds_glue_provision.provision body) w) as H.
  { unfold rds_glue_provision.provision.
    pure_step H1. pure_step Hcid. apply subscript_field in Hcid.
    do 10 (pure_step H1; try clear H1).
    apply stable_at_bind; [apply _| |].
    { apply stable_stable_at.
      unfold rds_glue_provision._fetch_secret_for_db,
        rds_glue_provision.visit_secret,
        rds_glue_provision._get_db_cluster_identifier.
      stable_auto;
        (apply (stable_boto _ (fun rq => service rq = "secretsmanager"));
         [apply _|done]). }
    intros secret w1 Hs.
    rewrite (fetch_secret_no_match _ _ _ _ _ (Hno _ Hcid) Hs). simpl.
    apply stable_stable_at. stable_auto. }
  destruct H as [Hd He]. split; [done|]. by eapply issued_extends.
Qed.

(** ** The crawlers of rds-glue-initial *)

Lemma schema_loop c w recs acc :
  Forall is_record recs ->
  for_acc recs acc rds_glue_provision.schema_of c w
    = (Ok (acc ++ omap schema_of_record recs)%list, w).
Proof.
  intros Hrecs. revert acc.
  induction Hrecs as [|rec recs (fields & -> & Hf) _ IH]; intros acc.
  - simpl. by rewrite app_nil_r.
  - assert (rds_glue_provision.schema_of acc (VList fields) c w =
            (Ok (acc ++ from_option (fun s => [s]) [] (schema_of_record (VList fields)))%list, w))
      as Hstep.
    { unfold rds_glue_provision.schema_of, try_except, bind, lift, ret. simpl.
      destruct Hf as [|f fields (d & ->) _]; simpl.
      - by rewrite app_nil_r.
      - destruct (dict_lookup "stringValue" d); simpl; [done|].
        by rewrite app_nil_r. }
    cbn [for_acc]. rewrite (bind_Ok_run _ _ _ _ _ _ Hstep), IH.
    change (omap schema_of_record (VList fields :: recs))
      with (match schema_of_record (VList fields) with
            | Some y => y :: omap schema_of_record recs
            | None => omap schema_of_record recs
            end).
    destruct (schema_of_record (VList fields)); simpl.
    + by rewrite <- app_assoc.
    + by rewrite app_nil_r.
Qed.

Lemma for_requests {A} (body : A -> M unit) (rq : A -> call) c :
  (forall x w w', body x c w = (Ok tt, w') -> w' = log_call (rq x) w) ->
  forall l w w', for_ l body c w = (Ok tt, w') ->
    ddb w' = ddb w /\ issued w w' = map rq l.
Proof.
  intros Hbody l.
  assert (forall w w', for_ l body c w = (Ok tt, w') ->
            ddb w' = ddb w /\ calls w' = (calls w ++ map rq l)%list) as H.
  { induction l as [|x l IH]; intros w w' H; simpl in H.
    - unfold ret in H. simplify_eq. by rewrite app_nil_r.
    - apply bind_inv_Ok in H as ([] & w1 & Hx & H).
      apply Hbody in Hx. subst w1. apply IH in H as (Hd & Hc).
      split; [done|]. rewrite Hc. simpl. by rewrite <- app_assoc. }
  intros w w' Hrun. apply H in Hrun as (Hd & Hc). split; [done|].
  unfold issued. by rewrite Hc, drop_app_length.
Qed.

(** X5.  The schemas rds-glue-initial crawls are the string values of the
    first fields of the records of its schema query: a record with no
    field, or whose first field is not a string value, is skipped.  When
    the loop over the schemas ends normally it has sent one
    [create_crawler] request per schema, in order, each with the path
    [postgres/<schema>/%], and no table has changed. *)
Theorem one_crawler_per_schema (c : ctx) (recs : list value)
    (cluster_id catalog_db_name crawler_role : value) (connection_name : string)
    (w w' : world) :
  Forall is_record recs ->
  let schemas := omap schema_of_record recs in
  for_acc recs [] rds_glue_provision.schema_of c w = (Ok schemas, w) /\
  (for_ schemas
     (rds_glue_provision.create_crawler cluster_id catalog_db_name crawler_role
        connection_name) c w = (Ok tt, w') ->
   ddb w' = ddb w /\
   issued w w' =
     map (rds_glue_provision.crawler_request cluster_id catalog_db_name
            crawler_role connection_name) schemas).
Proof.
  intros Hrecs schemas. split.
  - by rewrite schema_loop.
  - apply for_requests. intros x w0 w1 H.
    unfold rds_glue_provision.create_crawler in H.
    apply bind_inv_Ok in H as (r & w2 & Hr & H).
    apply boto_run in Hr as (d & _ & -> & ->).
    by apply check_response_run in H as (-> & _).
Qed.

(** ** The DDL lambdas *)

Lemma pretty_N_go_nonempty x s : s <> "" -> pretty_N_go x s <> "".
Proof.
  revert s. induction (N.lt_wf_0 x) as [x _ IH]; intros s Hs.
  destruct (decide (x = 0%N)) as [->|Hx].
  - by rewrite pretty_N_go_0.
  - rewrite pretty_N_go_step by lia. apply IH; [|done].
    apply N.div_lt; lia.
Qed.

Lemma json_dumps_nonempty v : json_dumps v <> "".
Proof.
  destruct v as [|[]|n| | | |]; try done.
  simpl. unfold pretty, pretty_Z. destruct n as [|p|p]; [done| |done].
  unfold pretty, pretty_positive, pretty, pretty_N.
  rewrite decide_False by done. rewrite pretty_N_go_step by lia.
  by apply pretty_N_go_nonempty.
Qed.

Lemma truthy_first_item v : truthy v = true -> first_item v <> Raise IndexError.
Proof.
  destruct v as [| | |s|j|l|d]; try done.
  - by destruct s.
  - intros _. simpl. pose proof (json_dumps_nonempty j).
    by destruct (json_dumps j).
  - by destruct l.
Qed.

Lemma get_truthy_subscript d k v :
  get d k = Ok v -> truthy v = true -> subscript d k = Ok v.
Proof.
  unfold get, get_default, subscript. destruct d; try done.
  destruct (dict_lookup k d); simpl; [congruence|]. by intros [= <-].
Qed.

Lemma check_missing_field_raise c d k w e w' :
  _check_missing_field d k c w = (Raise e, w') ->
  e = MalformedEvent \/ e = AttributeError.
Proof.
  unfold _check_missing_field, bind, lift, get, get_default, ret, raise.
  destruct d; try (intros [= <- _]; by right).
  destruct (truthy _); [done|]. intros [= <- _]. by left.
Qed.

Lemma described_cluster_arn_truthy c resp v :
  get resp "DBClusters" = Ok v -> truthy v = true ->
  returns c (rds_ddl_change.described_cluster_arn resp)
    (fun arn => truthy arn = true).
Proof.
  intros Hv Htr w arn.
  unfold rds_ddl_change.described_cluster_arn, try_except, bind, lift.
  rewrite (get_truthy_subscript _ _ _ Hv Htr).
  pose proof (truthy_first_item v Htr) as Hfi.
  destruct (first_item v) as [cd|e]; [|destruct e; try done; by destruct Hfi].
  destruct (_check_missing_field cd "DBClusterArn" c w) as [[[]|e] w1] eqn:Hc;
    [|by apply check_missing_field_raise in Hc as [->| ->]].
  apply check_missing_field_run in Hc as (-> & a & Ha & Hta).
  rewrite (get_truthy_subscript _ _ _ Ha Hta). simpl. by intros [= <-].
Qed.

Lemma stable_for_flow c R `{!PreOrder R} {A S} (l : list A) (s : S)
    (body : S -> A -> M (flow S)) :
  (forall s x, stable c R (body s x)) -> stable c R (for_flow l s body).
Proof.
  intros Hb. revert s. induction l as [|x l IH]; intros s; simpl.
  - by apply stable_ret.
  - apply stable_bind; [done|done|]. intros [s'|s'] w _; [done|by apply stable_ret].
Qed.

Ltac stable_flow :=
  repeat first
    [ handler_case
    | stable_step
    | lazymatch goal with
      | |- stable _ _ (for_flow _ _ _) =>
          apply stable_for_flow; [ | intros ? ? ]
      end ].

(** The requests left over are all allowed by [okc]. *)
Ltac requests_ok okc :=
  try (apply (stable_boto _ okc); [apply _|by unfold okc]).

Lemma stable_ddl_source_file c okc R `{!Quiet okc R} :
  stable c R rds_ddl.ddl_source_file.
Proof. unfold rds_ddl.ddl_source_file. stable_auto. Qed.

(** X6.  rds-ddl-change never asks STS for the account: when the handler
    gets past its check of [DBClusters], the ARN it took from the
    description of the cluster is not empty, so the ARN is never made up
    from the region and the account.  The handler writes no table. *)
Theorem ddl_change_never_infers_the_arn (c : ctx) (w : world) :
  let r := rds_ddl_change.lambda_handler c w in
  ddb (snd r) = ddb w /\ Forall not_sts (issued w (snd r)).
Proof.
  assert (stable c (only_calls not_sts) rds_ddl_change.lambda_handler) as H.
  { unfold rds_ddl_change.lambda_handler.
    apply stable_bind; [apply _|apply (stable_ddl_source_file c not_sts); apply _|].
    intros file w0 _.
    apply stable_bind; [apply _|stable_auto|]. intros bucket w1 _.
    destruct (negb (truthy bucket)); [stable_auto|].
    apply stable_bind; [apply _|stable_auto|]. intros db w2 _.
    destruct (negb (truthy db)); [stable_auto|].
    apply stable_bind; [apply _|apply (stable_boto _ not_sts); [apply _|done]|].
    intros resp w3 _.
    apply stable_bind; [apply _|stable_auto|]. intros [] w4 _.
    apply stable_bind; [apply _|stable_auto|]. intros [] w5 Hchk.
    destruct (_check_missing_field resp "DBClusters" c w5) as [r5 w5'] eqn:E.
    simpl in Hchk. subst r5.
    apply check_missing_field_run in E as (_ & v & Hv & Htr).
    apply stable_bind; [apply _| |].
    { unfold rds_ddl_change.described_cluster_arn. stable_auto. }
    intros arn w6 Harn.
    apply (described_cluster_arn_truthy c resp v Hv Htr) in Harn.
    rewrite Harn. simpl.
    apply stable_bind; [apply _|stable_auto|]. intros arn' w7 Harn'.
    simpl in Harn'. injection Harn' as <-. rewrite Harn. simpl.
    unfold rds_ddl._fetch_secret_for_db, rds_ddl.run_ddl, rds_ddl.visit_secret,
      rds_ddl.get_db_cluster_id_from_secret_name,
      rds_ddl._get_ddl_source_file_contents, rds_ddl.run_statement,
      rds_ddl._execute_sql.
    stable_flow; requests_ok not_sts. }
  intros r. destruct (H w) as [Hd He]. split; [done|].
  by eapply issued_extends.
Qed.

Lemma pure_run c {A} (m : M A) w a w' :
  stable c eq m -> m c w = (Ok a, w') -> w' = w.
Proof. intros Hm H. symmetry. by eapply (stable_snd c eq), H. Qed.

Lemma ddl_visit_secret_run c cid st secret w f w' :
  rds_ddl.visit_secret cid st secret c w = (Ok f, w') ->
  f = Next st \/
  exists arn name,
    f = Break arn /\ truthy arn = true /\
    field secret "Name" = Some name /\ field secret "ARN" = Some arn /\
    calls w' = (calls w ++ [get_secret_value_request name])%list.
Proof.
  unfold rds_ddl.visit_secret. intros H.
  apply bind_inv_Ok in H as ([] & w1 & H1 & H).
  apply check_missing_field_run in H1 as (-> & _).
  apply bind_inv_Ok in H as (name & w1 & Hn & H).
  apply lift_run in Hn as (Hn & ->). apply subscript_field in Hn.
  apply bind_inv_Ok in H as (cl & w1 & Hcl & H).
  assert (calls w1 = (calls w ++ [get_secret_value_request name])%list) as Hc.
  { unfold rds_ddl.get_db_cluster_id_from_secret_name in Hcl.
    apply bind_inv_Ok in Hcl as (r & w2 & Hr & Hcl).
    apply boto_run in Hr as (d & _ & -> & ->).
    apply pure_run in Hcl; [by subst w1|]. stable_auto;
      apply pure__check_missing_field. }
  destruct (negb (truthy cl)); [unfold ret in H; simplify_eq; by left|].
  destruct (py_equal cl cid); [|unfold ret in H; simplify_eq; by left].
  apply bind_inv_Ok in H as ([] & w2 & H2 & H).
  apply check_missing_field_run in H2 as (-> & a & Ha & Hta).
  apply bind_inv_Ok in H as (arn & w2 & Harn & H).
  apply lift_run in Harn as (Harn & ->).
  rewrite (get_truthy_subscript _ _ _ Ha Hta) in Harn. injection Harn as <-.
  unfold ret in H. simplify_eq. right. exists a, name.
  repeat split; try done. by apply subscript_field, get_truthy_subscript.
Qed.

Lemma ddl_secret_loop c cid secrets st w arn w' :
  for_flow secrets st (rds_ddl.visit_secret cid) c w = (Ok arn, w') ->
  arn = st \/
  exists secret name,
    secret ∈ secrets /\ truthy arn = true /\
    field secret "Name" = Some name /\ field secret "ARN" = Some arn /\
    last (calls w') = Some (get_secret_value_request name).
Proof.
  revert w. induction secrets as [|s secrets IH]; intros w H; simpl in H.
  - unfold ret in H. simplify_eq. by left.
  - apply bind_inv_Ok in H as (f & w1 & Hs & H).
    apply ddl_visit_secret_run in Hs as [->|(a & name & -> & Hta & Hn & Ha & Hc)].
    + apply IH in H as [->|(s' & name & Hin & ?)]; [by left|].
      right. exists s', name. split; [by right|done].
    + unfold ret in H. simplify_eq. right. exists s, name.
      split; [by left|]. repeat split; try done. rewrite Hc. apply last_snoc.
Qed.

(** X7.  [_fetch_secret_for_db] of the two DDL lambdas stops at the first
    secret of the cluster: when it returns an ARN, the ARN is that of a
    listed secret and the last request sent asked for the value of that
    very secret; otherwise it returns the empty text. *)
Theorem secret_lookup_stops_at_the_match (c : ctx) (cid : value) (w w' : world)
    (resp : dict) (secrets : list value) (arn : value) :
  aws c (calls w) (Call "secretsmanager" "list_secrets" []) = Ok resp ->
  dict_lookup "SecretList" resp = Some (VList secrets) ->
  rds_ddl._fetch_secret_for_db cid c w = (Ok arn, w') ->
  ddb w' = ddb w /\
  (arn = VStr "" \/
   exists secret name,
     secret ∈ secrets /\ truthy arn = true /\
     field secret "Name" = Some name /\ field secret "ARN" = Some arn /\
     last (calls w') = Some (get_secret_value_request name)).
Proof.
  intros Haws Hlist H. split.
  { assert (stable c (only_calls any_call) (rds_ddl._fetch_secret_for_db cid))
      as Hst.
    { unfold rds_ddl._fetch_secret_for_db, rds_ddl.visit_secret,
        rds_ddl.get_db_cluster_id_from_secret_name.
      stable_flow. }
    by destruct (stable_snd _ _ _ _ _ _ Hst H). }
  unfold rds_ddl._fetch_secret_for_db in H.
  apply bind_inv_Ok in H as (r & w1 & Hr & H).
  apply boto_run in Hr as (d & Hd & -> & ->). rewrite Haws in Hd. injection Hd as <-.
  apply bind_inv_Ok in H as ([] & w1 & H1 & H).
  apply check_response_run in H1 as (-> & _).
  apply bind_inv_Ok in H as ([] & w1 & H1 & H).
  apply check_missing_field_run in H1 as (-> & _).
  apply bind_inv_Ok in H as (sl & w1 & H1 & H).
  apply lift_run in H1 as (Hsl & ->). simpl in Hsl. rewrite Hlist in Hsl.
  injection Hsl as <-.
  apply bind_inv_Ok in H as (l & w1 & H1 & H).
  apply lift_run in H1 as (Hl & ->). simpl in Hl. injection Hl as <-.
  by apply ddl_secret_loop in H.
Qed.

(** ** The statements of the DDL file *)

Lemma for_requests_opt {A} (body : A -> M unit) (rq : A -> option call) c :
  (forall x w w', body x c w = (Ok tt, w') ->
     w' = match rq x with Some r => log_call r w | None => w end) ->
  forall l w w', for_ l body c w = (Ok tt, w') ->
    ddb w' = ddb w /\ calls w' = (calls w ++ omap rq l)%list.
Proof.
  intros Hbody l. induction l as [|x l IH]; intros w w' H; simpl in H.
  - unfold ret in H. simplify_eq. by rewrite app_nil_r.
  - apply bind_inv_Ok in H as ([] & w1 & Hx & H).
    apply Hbody in Hx. apply IH in H as (Hd & Hc). subst w1.
    change (omap rq (x :: l))
      with (match rq x with Some y => y :: omap rq l | None => omap rq l end).
    destruct (rq x); simpl in *; [|done].
    split; [done|]. by rewrite Hc, <- app_assoc.
Qed.

Lemma omap_statements {B} (f : string -> B) (l : list string) :
  omap (fun s => let e := strip rds_ddl.whitespace s in
                 if negb (String.eqb e "") then Some (f e) else None) l =
  map f (List.filter (fun s => negb (String.eqb s ""))
           (map (strip rds_ddl.whitespace) l)).
Proof.
  induction l as [|s l IH]; [done|].
  change (omap ?g (s :: l))
    with (match g s with Some y => y :: omap g l | None => omap g l end).
  cbn beta zeta. cbn [map List.filter].
  destruct (negb (String.eqb (strip rds_ddl.whitespace s) "")); cbn [map];
    [f_equal|]; exact IH.
Qed.

(** X8.  Both DDL lambdas cut the file at the semicolons, strip blanks,
    newlines and tabs around each piece and skip the pieces left empty:
    when the run ends normally, the requests sent are the download of the
    file followed by one [execute_statement] per statement, in the order
    of the file; no statement sent is empty, and no table has changed. *)
Theorem ddl_file_statements (c : ctx) (bucket file secret_arn db_name
    cluster_arn : value) (w w' : world) (resp : dict) (text : string) :
  aws c (calls w) (Call "s3" "get_object" [("Bucket", bucket); ("Key", file)])
    = Ok resp ->
  dict_lookup "Body" resp = Some (rds_ddl.streaming_body text) ->
  rds_ddl.run_ddl bucket file secret_arn db_name cluster_arn c w = (Ok tt, w') ->
  ddb w' = ddb w /\
  issued w w' =
    Call "s3" "get_object" [("Bucket", bucket); ("Key", file)]
    :: map (rds_ddl.execute_sql_request secret_arn db_name cluster_arn)
         (statements text) /\
  Forall (fun s => s <> "") (statements text).
Proof.
  intros Haws Hbody H. unfold rds_ddl.run_ddl in H.
  apply bind_inv_Ok in H as (content & w1 & Hc & H).
  unfold rds_ddl._get_ddl_source_file_contents in Hc.
  apply bind_inv_Ok in Hc as (r & w2 & Hr & Hc).
  apply boto_run in Hr as (d & Hd & -> & ->). rewrite Haws in Hd. injection Hd as <-.
  apply bind_inv_Ok in Hc as ([] & w2 & H2 & Hc).
  apply check_response_run in H2 as (-> & _).
  apply bind_inv_Ok in Hc as ([] & w2 & H2 & Hc).
  apply check_missing_field_run in H2 as (-> & _).
  apply bind_inv_Ok in Hc as (b & w2 & H2 & Hc).
  apply lift_run in H2 as (Hb & ->). simpl in Hb. rewrite Hbody in Hb.
  injection Hb as <-. apply lift_run in Hc as (Hc & ->). simpl in Hc.
  injection Hc as <-.
  apply (for_requests_opt _
           (fun s => let e := strip rds_ddl.whitespace s in
                     if negb (String.eqb e "")
                     then Some (rds_ddl.execute_sql_request secret_arn db_name
                                  cluster_arn e)
                     else None)) in H as (Hd & Hcalls).
  - split; [done|]. split.
    + unfold issued. rewrite Hcalls. simpl.
      rewrite <- app_assoc, drop_app_length. simpl. f_equal.
      apply (omap_statements
               (rds_ddl.execute_sql_request secret_arn db_name cluster_arn)).
    + unfold statements. apply Forall_forall. intros s Hs.
      apply list_elem_of_In, List.filter_In in Hs as [_ Hs]. intros ->. done.
  - intros s w0 w1 Hs. unfold rds_ddl.run_statement in Hs. simpl.
    destruct (negb (String.eqb _ "")); [|unfold ret in Hs; by simplify_eq].
    unfold rds_ddl._execute_sql in Hs.
    apply bind_inv_Ok in Hs as (r & w2 & Hr & Hs).
    apply boto_run in Hr as (d & _ & -> & ->).
    apply pure_run in Hs; [by subst|]. stable_auto.
Qed.

(** ** The queue helpers of rds-ddl-init *)

Lemma ddl_init_body_agrees c w event :
  rds_ddl_init._get_message_body event c w = _get_message_body event c w.
Proof.
  unfold rds_ddl_init._get_message_body, _get_message_body,
    _check_missing_field, bind, lift, ret, raise, try_except.
  destruct event; try done. simpl.
  destruct (str_lower _) as [t|]; [|done].
  destruct (String.eqb t "true"); [done|].
  destruct (dict_lookup "Records" d) as [v|]; simpl; [|done].
  by destruct (truthy v).
Qed.

Lemma ddl_init_attributes_agree c w event :
  rds_ddl_init._get_sqs_message_attributes event c w
    = _get_sqs_message_attributes event c w.
Proof.
  unfold rds_ddl_init._get_sqs_message_attributes,
    _get_sqs_message_attributes, _check_missing_field, bind, lift, ret,
    raise, try_except.
  destruct (get event "Records") as [records|]; [|done].
  destruct (negb (truthy records)); [done|].
  destruct (first_item records) as [first|e]; [|by destruct e].
  destruct first; try done. simpl.
  destruct (dict_lookup "receiptHandle" d) as [rh|],
    (dict_lookup "messageId" d) as [mid|]; simpl;
    repeat case_match; simplify_eq; done.
Qed.

(** X9.  rds-ddl-init has its own text of the two helpers that read a
    queue delivery (they go through [_check_missing_field] where the
    others test the fields themselves): on every event they return or
    raise the same as the helpers of the other consumers. *)
Theorem ddl_init_queue_helpers_agree (c : ctx) (w : world) (event : value) :
  rds_ddl_init._get_message_body event c w = _get_message_body event c w /\
  rds_ddl_init._get_sqs_message_attributes event c w
    = _get_sqs_message_attributes event c w.
Proof. split; [apply ddl_init_body_agrees|apply ddl_init_attributes_agree]. Qed.

(** ** The comments pii-report writes on the columns *)

Lemma str_take_length n s : (String.length (str_take n s) <= n)%nat.
Proof.
  revert s. induction n as [|n IH]; intros [|a s]; simpl; try lia.
  specialize (IH s). lia.
Qed.

Lemma comment_length types : (String.length (pii_report.comment_of types) <= 255)%nat.
Proof.
  unfold pii_report.comment_of.
  destruct (Nat.ltb 255 _) eqn:E.
  - apply str_take_length.
  - by apply Nat.ltb_ge in E.
Qed.

Lemma lower_ascii_idemp a : lower_ascii (lower_ascii a) = lower_ascii a.
Proof.
  unfold lower_ascii.
  destruct (Nat.leb 65 (nat_of_ascii a) && Nat.leb (nat_of_ascii a) 90) eqn:E;
    [|by rewrite E].
  apply andb_prop in E as [E1 E2].
  apply Nat.leb_le in E1, E2.
  rewrite nat_ascii_embedding by lia.
  destruct (Nat.leb 65 (nat_of_ascii a + 32) && Nat.leb (nat_of_ascii a + 32) 90)
    eqn:E'; [|done].
  apply andb_prop in E' as [_ E']. apply Nat.leb_le in E'. lia.
Qed.

Lemma lower_idemp s : lower (lower s) = lower s.
Proof. induction s as [|a s IH]; simpl; [done|]. by rewrite lower_ascii_idemp, IH. Qed.

Lemma dict_set_lower_keys k v d :
  lower k = k -> lower_keys d -> lower_keys (dict_set k v d).
Proof.
  intros Hk. induction 1 as [|[k' v'] d Hkv Hd IH]; simpl.
  - by repeat constructor.
  - destruct (String.eqb k k'); by constructor.
Qed.

Lemma note_column_loop c columns acc w pii w' :
  lower_keys acc ->
  for_acc columns acc pii_report.note_column c w = (Ok pii, w') ->
  w' = w /\ lower_keys pii.
Proof.
  revert acc w. induction columns as [|col columns IH]; intros acc w Hacc H;
    simpl in H.
  - unfold ret in H. by simplify_eq.
  - apply bind_inv_Ok in H as (acc' & w1 & Hcol & H).
    unfold pii_report.note_column in Hcol. inv_run.
    eapply IH; [|exact H]. apply dict_set_lower_keys; [|done].
    match goal with
    | Hl : str_lower _ = Ok _ |- _ =>
        unfold str_lower in Hl; destruct (str_of _); simplify_eq
    end.
    apply lower_idemp.
Qed.

Lemma lookup_lower_keys k v d :
  lower_keys d -> dict_lookup k d = Some v -> lower k = k.
Proof.
  induction 1 as [|[k' v'] d Hkv Hd IH]; simpl; [done|].
  destruct (String.eqb k k') eqn:E; [|done].
  apply String.eqb_eq in E. by subst.
Qed.

Lemma annotate_loop c pii cols acc w cols' w' :
  lower_keys pii ->
  for_acc cols acc (pii_report.annotate pii) c w = (Ok cols', w') ->
  w' = w /\ exists new, cols' = (acc ++ new)%list /\ Forall2 annotated cols new.
Proof.
  intros Hpii. revert acc w.
  induction cols as [|col cols IH]; intros acc w H; simpl in H.
  - unfold ret in H. simplify_eq. split; [done|]. exists [].
    by rewrite app_nil_r.
  - apply bind_inv_Ok in H as (acc' & w1 & Hcol & H).
    apply IH in H as (-> & new & -> & Hnew).
    unfold pii_report.annotate in Hcol.
    apply bind_inv_Ok in Hcol as (name & w2 & Hname & Hcol).
    apply lift_run in Hname as (Hname & ->). apply subscript_field in Hname.
    apply bind_inv_Ok in Hcol as (col' & w2 & Hcol' & Hcol).
    unfold ret in Hcol. injection Hcol as <- <-.
    assert (w2 = w /\ annotated col col') as (-> & Hann).
    { destruct (str_of name ≫= _) as [types|] eqn:E.
      - apply lift_run in Hcol' as (Hcol' & ->). split; [done|].
        destruct col as [| | | | | |d]; try done. simpl in Hcol'.
        injection Hcol' as <-. simpl in Hname. split.
        + simpl. by rewrite dict_lookup_set_ne.
        + right. destruct (str_of name) as [s|] eqn:Es; [|done]. simpl in E.
          exists d, s, (pii_report.comment_of types).
          split; [done|]. split; [done|]. split; [by simpl; rewrite Hname|].
          split; [by eapply lookup_lower_keys|apply comment_length].
      - unfold ret in Hcol'. simplify_eq. split; [done|]. split; [done|by left]. }
    split; [done|]. exists (col' :: new). split.
    + by rewrite <- app_assoc.
    + by constructor.
Qed.

(** X10.  In [update_catalog_table] of pii-report the columns sent back to
    the catalog are the columns of the table, one for one and under the
    same names; a column is either as it was or has gained a [Comment] of
    at most 255 characters, and then its name is in lower case (the names
    of the sensitive columns are lower-cased, those of the catalog are
    not).  Neither loop sends a request. *)
Theorem pii_comments (c : ctx) (columns cols cols' : list value) (pii : dict)
    (w w1 w2 : world) :
  for_acc columns [] pii_report.note_column c w = (Ok pii, w1) ->
  for_acc cols [] (pii_report.annotate pii) c w1 = (Ok cols', w2) ->
  w2 = w /\ Forall2 annotated cols cols'.
Proof.
  intros Hpii Hcols.
  apply note_column_loop in Hpii as (-> & Hlow); [|constructor].
  apply annotate_loop in Hcols as (-> & new & -> & Hnew); done.
Qed.

(** ** The latest timestamp of a catalog table *)

Lemma py_equal_class a b :
  pii_report.hashable a = true -> pii_report.hashable b = true ->
  py_equal a b = true <-> key_class a = key_class b.
Proof.
  destruct a as [|x|n|s|j| |], b as [|y|m|t|k| |]; simpl; try done;
    intros _ _; unfold eq_str; simpl;
    rewrite ?Z.eqb_eq, ?String.eqb_eq; split; congruence.
Qed.

Lemma py_equal_refl a : pii_report.hashable a = true -> py_equal a a = true.
Proof. intros H. by apply py_equal_class. Qed.

Lemma py_equal_same a b k :
  pii_report.hashable a = true -> pii_report.hashable b = true ->
  pii_report.hashable k = true ->
  py_equal a b = true -> py_equal k a = py_equal k b.
Proof.
  intros Ha Hb Hk Hab. apply py_equal_class in Hab; [|done..].
  destruct (py_equal k a) eqn:E1, (py_equal k b) eqn:E2; try done.
  - apply py_equal_class in E1; [|done..].
    assert (py_equal k b = true) by (apply py_equal_class; congruence).
    congruence.
  - apply py_equal_class in E2; [|done..].
    assert (py_equal k a = true) by (apply py_equal_class; congruence).
    congruence.
Qed.

Lemma find_key_app k d k0 x :
  pii_report.find_key k (d ++ [(k0, x)]) =
    match pii_report.find_key k d with
    | Some e => Some e
    | None => if py_equal k k0 then Some x else None
    end.
Proof.
  induction d as [|[k1 x1] d IH]; simpl; [done|].
  by destruct (py_equal k k1).
Qed.

Lemma find_key_same a b d :
  hashable_keys d ->
  pii_report.hashable a = true -> pii_report.hashable b = true ->
  py_equal a b = true -> pii_report.find_key a d = pii_report.find_key b d.
Proof.
  intros Hd Ha Hb Hab. induction Hd as [|[k1 x1] d Hk1 _ IH]; simpl; [done|].
  simpl in Hk1.
  assert (py_equal a k1 = py_equal b k1) as ->; [|by rewrite IH].
  destruct (py_equal a k1) eqn:E1, (py_equal b k1) eqn:E2; try done.
  - apply py_equal_class in E1, Hab; [|done..].
    assert (py_equal b k1 = true) by (apply py_equal_class; congruence).
    congruence.
  - apply py_equal_class in E2, Hab; [|done..].
    assert (py_equal a k1 = true) by (apply py_equal_class; congruence).
    congruence.
Qed.

Lemma find_key_set_key k k0 x d :
  hashable_keys d ->
  pii_report.hashable k = true -> pii_report.hashable k0 = true ->
  is_Some (pii_report.find_key k0 d) ->
  pii_report.find_key k (pii_report.set_key k0 x d) =
    if py_equal k k0 then Some x else pii_report.find_key k d.
Proof.
  intros Hd Hk Hk0. induction Hd as [|[k1 x1] d Hk1 Hd IH]; simpl.
  { by intros [? ?]. }
  simpl in Hk1. intros Hsome.
  destruct (py_equal k0 k1) eqn:E01; simpl.
  - rewrite (py_equal_same k0 k1 k) by done. by destruct (py_equal k k1).
  - rewrite IH by done.
    destruct (py_equal k k1) eqn:E1, (py_equal k k0) eqn:E0; try done.
    apply py_equal_class in E1, E0; [|done..].
    assert (py_equal k0 k1 = true) by (apply py_equal_class; congruence).
    congruence.
Qed.

Lemma elem_of_set_key k e k0 x d :
  (k, e) ∈ pii_report.set_key k0 x d ->
  (k, e) ∈ d \/ (e = x /\ (k = k0 \/ py_equal k0 k = true)).
Proof.
  induction d as [|[k1 x1] d IH]; simpl.
  - intros H. apply list_elem_of_singleton in H. simplify_eq. right. auto.
  - destruct (py_equal k0 k1) eqn:E.
    + intros H. apply elem_of_cons in H as [H|H].
      * simplify_eq. right. auto.
      * left. by right.
    + intros H. apply elem_of_cons in H as [H|H].
      * simplify_eq. left. by left.
      * apply IH in H as [H|H]; [left; by right|by right].
Qed.

Lemma hashable_set_key k0 x d :
  pii_report.hashable k0 = true -> hashable_keys d ->
  hashable_keys (pii_report.set_key k0 x d).
Proof.
  intros Hk0. induction 1 as [|[k1 x1] d Hk1 Hd IH]; simpl.
  - by repeat constructor.
  - destruct (py_equal k0 k1); by constructor.
Qed.

Section latest.
Context (strptime : string -> option Z) (c : ctx).

Lemma note_record_run seen d rec w d' w' :
  latest_of strptime seen d ->
  pii_report.note_record strptime d rec c w = (Ok d', w') ->
  w' = w /\ latest_of strptime (fun r => seen r \/ r = rec) d'.
Proof.
  intros (Hhash & Hmax & Hfrom) H. unfold pii_report.note_record in H.
  apply bind_inv_Ok in H as (k & w1 & Hk & H).
  apply lift_run in Hk as (Hk & ->). apply subscript_field in Hk.
  apply bind_inv_Ok in H as (ts & w1 & Hts & H).
  apply lift_run in Hts as (Hts & ->). apply subscript_field in Hts.
  apply bind_inv_Ok in H as (t & w1 & Ht & H).
  apply lift_run in Ht as (Ht & ->).
  assert (instant_of strptime rec = Some t) as Hinst.
  { unfold instant_of. rewrite Hts. simpl.
    destruct (str_of ts) as [s|]; [|done]. simpl.
    by destruct (strptime s); simplify_eq. }
  destruct (pii_report.hashable k) eqn:Hhk; simpl in H; [|done].
  assert (py_equal k k = true) as Hrefl by by apply py_equal_refl.
  destruct (pii_report.find_key k d) as [e0|] eqn:Hfind.
  - destruct (Z.ltb (pii_report.timestamp e0) t) eqn:Hlt;
      unfold ret in H; injection H as <- <-; (split; [done|]).
    + apply Z.ltb_lt in Hlt.
      set (x := pii_report.Latest (pii_report.catalog_database_name e0) t ts).
      split; [by apply hashable_set_key|]. split.
      * intros r [Hr| ->].
        -- destruct (Hmax r Hr) as (k' & t' & e' & Hk' & Ht' & Hh' & He' & Hle).
           exists k', t'. rewrite find_key_set_key by done.
           destruct (py_equal k' k) eqn:E.
           ++ exists x. repeat split; try done.
              rewrite (find_key_same k' k) in He' by done.
              simplify_eq. simpl. lia.
           ++ by exists e'.
        -- exists k, t, x. rewrite find_key_set_key, Hrefl by done.
           repeat split; try done; simpl; lia.
      * intros k1 e Hin. apply elem_of_set_key in Hin as [Hin|(-> & Hk1)].
        -- destruct (Hfrom _ _ Hin) as (r & k' & ? & ? & ? & ? & ?).
           exists r, k'. auto.
        -- exists rec, k. repeat split; try done; [by right|].
           by destruct Hk1 as [->|?].
    + apply Z.ltb_ge in Hlt. split; [done|]. split.
      * intros r [Hr| ->].
        -- destruct (Hmax r Hr) as (k' & t' & e' & ?). by exists k', t', e'.
        -- by exists k, t, e0.
      * intros k1 e Hin.
        destruct (Hfrom _ _ Hin) as (r & k' & ? & ? & ? & ? & ?).
        exists r, k'. auto.
  - apply bind_inv_Ok in H as (db & w1 & Hdb & H).
    apply lift_run in Hdb as (Hdb & ->). unfold ret in H. injection H as <- <-.
    split; [done|]. split; [|split].
    + apply Forall_app. split; [done|]. by repeat constructor.
    + intros r [Hr| ->].
      * destruct (Hmax r Hr) as (k' & t' & e' & Hk' & Ht' & Hh' & He' & Hle).
        exists k', t', e'. rewrite find_key_app, He'. done.
      * exists k, t, (pii_report.Latest db t ts).
        rewrite find_key_app, Hfind, Hrefl. repeat split; try done; simpl; lia.
    + intros k1 e Hin. apply elem_of_app in Hin as [Hin|Hin].
      * destruct (Hfrom _ _ Hin) as (r & k' & ? & ? & ? & ? & ?).
        exists r, k'. auto.
      * apply list_elem_of_singleton in Hin. simplify_eq.
        exists rec, k. repeat split; try done. by right.
Qed.

Lemma note_record_loop recs seen d w d' w' :
  latest_of strptime seen d ->
  for_acc recs d (pii_report.note_record strptime) c w = (Ok d', w') ->
  w' = w /\ latest_of strptime (fun r => seen r \/ r ∈ recs) d'.
Proof.
  revert seen d w. induction recs as [|rec recs IH]; intros seen d w Hd H;
    simpl in H.
  - unfold ret in H. simplify_eq. split; [done|].
    destruct Hd as (H0 & H1 & H2). split; [done|]. split.
    + intros r [Hr|Hr]; [by apply H1|by apply elem_of_nil in Hr].
    + intros k e Hin. destruct (H2 _ _ Hin) as (r & k' & ? & ?).
      exists r, k'. auto.
  - apply bind_inv_Ok in H as (d1 & w1 & Hrec & H).
    apply (note_record_run seen) in Hrec as (-> & Hd1); [|done].
    apply (IH (fun r => seen r \/ r = rec)) in H as (-> & (H0 & H1 & H2));
      [|exact Hd1].
    split; [done|]. split; [done|]. split.
    + intros r [Hr|Hr]; [apply H1; auto|].
      apply elem_of_cons in Hr as [->|Hr]; apply H1; auto.
    + intros k e Hin. destruct (H2 _ _ Hin) as (r & k' & Hr & ?).
      exists r, k'. split; [|done].
      destruct Hr as [[Hr| ->]|Hr]; [by left|right; by left|right; by right].
Qed.

End latest.

(** X11.  The loop of pii-report that goes through the records of the PII
    output table keeps, for each catalog table, the record with the latest
    timestamp: when the loop ends, every record has an entry under its
    catalog table whose instant is not before the record's, and the
    timestamp text and the instant of every entry are those of one record
    of that table.  The loop sends no request. *)
Theorem latest_timestamp_per_table (strptime : string -> option Z) (c : ctx)
    (recs : list value) (w w' : world) (d : list (value * pii_report.latest)) :
  for_acc recs [] (pii_report.note_record strptime) c w = (Ok d, w') ->
  w' = w /\
  (forall rec, rec ∈ recs ->
     exists k t e,
       table_of rec = Some k /\ instant_of strptime rec = Some t /\
       pii_report.find_key k d = Some e /\ t <= pii_report.timestamp e) /\
  (forall k e, (k, e) ∈ d ->
     exists rec k',
       rec ∈ recs /\ table_of rec = Some k' /\ py_equal k' k = true /\
       field rec "timestamp" = Some (pii_report.time_str e) /\
       instant_of strptime rec = Some (pii_report.timestamp e)).
Proof.
  intros H.
  apply (note_record_loop strptime c recs (fun _ => False)) in H
    as (-> & (_ & H1 & H2)).
  - split; [done|]. split.
    + intros rec Hrec. destruct (H1 rec) as (k & t & e & ? & ? & _ & ? & ?); [by right|].
      by exists k, t, e.
    + intros k e Hin. destruct (H2 _ _ Hin) as (r & k' & [[]|Hr] & ?).
      by exists r, k'.
  - split; [constructor|]. split; [done|]. intros k e Hin.
    by apply elem_of_nil in Hin.
Qed.

(** ** The properties pii-report deletes from the table *)

Lemma check_response_pass c w resp :
  status_200 resp -> check_response (VDict resp) c w = (Ok tt, w).
Proof.
  intros (md & Hmd & Hst).
  unfold check_response, _validate_field, _check_missing_field, bind, lift, ret,
    raise. simpl. rewrite Hmd. simpl.
  rewrite Hst. by destruct md.
Qed.

Lemma dict_del_None k d : dict_lookup k d = None -> dict_del k d = None.
Proof.
  induction d as [|[k' v] d IH]; simpl; [done|].
  destruct (String.eqb k k'); [done|]. intros H. by rewrite IH.
Qed.

Lemma dict_del_lookup_None k k' d d' :
  dict_del k d = Some d' -> dict_lookup k' d = None -> dict_lookup k' d' = None.
Proof.
  revert d'. induction d as [|[k0 v] d IH]; intros d'; simpl; [done|].
  destruct (String.eqb k k0).
  - intros [= <-]. by destruct (String.eqb k' k0).
  - destruct (dict_del k d) as [r|]; [|done]. intros [= <-]. simpl.
    destruct (String.eqb k' k0); [done|]. by apply IH.
Qed.

Lemma delete_loop c w props d prop :
  prop ∈ props -> dict_lookup prop d = None ->
  for_acc props (VDict d) (fun d del_prop => lift (delete_key d del_prop)) c w
    = (Raise KeyError, w).
Proof.
  revert d. induction props as [|p props IH]; intros d Hin Hnone.
  { by apply elem_of_nil in Hin. }
  simpl. unfold bind at 1, lift at 1. simpl.
  destruct (dict_del p d) as [d'|] eqn:Hdel; [|done].
  apply elem_of_cons in Hin as [->|Hin].
  - by rewrite dict_del_None in Hdel.
  - apply IH; [done|]. by eapply dict_del_lookup_None.
Qed.


(** ** The records a stage leaves alone *)

Section untouched.
Context (c : ctx) (T : string) (S : string -> Prop).

#[global] Instance untouched_quiet : Quiet any_call (untouched T S).
Proof.
  split; [split|].
  - by intros w t k _.
  - intros w1 w2 w3 H12 H23 t k H. by rewrite H23, H12.
  - intros w w' E _ t k _. by rewrite E.
Qed.

Lemma stable_update_item_scanned key sets :
  (forall k, str_of key = Some k -> S k) ->
  stable c (untouched T S) (update_item T key sets).
Proof.
  intros Hkey w t k' Hk'. unfold update_item.
  destruct (str_of key) as [k|] eqn:E; [|done].
  destruct (aws c _ _); [|done]. simpl.
  case_decide as Ht; [|done]. subst t.
  rewrite lookup_insert_ne; [done|]. intros ->.
  destruct Hk' as [?|Hk']; [done|]. by apply Hk', Hkey.
Qed.

Lemma stable_for_in {A} R `{!PreOrder R} (l : list A) (body : A -> M unit) :
  (forall x, x ∈ l -> stable c R (body x)) -> stable c R (for_ l body).
Proof.
  induction l as [|x l IH]; intros Hb; simpl.
  - by apply stable_ret.
  - apply stable_bind; [done|apply Hb; by left|].
    intros _ _ _. apply IH. intros y Hy. apply Hb. by right.
Qed.

Lemma stable_catalog_process_scanned db role acct obj :
  (forall key k, subscript obj "id" = Ok key -> str_of key = Some k -> S k) ->
  stable c (untouched T S) (catalog_creator_s3.process T db role acct obj).
Proof.
  intros Hobj.
  unfold catalog_creator_s3.process,
    catalog_creator_s3.create_data_catalog_table,
    catalog_creator_s3.create_crawler, catalog_creator_s3.update_ddb.
  stable_auto. apply stable_update_item_scanned.
  match goal with
  | H : fst (lift (subscript obj "id") _ _) = Ok _ |- _ => simpl in H
  end.
  intros k Hk. by eapply Hobj.
Qed.

Lemma stable_job_process_scanned out assets script role obj :
  (forall key k, subscript obj "id" = Ok key -> str_of key = Some k -> S k) ->
  stable c (untouched T S)
    (s3_glue_job_creator.process T out assets script role obj).
Proof.
  intros Hobj.
  unfold s3_glue_job_creator.process, s3_glue_job_creator.create_glue_job,
    s3_glue_job_creator.update_ddb.
  stable_auto. apply stable_update_item_scanned.
  match goal with
  | H : fst (lift (subscript obj "id") _ _) = Ok _ |- _ => simpl in H
  end.
  intros k Hk. by eapply Hobj.
Qed.

End untouched.

Lemma fetch_ddb_results_run c q w resp w' :
  _fetch_ddb_results q c w = (Ok resp, w') ->
  get resp "Items" = Ok (VList (map VDict (select q (ddb w (from_ q))))) /\
  ddb w' = ddb w.
Proof.
  unfold _fetch_ddb_results. intros H.
  apply bind_inv_Ok in H as (r & w1 & Hr & H).
  unfold execute_statement in Hr. destruct (aws c _ _); [|done].
  injection Hr as <- <-.
  apply bind_inv_Ok in H as ([] & w2 & H2 & H).
  apply check_missing_field_run in H2 as (-> & _).
  apply bind_inv_Ok in H as (md & w2 & H2 & H).
  apply lift_run in H2 as (_ & ->).
  apply bind_inv_Ok in H as ([] & w2 & H2 & H).
  apply pure_run in H2; [|apply pure__validate_field]. subst w2.
  unfold ret in H. by simplify_eq.
Qed.

Lemma unmarshall_loop c items w acc :
  for_acc (map VDict items) acc
    (fun unmarshalled ddb_item =>
       match ddb_item with
       | VDict _ => ret (unmarshalled ++ [ddb_item])%list
       | _ => raise AttributeError
       end) c w = (Ok (acc ++ map VDict items)%list, w).
Proof.
  revert acc. induction items as [|it items IH]; intros acc; simpl.
  - by rewrite app_nil_r.
  - unfold bind at 1, ret at 1. rewrite IH. by rewrite <- app_assoc.
Qed.

Lemma unmarshall_run c items w l w' :
  unmarshall_ddb_items (VList (map VDict items)) c w = (Ok l, w') ->
  l = map VDict items /\ w' = w.
Proof.
  unfold unmarshall_ddb_items. intros H.
  apply bind_inv_Ok in H as (l0 & w1 & H1 & H).
  apply lift_run in H1 as (H1 & ->). simpl in H1. injection H1 as <-.
  rewrite unmarshall_loop in H. by simplify_eq.
Qed.

Lemma scanned_ids q tb k item :
  keyed_by_id tb -> tb !! k = Some item ->
  satisfies (where_ q) item = false ->
  ~ ids_of (map VDict (select q tb)) k.
Proof.
  intros Hwf Hitem Hno (obj & key & Hin & Hid & Hk).
  apply list_elem_of_fmap in Hin as (it & -> & Hin).
  apply elem_of_select in Hin as (Hsat & k' & Hk').
  simpl in Hid. rewrite (Hwf _ _ Hk') in Hid. injection Hid as <-.
  simpl in Hk. injection Hk as <-. congruence.
Qed.

(** X13.  A stage handler updates no record other than those its scan
    returned.  In a tracker table whose records are stored under their
    [id], a record that does not match the scan of the catalog stage is
    what it was after the catalog stage has run, and likewise for the job
    stage; neither scan matches a record whose [data_source_type] is not
    [s3], so the records of DynamoDB tables and of RDS tables are never
    advanced by these handlers. *)
Theorem stages_update_scanned_records_only (c : ctx) (w : world) (T k : string)
    (item : dict) :
  environ c !! "DDB_GLUE_TRACKER_TABLE_NAME" = Some T ->
  keyed_by_id (ddb w T) ->
  ddb w T !! k = Some item ->
  (satisfies (where_ (catalog_creator_s3.DDB_PARTIQL T)) item = false ->
   ddb (snd (catalog_creator_s3.lambda_handler c w)) T !! k = Some item) /\
  (satisfies (where_ (s3_glue_job_creator.DDB_PARTIQL T)) item = false ->
   ddb (snd (s3_glue_job_creator.lambda_handler c w)) T !! k = Some item) /\
  (forall ty,
     dict_lookup "data_source_type" item = Some (VStr ty) -> ty <> "s3" ->
     satisfies (where_ (catalog_creator_s3.DDB_PARTIQL T)) item = false /\
     satisfies (where_ (s3_glue_job_creator.DDB_PARTIQL T)) item = false).
Proof.
  intros Henv Hwf Hitem. split; [|split].
  - intros Hno.
    set (S := ids_of (map VDict (select (catalog_creator_s3.DDB_PARTIQL T) (ddb w T)))).
    assert (stable_at c (untouched T S) catalog_creator_s3.lambda_handler w) as H.
    { unfold catalog_creator_s3.lambda_handler.
      apply stable_at_bind; [apply _|apply stable_stable_at; stable_auto|].
      intros name w1 Hname. apply os_environ_run in Hname as (-> & ->).
      unfold catalog_creator_s3.GLUE_TRACKER_DDB_TABLE_NAME_ENV_VAR.
      rewrite Henv. destruct (negb (truthy (VStr T)));
        [apply stable_stable_at; stable_auto|].
      change (py_str (VStr T)) with T.
      apply stable_at_bind; [apply _|apply stable_stable_at; stable_auto|].
      intros resp w1 Hresp. apply fetch_ddb_results_run in Hresp as (Hitems & Hd).
      apply stable_at_bind; [apply _|apply stable_stable_at; stable_auto|].
      intros items w2 Hit. apply lift_run in Hit as (Hit & ->).
      rewrite Hitems in Hit. injection Hit as <-.
      destruct (negb (truthy _)); [apply stable_stable_at; stable_auto|].
      apply stable_at_bind; [apply _|apply stable_stable_at; stable_auto|].
      intros objs w2 Hobjs. apply unmarshall_run in Hobjs as (-> & ->).
      apply stable_stable_at.
      apply stable_bind; [apply _|stable_auto|]. intros role w2 _.
      destruct (negb (truthy role)); [stable_auto|].
      apply stable_bind; [apply _|stable_auto|]. intros dbn w3 _.
      destruct (negb (truthy dbn)); [stable_auto|].
      apply stable_bind; [apply _|stable_auto|]. intros ident w4 _.
      apply stable_bind; [apply _|stable_auto|]. intros acct w5 _.
      apply stable_for_in; [apply _|]. intros obj Hobj.
      apply stable_catalog_process_scanned. intros key k' Hid Hk'.
      by exists obj, key. }
    rewrite (H T k), Hitem; [done|]. right. by eapply scanned_ids.
  - intros Hno.
    set (S := ids_of (map VDict (select (s3_glue_job_creator.DDB_PARTIQL T) (ddb w T)))).
    assert (stable_at c (untouched T S) s3_glue_job_creator.lambda_handler w) as H.
    { unfold s3_glue_job_creator.lambda_handler.
      apply stable_at_bind; [apply _|apply stable_stable_at; stable_auto|].
      intros name w1 Hname. apply os_environ_run in Hname as (-> & ->).
      unfold s3_glue_job_creator.GLUE_TRACKER_DDB_TABLE_NAME_ENV_VAR.
      rewrite Henv. destruct (negb (truthy (VStr T)));
        [apply stable_stable_at; stable_auto|].
      change (py_str (VStr T)) with T.
      apply stable_at_bind; [apply _|apply stable_stable_at; stable_auto|].
      intros resp w1 Hresp. apply fetch_ddb_results_run in Hresp as (Hitems & Hd).
      apply stable_at_bind; [apply _|apply stable_stable_at; stable_auto|].
      intros items w2 Hit. apply lift_run in Hit as (Hit & ->).
      rewrite Hitems in Hit. injection Hit as <-.
      destruct (negb (truthy _)); [apply stable_stable_at; stable_auto|].
      apply stable_at_bind; [apply _|apply stable_stable_at; stable_auto|].
      intros objs w2 Hobjs. apply unmarshall_run in Hobjs as (-> & ->).
      apply stable_stable_at.
      apply stable_bind; [apply _|stable_auto|]. intros out w2 _.
      destruct (negb (truthy out)); [stable_auto|].
      apply stable_bind; [apply _|stable_auto|]. intros assets w3 _.
      destruct (negb (truthy assets)) eqn:Hassets; [stable_auto|].
      apply stable_bind; [apply _|stable_auto|]. intros script w4 _.
      apply stable_bind; [apply _|stable_auto|]. intros role w5 _.
      destruct (negb (truthy role)); [stable_auto|].
      apply stable_for_in; [apply _|]. intros obj Hobj.
      apply stable_job_process_scanned. intros key k' Hid Hk'.
      by exists obj, key. }
    rewrite (H T k), Hitem; [done|]. right. by eapply scanned_ids.
  - intros ty Hty Hne. simpl. rewrite Hty. simpl. unfold eq_str. simpl.
    apply String.eqb_neq in Hne. rewrite Hne. by rewrite !andb_false_r.
Qed.

(** ** What the queue consumer inserts *)

Lemma delete_ok c mid rh handle url resp w :
  environ c !! "SQS_QUEUE_URL" = Some url -> url <> "" ->
  str_of rh = Some handle ->
  aws c (calls w) (delete_request url rh) = Ok resp ->
  status_200 resp ->
  glue_tracking_initial._delete_sqs_message
    (VDict [("message_id", mid); ("receipt_handle", rh)]) c w
  = (Ok tt, log_call (delete_request url rh) w).
Proof.
  intros Henv Hurl Hrh Haws (md & Hmd & Hst).
  unfold glue_tracking_initial._delete_sqs_message, delete_message, bind, lift,
    os_environ, os_environ_get, bind, ret, raise, boto. simpl.
  unfold glue_tracking_initial.SQS_QUEUE_URL_ENV_VAR. rewrite Henv. simpl.
  apply String.eqb_neq in Hurl. rewrite Hurl. simpl. rewrite Hrh.
  unfold delete_request in Haws. rewrite Haws. simpl. rewrite Hmd. simpl.
  rewrite Hst. by destruct md.
Qed.

Lemma message_body_of_delivery c event first rest m w :
  field event "test_event" = None ->
  get event "Records" = Ok (VList (first :: rest)) ->
  get first "body" = Ok (VJson m) ->
  _get_message_body event c w = (Ok m, w).
Proof.
  intros Htest Hrec Hbody.
  unfold _get_message_body, bind, lift, try_except, ret, raise.
  destruct event as [| | | | | |d]; try done. simpl in *.
  assert (dict_lookup "Records" d = Some (VList (first :: rest))) as Hd
    by (destruct (dict_lookup "Records" d); by simplify_eq).
  rewrite Htest, Hd. simpl. by rewrite Hbody.
Qed.

(** X14.  A message the tracking queue delivers with a receipt handle that
    is a [str], whose body is the JSON text of a dict with
    [data_source_type] and [data_source_attrs] (what the two triggers
    publish), is deleted from the queue and then inserted: the consumer draws one identifier and ends with the
    conditional insert of a record that carries these two values and both
    stage flags false. *)
Theorem delivery_is_inserted (c : ctx) (event first m ty attrs rh : value)
    (rest : list value) (handle url T : string) (resp : dict) (w : world) :
  field event "test_event" = None ->
  get event "Records" = Ok (VList (first :: rest)) ->
  queue_delivery event rh ->
  str_of rh = Some handle ->
  get first "body" = Ok (VJson m) ->
  subscript m "data_source_type" = Ok ty ->
  subscript m "data_source_attrs" = Ok attrs ->
  environ c !! "SQS_QUEUE_URL" = Some url -> url <> "" ->
  environ c !! "GLUE_TRACKER_TABLE_NAME" = Some T -> T <> "" ->
  aws c (calls w) (delete_request url rh) = Ok resp ->
  status_200 resp ->
  glue_tracking_initial.lambda_handler event c w =
    insert_record T
      (glue_tracking_initial.python_obj (uuid_at c (drawn w)) ty attrs) c
      (World (ddb w) (calls w ++ [delete_request url rh]) (S (drawn w))).
Proof.
  intros Htest Hrec Hqd Hrh Hbody Hty Hattrs Hurl Hurl' HT HT' Haws Hok.
  destruct (queue_delivery_attributes c event rh w Hqd) as [mid Hattr].
  rewrite (glue_tracking_initial_after_attributes _ _ _ _ Hattr).
  change (truthy (VDict [("message_id", mid); ("receipt_handle", rh)])) with true.
  cbv iota.
  rewrite (bind_Ok_run _ _ _ _ _ _ (delete_ok c mid rh handle url resp w Hurl Hurl' Hrh Haws Hok)).
  rewrite bind_assoc_run.
  rewrite (bind_Ok_run _ _ _ _ _ _
             (message_body_of_delivery c event first rest m _ Htest Hrec Hbody)).
  unfold bind, os_environ, os_environ_get, bind, ret, raise, uuid4, lift.
  unfold glue_tracking_initial.DDB_TABLE_NAME_ENV_VAR. rewrite HT. simpl.
  apply String.eqb_neq in HT'. rewrite HT'. simpl. by rewrite Hty, Hattrs.
Qed.

(** X15.  An event marked [test_event] (the text [true], in any case) that
    carries no [Records] is its own message body: the consumer sends no
    request to the queue, draws one identifier and ends with the
    conditional insert of the record made of the [data_source_type] and
    the [data_source_attrs] of the event itself. *)
Theorem test_event_skips_the_queue (c : ctx) (event t ty attrs : value)
    (T : string) (w : world) :
  field event "test_event" = Some t ->
  str_lower t = Ok "true" ->
  field event "Records" = None ->
  field event "data_source_type" = Some ty ->
  field event "data_source_attrs" = Some attrs ->
  environ c !! "GLUE_TRACKER_TABLE_NAME" = Some T -> T <> "" ->
  glue_tracking_initial.lambda_handler event c w =
    insert_record T
      (glue_tracking_initial.python_obj (uuid_at c (drawn w)) ty attrs) c
      (World (ddb w) (calls w) (S (drawn w))).
Proof.
  intros Htest Hlower Hrec Hty Hattrs HT HT'.
  destruct event as [| | | | | |d]; try done. simpl in *.
  unfold glue_tracking_initial.lambda_handler,
    glue_tracking_initial.tracker_item, _get_sqs_message_attributes,
    _get_message_body, bind, lift, ret, raise, os_environ, os_environ_get,
    bind, ret, uuid4.
  simpl. rewrite Hrec, Htest. simpl. rewrite Hlower. simpl.
  unfold glue_tracking_initial.DDB_TABLE_NAME_ENV_VAR. rewrite HT. simpl.
  apply String.eqb_neq in HT'. rewrite HT'. simpl. by rewrite Hty, Hattrs.
Qed.

(** X16.  A delivery whose first record lacks its receipt handle or its
    message identifier is rejected by the three queue consumers
    (glue-tracking-initial, rds-glue-initial, rds-ddl-init) with
    [MalformedEvent], before any request: nothing is deleted from the
    queue and the body is not read. *)
Theorem incomplete_delivery_is_rejected (c : ctx) (event : value) (d : dict)
    (rest : list value) (w : world) :
  get event "Records" = Ok (VList (VDict d :: rest)) ->
  truthy (default VNone (dict_lookup "receiptHandle" d)) = false \/
  truthy (default VNone (dict_lookup "messageId" d)) = false ->
  glue_tracking_initial.lambda_handler event c w = (Raise MalformedEvent, w) /\
  rds_glue_provision.lambda_handler event c w = (Raise MalformedEvent, w) /\
  rds_ddl_init.lambda_handler event c w = (Raise MalformedEvent, w).
Proof.
  intros Hrec Hmiss.
  assert (_get_sqs_message_attributes event c w = (Raise MalformedEvent, w))
    as Hattr.
  { unfold _get_sqs_message_attributes, bind, lift, try_except, ret, raise.
    rewrite Hrec. simpl.
    destruct Hmiss as [H|H]; rewrite H; simpl; [done|].
    by destruct (truthy (default VNone (dict_lookup "receiptHandle" d))). }
  split; [|split].
  - unfold glue_tracking_initial.lambda_handler,
      glue_tracking_initial.tracker_item.
    rewrite bind_assoc_run. by apply bind_Raise_run.
  - unfold rds_glue_provision.lambda_handler, rds_glue_initial.lambda_handler.
    by apply bind_Raise_run.
  - unfold rds_ddl_init.lambda_handler. apply bind_Raise_run.
    by rewrite ddl_init_attributes_agree.
Qed.

(** ** pii-report as a whole *)

Lemma stable_execute_projection c okc R `{!Quiet okc R} names q :
  okc (pii_report.execute_projection_request names q) ->
  stable c R (pii_report.execute_projection names q).
Proof.
  intros Hok w. unfold pii_report.execute_projection.
  destruct (aws c _ _); by eapply quiet_log.
Qed.

Lemma stable_pii_report strptime c :
  stable c (only_calls any_call) (pii_report.lambda_handler strptime).
Proof.
  unfold pii_report.lambda_handler, pii_report.report_table,
    pii_report._fetch_pii_results, pii_report.update_catalog_table,
    pii_report.glue_get_table, pii_report.note_record, pii_report.note_column,
    pii_report.annotate.
  stable_auto.
  apply (stable_execute_projection _ any_call); [apply _|exact I].
Qed.

(** X17.  pii-report only reads DynamoDB: no table is changed by an
    invocation.  When the PII output table holds no record of the
    configured data source, the scan of that table is the only request of
    the invocation (STS and Glue are not called) and the handler returns,
    unless DynamoDB refused the scan. *)
Theorem pii_report_reads_only (strptime : string -> option Z) (c : ctx)
    (w : world) :
  let r := pii_report.lambda_handler strptime c w in
  ddb (snd r) = ddb w /\
  (forall T ds,
     environ c !! "OUTPUT_TABLE_NAME" = Some T -> T <> "" ->
     environ c !! "DATA_SOURCE_NAME" = Some ds -> ds <> "" ->
     select (pii_report.PARTIQL T ds) (ddb w T) = [] ->
     let scan := execute_statement_request (pii_report.PARTIQL T ds) in
     issued w (snd r) = [scan] /\
     fst r = match aws c (calls w) scan with
             | Ok _ => Ok tt
             | Raise e => Raise e
             end).
Proof.
  intros r. split.
  { by destruct (stable_pii_report strptime c w). }
  intros T ds HT HT' Hds Hds' Hnone scan. subst r scan.
  apply String.eqb_neq in HT', Hds'.
  unfold pii_report.lambda_handler, bind, os_environ, os_environ_get, bind, ret,
    raise, pii_report.PII_OUTPUT_TABLE, pii_report.DATA_SOURCE.
  rewrite HT. simpl. rewrite HT'. simpl. rewrite Hds. simpl. rewrite Hds'. simpl.
  unfold _fetch_ddb_results, bind, execute_statement. simpl.
  destruct (aws c (calls w) _) as [resp|e]; simpl.
  - change (py_str (VStr T)) with T. change (py_str (VStr ds)) with ds.
    rewrite Hnone. simpl. split; [apply issued_log|done].
  - split; [apply issued_log|done].
Qed.

(** * Further properties on sample inputs *)

(** [tag_report_tables] on a tagged DynamoDB table: the row goes to
    [tagCaptureTable], the table [TAG_REPORT_TABLE_NAME] names stays
    empty. *)
Lemma tag_report_tables_witness :
  let w := with_tracker {["id-0" := sample_rds.table_record "id-0"]} in
  let w' := snd (ddb_tag_report.lambda_handler sample_rds.cloud w) in
  ddb w' "tags" = ddb w "tags" /\ size (ddb w' "tagCaptureTable") = 1%nat.
Proof.
  intros w w'. split.
  - apply (proj1 (tag_report_tables sample_rds.cloud w "tags")). discriminate.
  - vm_compute. reflexivity.
Defined.

(** [secret_name_is_the_last_listed] when the secret of the cluster is
    listed first: the ARN is that of the first secret, the name that of
    the second. *)
Lemma secret_name_witness :
  let r := rds_glue_provision._fetch_secret_for_db (VStr "cluster-1")
             sample_rds.cloud start in
  fst r = Ok (VStr "arn:secret/1", VStr "other") /\
  exists secret,
    last sample_rds.secrets = Some secret /\
    field secret "Name" = Some (VStr "other").
Proof.
  intros r. split; [vm_compute; reflexivity|].
  apply (secret_name_is_the_last_listed sample_rds.cloud (VStr "cluster-1") start
           (snd r) (("SecretList", VList sample_rds.secrets) :: ok200)
           sample_rds.secrets (VStr "arn:secret/1") (VStr "other")).
  - vm_compute. reflexivity.
  - vm_compute. reflexivity.
  - vm_compute. reflexivity.
Defined.

(** [no_secret_no_provisioning] on a cluster that has no secret. *)
Lemma no_secret_witness :
  let r := rds_glue_provision.provision (sample_rds.cluster_created "cluster-9")
             sample_rds.cloud start in
  ddb (snd r) = ddb start /\
  Forall (fun rq => service rq = "secretsmanager") (issued start (snd r)).
Proof.
  apply (no_secret_no_provisioning sample_rds.cloud
           (sample_rds.cluster_created "cluster-9") start).
  intros cid Hcid hist name id H. vm_compute in Hcid. injection Hcid as <-.
  unfold cluster_of_secret in H. simpl in H.
  destruct (eq_str name "cluster-1-secret"); simpl in H; injection H as <-;
    reflexivity.
Defined.

(** [one_crawler_per_schema] on three records, of which one names a
    schema. *)
Lemma one_crawler_witness :
  for_acc sample_rds.schema_records [] rds_glue_provision.schema_of
    sample_rds.cloud start = (Ok [VStr "public"], start).
Proof.
  apply (proj1 (one_crawler_per_schema sample_rds.cloud sample_rds.schema_records
                  (VStr "cluster-1") (VStr "db") (VStr "arn:role")
                  "glue-connection-cluster-1" start start ltac:(
                    repeat constructor; eexists; (split; [reflexivity|]);
                    repeat constructor; by eexists))).
Defined.

(** [secret_lookup_stops_at_the_match] when the secret of the cluster is
    listed first: the value of the second secret is not asked for. *)
Lemma secret_lookup_witness :
  let r := rds_ddl._fetch_secret_for_db (VStr "cluster-1") sample_rds.cloud start in
  fst r = Ok (VStr "arn:secret/1") /\
  List.length (calls (snd r)) = 2%nat /\
  ddb (snd r) = ddb start.
Proof.
  intros r. split; [vm_compute; reflexivity|]. split; [vm_compute; reflexivity|].
  apply (secret_lookup_stops_at_the_match sample_rds.cloud (VStr "cluster-1") start
           (snd r) (("SecretList", VList sample_rds.secrets) :: ok200)
           sample_rds.secrets (VStr "arn:secret/1")).
  - vm_compute. reflexivity.
  - vm_compute. reflexivity.
  - vm_compute. reflexivity.
Defined.

(** [ddl_file_statements] on a file of two statements and an empty
    piece. *)
Lemma ddl_file_witness :
  let r := rds_ddl.run_ddl (VStr "ddl-source-cluster-1") (VStr "rds-ddl.sql")
             (VStr "arn:secret/1") (VStr "app") (VStr "arn:cluster/1")
             sample_rds.cloud start in
  statements sample_rds.ddl_text = ["CREATE TABLE a (x int)"; "CREATE TABLE b (y int)"] /\
  List.length (issued start (snd r)) = 3%nat.
Proof.
  intros r. split; [vm_compute; reflexivity|].
  destruct (ddl_file_statements sample_rds.cloud (VStr "ddl-source-cluster-1")
              (VStr "rds-ddl.sql") (VStr "arn:secret/1") (VStr "app")
              (VStr "arn:cluster/1") start (snd r)
              (("Body", rds_ddl.streaming_body sample_rds.ddl_text) :: ok200)
              sample_rds.ddl_text) as (_ & H & _).
  - vm_compute. reflexivity.
  - vm_compute. reflexivity.
  - vm_compute. reflexivity.
  - rewrite H. vm_compute. reflexivity.
Defined.

(** [pii_comments] on a table with a sensitive column [email] and a column
    [Id]. *)
Lemma pii_comments_witness :
  let columns := [sample_rds.finding "db_b1" "2024-01-01 00:00:00.000000" "Email"] in
  let cols := [VDict [("Name", VStr "email"); ("Type", VStr "string")];
               VDict [("Name", VStr "Id"); ("Type", VStr "int")]] in
  let pii := [("email", VStr "['EMAIL']")] in
  let cols' := [VDict [("Name", VStr "email"); ("Type", VStr "string");
                       ("Comment", VStr "Sensitive Data Element | ['EMAIL']")];
                VDict [("Name", VStr "Id"); ("Type", VStr "int")]] in
  Forall2 annotated cols cols'.
Proof.
  intros columns cols pii cols'.
  apply (pii_comments sample_rds.cloud columns cols cols' pii start start start).
  - vm_compute. reflexivity.
  - vm_compute. reflexivity.
Defined.

(** [latest_timestamp_per_table] on three findings about two tables. *)
Lemma latest_timestamp_witness :
  let recs := [sample_rds.finding "db_b1" "2024-01-01 00:00:00.000000" "email";
               sample_rds.finding "db_b2" "2024-01-05 00:00:00.000000" "phone";
               sample_rds.finding "db_b1" "2024-02-01 00:00:00.000000" "email"] in
  let d := [(VStr "db_b1",
             pii_report.Latest (VStr "db") 20240201000000000000
               (VStr "2024-02-01 00:00:00.000000"));
            (VStr "db_b2",
             pii_report.Latest (VStr "db") 20240105000000000000
               (VStr "2024-01-05 00:00:00.000000"))] in
  let rec := sample_rds.finding "db_b1" "2024-01-01 00:00:00.000000" "email" in
  exists k t e,
    table_of rec = Some k /\ instant_of sample_rds.digits rec = Some t /\
    pii_report.find_key k d = Some e /\ t <= pii_report.timestamp e.
Proof.
  intros recs d rec.
  apply (proj1 (proj2 (latest_timestamp_per_table sample_rds.digits
                         sample_rds.cloud recs start start d
                         ltac:(vm_compute; reflexivity)))
           rec).
  constructor.
Defined.


(** [stages_update_scanned_records_only] on the record of a DynamoDB
    table: the catalog stage leaves it as it is. *)
Lemma stages_witness :
  let w := with_tracker {["id-0" := sample_rds.table_record "id-0"]} in
  ddb (snd (catalog_creator_s3.lambda_handler sample_rds.cloud w)) "tracker"
    !! "id-0" = Some (sample_rds.table_record "id-0").
Proof.
  intros w.
  apply (proj1 (stages_update_scanned_records_only sample_rds.cloud w "tracker"
                  "id-0" (sample_rds.table_record "id-0")
                  ltac:(vm_compute; reflexivity)
                  ltac:(intros k item H;
                        change (ddb w "tracker") with
                          ({["id-0" := sample_rds.table_record "id-0"]} : table) in H;
                        apply lookup_singleton_Some in H as [<- <-]; reflexivity)
                  ltac:(vm_compute; reflexivity))).
  vm_compute. reflexivity.
Defined.

(** [delivery_is_inserted] on the discovery of a bucket, as s3-trigger
    publishes it. *)
Lemma delivery_witness :
  let event := delivery (VJson s3_discovery) in
  glue_tracking_initial.lambda_handler event cloud start =
    insert_record "tracker"
      (glue_tracking_initial.python_obj "id-0" (VStr "s3") (bucket "b1")) cloud
      (World (ddb start) [delete_request "queue/tracking" (VStr "rh-1")] 1).
Proof.
  intros event.
  apply (delivery_is_inserted cloud event
           (VDict [("receiptHandle", VStr "rh-1"); ("messageId", VStr "m-1");
                   ("body", VJson s3_discovery)])
           s3_discovery (VStr "s3") (bucket "b1") (VStr "rh-1") []
           "rh-1" "queue/tracking" "tracker" ok200 start).
  - reflexivity.
  - reflexivity.
  - exists (VDict [("receiptHandle", VStr "rh-1"); ("messageId", VStr "m-1");
                   ("body", VJson s3_discovery)]), [], (VStr "m-1").
    repeat split; reflexivity.
  - reflexivity.
  - reflexivity.
  - reflexivity.
  - reflexivity.
  - vm_compute. reflexivity.
  - discriminate.
  - vm_compute. reflexivity.
  - discriminate.
  - reflexivity.
  - exists [("HTTPStatusCode", VNum 200)]. split; reflexivity.
Defined.

(** [test_event_skips_the_queue] on a test event about a bucket. *)
Lemma test_event_witness :
  let event := VDict [("test_event", VStr "True");
                      ("data_source_type", VStr "s3");
                      ("data_source_attrs", bucket "b1")] in
  glue_tracking_initial.lambda_handler event cloud start =
    insert_record "tracker"
      (glue_tracking_initial.python_obj "id-0" (VStr "s3") (bucket "b1")) cloud
      (World (ddb start) [] 1).
Proof.
  intros event.
  apply (test_event_skips_the_queue cloud event (VStr "True") (VStr "s3")
           (bucket "b1") "tracker" start).
  - reflexivity.
  - reflexivity.
  - reflexivity.
  - reflexivity.
  - reflexivity.
  - vm_compute. reflexivity.
  - discriminate.
Defined.

(** [incomplete_delivery_is_rejected] on a delivery without a message
    identifier. *)
Lemma incomplete_delivery_witness :
  let event := VDict [("Records",
                       VList [VDict [("receiptHandle", VStr "rh-1");
                                     ("body", VJson s3_discovery)]])] in
  glue_tracking_initial.lambda_handler event cloud start
    = (Raise MalformedEvent, start).
Proof.
  intros event.
  apply (incomplete_delivery_is_rejected cloud event
           [("receiptHandle", VStr "rh-1"); ("body", VJson s3_discovery)] []
           start).
  - reflexivity.
  - right. reflexivity.
Defined.

(** [pii_report_reads_only] when the PII output table is empty. *)
Lemma pii_report_witness :
  let r := pii_report.lambda_handler sample_rds.digits sample_rds.cloud start in
  issued start (snd r) =
    [execute_statement_request (pii_report.PARTIQL "pii" "s3")] /\
  fst r = Ok tt.
Proof.
  apply (proj2 (pii_report_reads_only sample_rds.digits sample_rds.cloud start)
           "pii" "s3").
  - vm_compute. reflexivity.
  - discriminate.
  - vm_compute. reflexivity.
  - discriminate.
  - vm_compute. reflexivity.
Defined.
